(** * Posture: the ergonomic scoring engine

    A shallow embedding of the scoring core of the Posture repository, and
    the properties of it that the specification states.

    - [JS]              : the JavaScript idioms the sources rely on (array
      reads, [||], [Math.round], objects and object literals);
    - [RebaCalculator]  : the REBA calculator (component scorers, Tables A, B
      and C, [calculateREBA]);
    - [WeightDetection] : the weight-detection utilities (posture analysis,
      weight estimate, the weight-adjusted RULA and REBA scores, and the RULA
      tables kept next to them);
    - [Libm]            : one [Math.atan2] and [Math.acos], to run the
      embedding;
    - [RecommendationEngine] : the REBA and pose-quality recommendations
      of the recommendation engine, which read the scores above;
    - [ManualWeightInput], [RebaRecordingPanel] : the handlers of the
      manual-weight dialog and the functions of the recording panel that
      pass the manual weights to the REBA adjuster.

    Numbers.  A JavaScript number is a binary64 float.  Numbers computed from
    keypoint coordinates are modelled as such ([PrimFloat.float], with the
    kernel's IEEE 754 operations); [Math.atan2] and [Math.acos], which
    ECMA-262 leaves implementation-approximated, are parameters of the
    sections that use them.  Component scores and table entries are integers
    and are modelled in [Z].  Weights in kilograms and the weight multipliers
    are decimal literals and are modelled exactly, in [Q]; on integer
    scores from 0 to 100, which covers the scores the tables hold,
    [binary64_roundings_check] shows that rounding the binary64 product
    gives the very integer that rounding the exact product gives, and the
    statements that fix a rounded score are made for such scores.  The
    manual weights of the dialog are summed exactly, which is what the
    binary64 sum does on whole numbers of grams.

    Errors.  A property read on [undefined] throws a [TypeError]; functions
    that read keypoints return an [option], [None] being the throw (or, for
    [calculateREBA], the [null] it returns after catching it).

    Objects.  The weight adjusters take the base score as [any] and build
    their result with an object literal that spreads it; a score object is
    a finite map from property names to values, on a heap of objects. *)

From Stdlib Require Import ZArith QArith Qround Lia Lqa.
From Stdlib Require Import PrimFloat FloatOps SpecFloat.
From Stdlib Require FloatAxioms.
From stdpp Require Import base option list gmap strings.

Set Warnings "-inexact-float".

(* ===================================================================== *)
(** * JavaScript idioms shared by both source files                       *)
(* ===================================================================== *)

Module JS.

(** [a[i]] on an array: [undefined] ([None]) outside the array. *)
Definition index {A : Type} (a : list A) (i : Z) : option A :=
  if (i <? 0)%Z then None else a !! Z.to_nat i.

(** [v || d] where [v] is a number or [undefined]: [0] is falsy too. *)
Definition or_num (v : option Z) (d : Z) : Z :=
  match v with
  | Some n => if (n =? 0)%Z then d else n
  | None => d
  end.

(** [f || 0] on a float that may be [undefined]: [NaN] and both zeros are
    falsy. *)
Definition or_zero (v : option float) : float :=
  match v with
  | Some f => if PrimFloat.is_nan f || PrimFloat.is_zero f then 0%float else f
  | None => 0%float
  end.

Definition Math_PI : float := 0x1.921fb54442d18p+1%float.

(** [Math.round]: the nearest integer, ties towards +infinity; [NaN], the
    infinities and both zeros are returned unchanged, and a negative
    argument that rounds to zero gives [-0]. *)
Definition Math_round (x : float) : float :=
  match Prim2SF x with
  | S754_finite s m e =>
      if (0 <=? e)%Z then x
      else
        let k := (2 ^ (- e))%Z in
        let n := if s then ((k - 2 * Z.pos m) / (2 * k))%Z
                 else ((2 * Z.pos m + k) / (2 * k))%Z in
        SF2Prim (binary_normalize prec emax n 0 s)
  | _ => x
  end.

(** [Math.ceil]: the least integer not below [x], with the same special
    cases. *)
Definition Math_ceil (x : float) : float :=
  match Prim2SF x with
  | S754_finite s m e =>
      if (0 <=? e)%Z then x
      else
        let k := (2 ^ (- e))%Z in
        let n := if s then (- (Z.pos m / k))%Z
                 else (- ((- Z.pos m) / k))%Z in
        SF2Prim (binary_normalize prec emax n 0 s)
  | _ => x
  end.

(** Truthiness of a value that is an object or [undefined]. *)
Definition truthy {A : Type} (v : option A) : bool :=
  match v with Some _ => true | None => false end.

(** [Math.round] and [Math.ceil] on an exact rational. *)
Definition Math_round_Q (q : Q) : Z := Qfloor (q + (1 # 2))%Q.
Definition Math_ceil_Q (q : Q) : Z := Qceiling q.

(** [a > b] on exact rationals. *)
Definition Q_gt (a b : Q) : bool := negb (Qle_bool a b).

(** [v || d] where [v] is an optional number argument: [undefined]
    ([None]) and [0] are falsy. *)
Definition or_else (v : option Q) (d : Q) : Q :=
  match v with
  | Some q => if Qeq_bool q 0 then d else q
  | None => d
  end.

(** Property values of the score objects, and the object literal
    [{...base, k1: v1, ..., kn: vn}]: the properties of [base], then each
    listed property set in turn. *)
Inductive value : Type :=
| VNum (q : Q)
| VStr (s : string)
| VBool (b : bool).

Definition spread (base : gmap string value) (props : list (string * value))
    : gmap string value :=
  foldl (fun o kv => <[kv.1 := kv.2]> o) base props.

(** [o.k] read as a number; [None] when the property is absent or is not a
    number (such objects are outside the embedding). *)
Definition num_prop (o : gmap string value) (k : string) : option Q :=
  match o !! k with
  | Some (VNum q) => Some q
  | _ => None
  end.

End JS.

(** Comparison operators of the source on floats, as booleans. *)
Declare Scope js_scope.
Delimit Scope js_scope with js.
Notation "x < y" := (PrimFloat.ltb x y) : js_scope.
Notation "x > y" := (PrimFloat.ltb y x) (only parsing) : js_scope.
Notation "x <= y" := (PrimFloat.leb x y) : js_scope.
Notation "x >= y" := (PrimFloat.leb y x) (only parsing) : js_scope.

(** A keypoint of the pose model. *)
Record Keypoint : Type := mkKeypoint {
  x : float;
  y : float;
  score : float
}.

(** A pose as the scorers receive it is an array whose entries may be
    [undefined] ([None]); [kp keypoints i] is [keypoints[i]] for a literal
    index, [undefined] past the end of the array too. *)
Definition kp (keypoints : list (option Keypoint)) (i : nat) : option Keypoint :=
  mjoin (keypoints !! i).

(* ===================================================================== *)
(** * The REBA calculator                                                 *)
(* ===================================================================== *)

Module RebaCalculator.

Local Open Scope Z_scope.

Record REBAScore : Type := mkREBAScore {
  neck : Z;
  trunk : Z;
  legs : Z;
  upperArm : Z;
  lowerArm : Z;
  wrist : Z;
  scoreA : Z;
  scoreB : Z;
  finalScore : Z;
  riskLevel : string;
  actionLevel : string;
  neckAngle : float;
  trunkAngle : float;
  upperArmAngle : float;
  lowerArmAngle : float;
  wristAngle : float
}.

Definition REBA_TABLE_A : list (list Z) :=
  [ [1; 2; 3; 4];
    [2; 3; 4; 5];
    [2; 4; 5; 6];
    [3; 5; 6; 7];
    [4; 6; 7; 8] ].

Definition REBA_TABLE_B : list (list Z) :=
  [ [1; 2; 2];
    [1; 2; 3];
    [3; 4; 5];
    [4; 5; 6];
    [6; 7; 8];
    [7; 8; 9] ].

Definition REBA_TABLE_C : list (list Z) :=
  [ [1; 1; 1; 2; 3; 3; 4; 5; 6; 7; 7; 7];
    [1; 2; 2; 3; 4; 4; 5; 6; 6; 7; 7; 8];
    [2; 3; 3; 3; 4; 5; 6; 7; 7; 8; 8; 8];
    [3; 4; 4; 4; 5; 6; 7; 8; 8; 9; 9; 9];
    [4; 4; 4; 5; 6; 7; 8; 8; 9; 9; 9; 9];
    [6; 6; 6; 7; 8; 8; 9; 9; 10; 10; 10; 10];
    [7; 7; 7; 8; 9; 9; 9; 10; 10; 11; 11; 11];
    [8; 8; 8; 9; 10; 10; 10; 10; 10; 11; 11; 11];
    [9; 9; 9; 10; 10; 10; 11; 11; 11; 12; 12; 12];
    [10; 10; 10; 11; 11; 11; 11; 12; 12; 12; 12; 12];
    [11; 11; 11; 11; 12; 12; 12; 12; 12; 12; 12; 12];
    [12; 12; 12; 12; 12; 12; 12; 12; 12; 12; 12; 12] ].

(** ** Component scorers *)

Definition getNeckScore (neckAngle : float) (isNeckTwisted : bool) : Z :=
  let score := 1 in
  let score :=
    if (neckAngle >= 0)%js && (neckAngle < 20)%js then 1
    else if (neckAngle >= 20)%js then 2
    else score in
  let score := if (neckAngle < 0)%js then 2 else score in
  let score := if isNeckTwisted then score + 1 else score in
  Z.min 3 score.

Definition getTrunkScore (trunkAngle : float) (isTrunkTwisted : bool) : Z :=
  let score := 1 in
  let score :=
    if (trunkAngle >= 0)%js && (trunkAngle < 5)%js then 1
    else if (trunkAngle >= 5)%js && (trunkAngle < 20)%js then 2
    else if (trunkAngle >= 20)%js && (trunkAngle < 60)%js then 3
    else if (trunkAngle >= 60)%js then 4
    else score in
  let score := if isTrunkTwisted then score + 1 else score in
  Z.min 5 score.

Definition getLegsScore (kneeAngle : float) (isSupported : bool) : Z :=
  let score := 1 in
  let score :=
    if (kneeAngle >= 30)%js && (kneeAngle < 60)%js then 2
    else if (kneeAngle >= 60)%js then 2
    else score in
  let score := if negb isSupported then score + 1 else score in
  Z.min 4 score.

Definition getUpperArmScore (upperArmAngle : float)
    (isShoulderRaised isArmAbducted isArmSupported : bool) : Z :=
  let score := 1 in
  let score :=
    if (upperArmAngle >= 20)%js && (upperArmAngle < 45)%js then 2
    else if (upperArmAngle >= 45)%js && (upperArmAngle < 90)%js then 3
    else if (upperArmAngle >= 90)%js then 4
    else score in
  let score := if (upperArmAngle < -20)%js then 2 else score in
  let score := if isShoulderRaised then score + 1 else score in
  let score := if isArmAbducted then score + 1 else score in
  let score := if isArmSupported then score - 1 else score in
  Z.max 1 (Z.min 6 score).

Definition getLowerArmScore (lowerArmAngle : float) : Z :=
  if (lowerArmAngle >= 60)%js && (lowerArmAngle <= 100)%js then 1 else 2.

Definition getWristScore (wristAngle : float) (isWristTwisted : bool) : Z :=
  let score := 1 in
  let score := if (PrimFloat.abs wristAngle > 15)%js then 2 else score in
  let score := if isWristTwisted then score + 1 else score in
  Z.min 3 score.

(** ** Table lookups *)

Definition getScoreA (neck trunk legs : Z) : Z :=
  let neckIndex := Z.max 0 (Z.min 4 (neck - 1)) in
  let trunkIndex := Z.max 0 (Z.min 2 (trunk - 1)) in
  let legsAdjustedIndex :=
    if legs =? 1 then 0 else if legs =? 2 then 1 else Z.min 3 (legs - 1) in
  JS.or_num (row ← JS.index REBA_TABLE_A neckIndex;
             JS.index row legsAdjustedIndex) 1.

Definition getScoreB (upperArm lowerArm wrist : Z) : Z :=
  let upperArmIndex := Z.max 0 (Z.min 5 (upperArm - 1)) in
  let lowerArmIndex := Z.max 0 (Z.min 1 (lowerArm - 1)) in
  let wristIndex := Z.max 0 (Z.min 2 (wrist - 1)) in
  JS.or_num (row ← JS.index REBA_TABLE_B upperArmIndex;
             JS.index row wristIndex) 1.

Definition getFinalScore (scoreA scoreB loadCoupling activity : Z) : Z :=
  let scoreAIndex := Z.max 0 (Z.min 11 (scoreA - 1)) in
  let scoreBIndex := Z.max 0 (Z.min 11 (scoreB - 1)) in
  let finalScore :=
    JS.or_num (row ← JS.index REBA_TABLE_C scoreAIndex;
               JS.index row scoreBIndex) 1 in
  let finalScore := finalScore + (loadCoupling + activity) in
  Z.max 1 (Z.min 15 finalScore).

Definition getRiskLevel (score : Z) : string :=
  if score =? 1 then "Negligible"
  else if (2 <=? score) && (score <=? 3) then "Low"
  else if (4 <=? score) && (score <=? 7) then "Medium"
  else if (8 <=? score) && (score <=? 10) then "High"
  else "Very High".

Definition getActionLevel (score : Z) : string :=
  if score =? 1 then "None necessary"
  else if (2 <=? score) && (score <=? 3) then "May be necessary"
  else if (4 <=? score) && (score <=? 7) then "Necessary"
  else if (8 <=? score) && (score <=? 10) then "Necessary soon"
  else "Necessary now".

(** ** The main calculation

    [Math.atan2] is the host's.  Inside the [try] block a property read on
    an [undefined] keypoint throws a [TypeError]; [calculateREBA_try] is
    that block, with [None] for the throw, and [calculateREBA] catches it
    and returns [null]. *)

Section Scorer.

Variable Math_atan2 : float -> float -> float.

Definition calculateREBA_try (keypoints : list (option Keypoint))
    : option REBAScore :=
  let nose := kp keypoints 0 in
  let leftShoulder := kp keypoints 5 in
  let rightShoulder := kp keypoints 6 in
  let leftElbow := kp keypoints 7 in
  let rightElbow := kp keypoints 8 in
  let leftWrist := kp keypoints 9 in
  let rightWrist := kp keypoints 10 in
  let leftHip := kp keypoints 11 in
  let rightHip := kp keypoints 12 in
  let leftKnee := kp keypoints 13 in
  let rightKnee := kp keypoints 14 in
  let useLeftSide :=
    (JS.or_zero (score <$> leftShoulder)
       > JS.or_zero (score <$> rightShoulder))%js in
  let shoulder := if useLeftSide then leftShoulder else rightShoulder in
  let elbow := if useLeftSide then leftElbow else rightElbow in
  let wrist := if useLeftSide then leftWrist else rightWrist in
  let hip := if useLeftSide then leftHip else rightHip in
  let knee := if useLeftSide then leftKnee else rightKnee in
  (* shoulderMidpoint reads leftShoulder.x first, then rightShoulder.x *)
  leftShoulder ← leftShoulder;
  rightShoulder ← rightShoulder;
  let shoulderMidpoint_x := ((leftShoulder.(x) + rightShoulder.(x)) / 2)%float in
  let shoulderMidpoint_y := ((leftShoulder.(y) + rightShoulder.(y)) / 2)%float in
  nose ← nose;
  let neckAngle :=
    (Math_atan2 (nose.(y) - shoulderMidpoint_y) (nose.(x) - shoulderMidpoint_x)
       * 180 / JS.Math_PI)%float in
  leftHip ← leftHip;
  rightHip ← rightHip;
  let hipMidpoint_x := ((leftHip.(x) + rightHip.(x)) / 2)%float in
  let hipMidpoint_y := ((leftHip.(y) + rightHip.(y)) / 2)%float in
  let trunkAngle :=
    PrimFloat.abs
      (Math_atan2 (shoulderMidpoint_y - hipMidpoint_y)
                  (shoulderMidpoint_x - hipMidpoint_x)
         * 180 / JS.Math_PI - 90)%float in
  elbow ← elbow;
  shoulder ← shoulder;
  let upperArmAngle :=
    PrimFloat.abs
      (Math_atan2 (elbow.(y) - shoulder.(y)) (elbow.(x) - shoulder.(x))
         * 180 / JS.Math_PI - 90)%float in
  wrist ← wrist;
  let lowerArmAngle :=
    PrimFloat.abs
      (Math_atan2 (wrist.(y) - elbow.(y)) (wrist.(x) - elbow.(x))
         * 180 / JS.Math_PI
       - Math_atan2 (elbow.(y) - shoulder.(y)) (elbow.(x) - shoulder.(x))
           * 180 / JS.Math_PI)%float in
  let wristFlexionAngle := 15%float in
  let kneeAngle :=
    match hip, knee with
    | Some hip, Some knee =>
        PrimFloat.abs
          (Math_atan2 (knee.(y) - hip.(y)) (knee.(x) - hip.(x))
             * 180 / JS.Math_PI)%float
    | _, _ => 30%float
    end in
  let neckScore := getNeckScore (PrimFloat.abs (neckAngle - 90)) false in
  let trunkScore := getTrunkScore trunkAngle false in
  let legsScore := getLegsScore kneeAngle true in
  let upperArmScore := getUpperArmScore upperArmAngle false false false in
  let lowerArmScore := getLowerArmScore lowerArmAngle in
  let wristScore := getWristScore wristFlexionAngle false in
  let scoreA := getScoreA neckScore trunkScore legsScore in
  let scoreB := getScoreB upperArmScore lowerArmScore wristScore in
  let finalScore := getFinalScore scoreA scoreB 0 0 in
  Some {|
    neck := neckScore;
    trunk := trunkScore;
    legs := legsScore;
    upperArm := upperArmScore;
    lowerArm := lowerArmScore;
    wrist := wristScore;
    scoreA := scoreA;
    scoreB := scoreB;
    finalScore := finalScore;
    riskLevel := getRiskLevel finalScore;
    actionLevel := getActionLevel finalScore;
    neckAngle :=
      (JS.Math_round (PrimFloat.abs (neckAngle - 90) * 10) / 10)%float;
    trunkAngle := (JS.Math_round (trunkAngle * 10) / 10)%float;
    upperArmAngle := (JS.Math_round (upperArmAngle * 10) / 10)%float;
    lowerArmAngle := (JS.Math_round (lowerArmAngle * 10) / 10)%float;
    wristAngle := (JS.Math_round (wristFlexionAngle * 10) / 10)%float
  |}.

Definition calculateREBA (keypoints : list (option Keypoint))
    : option REBAScore :=
  if (length keypoints <? 17)%nat then None
  else
    match calculateREBA_try keypoints with
    | Some score => Some score
    | None => None
    end.

End Scorer.

End RebaCalculator.

(* ===================================================================== *)
(** * The weight-detection utilities                                      *)
(* ===================================================================== *)

Module WeightDetection.

Inductive ArmPosition : Type := extended | close | overhead.
Inductive LoadDirection : Type := front | side | back.
Inductive ObjectType : Type := box | bag | tool | unknown.

Record DetectedObject : Type := mkDetectedObject {
  objType : ObjectType;
  objEstimatedWeight : Q;
  objConfidence : Q;
  objPosition : Q * Q * Q * Q
}.

Record PostureAnalysis : Type := mkPostureAnalysis {
  isLifting : bool;
  isCarrying : bool;
  armPosition : ArmPosition;
  spineDeviation : float;
  loadDirection : LoadDirection
}.

Record WeightEstimation : Type := mkWeightEstimation {
  estimatedWeight : Q;
  confidence : Q;
  detectedObjects : list DetectedObject;
  bodyPosture : PostureAnalysis
}.

Definition ArmPosition_eqb (a b : ArmPosition) : bool :=
  match a, b with
  | extended, extended | close, close | overhead, overhead => true
  | _, _ => false
  end.

(** ** Posture analysis and weight estimate *)

Section Estimator.

Variable Math_acos : float -> float.

(** [v ** 2] is taken as [v * v]. *)
Definition calculateElbowAngle (shoulder elbow wrist : Keypoint) : float :=
  let shoulderToElbow_x := (elbow.(x) - shoulder.(x))%float in
  let shoulderToElbow_y := (elbow.(y) - shoulder.(y))%float in
  let elbowToWrist_x := (wrist.(x) - elbow.(x))%float in
  let elbowToWrist_y := (wrist.(y) - elbow.(y))%float in
  let dot :=
    (shoulderToElbow_x * elbowToWrist_x
     + shoulderToElbow_y * elbowToWrist_y)%float in
  let magA :=
    PrimFloat.sqrt (shoulderToElbow_x * shoulderToElbow_x
                    + shoulderToElbow_y * shoulderToElbow_y)%float in
  let magB :=
    PrimFloat.sqrt (elbowToWrist_x * elbowToWrist_x
                    + elbowToWrist_y * elbowToWrist_y)%float in
  let angle := (Math_acos (dot / (magA * magB)) * (180 / JS.Math_PI))%float in
  if PrimFloat.is_nan angle then 90%float else angle.

(** The functions below read properties of keypoints only under a guard
    [a && b && ...] on the keypoints read.  They are written with the reads
    explicit: a read on an [undefined] keypoint would be a [TypeError]
    ([None]). *)
Definition analyzePosture (keypoints : list (option Keypoint))
    : option PostureAnalysis :=
  let isLifting := false in
  let isCarrying := false in
  let armPosition := close in
  let spineDeviation := 0%float in
  let loadDirection := front in
  '(isLifting, isCarrying, armPosition, spineDeviation) ←
    (if (17 <=? length keypoints)%nat then
       let leftShoulder := kp keypoints 5 in
       let rightShoulder := kp keypoints 6 in
       let leftElbow := kp keypoints 7 in
       let rightElbow := kp keypoints 8 in
       let leftWrist := kp keypoints 9 in
       let rightWrist := kp keypoints 10 in
       let leftHip := kp keypoints 11 in
       let rightHip := kp keypoints 12 in
       if JS.truthy leftShoulder && JS.truthy rightShoulder
          && JS.truthy leftWrist && JS.truthy rightWrist
          && JS.truthy leftElbow && JS.truthy rightElbow
       then
         leftShoulder ← leftShoulder;
         leftElbow ← leftElbow;
         leftWrist ← leftWrist;
         let leftElbowAngle :=
           calculateElbowAngle leftShoulder leftElbow leftWrist in
         rightShoulder ← rightShoulder;
         rightElbow ← rightElbow;
         rightWrist ← rightWrist;
         let rightElbowAngle :=
           calculateElbowAngle rightShoulder rightElbow rightWrist in
         let leftArmExtended :=
           (leftElbowAngle > 30)%js && (leftElbowAngle < 150)%js in
         let rightArmExtended :=
           (rightElbowAngle > 30)%js && (rightElbowAngle < 150)%js in
         let leftWristAway :=
           (PrimFloat.abs (leftWrist.(x) - leftShoulder.(x)) > 0.05)%js in
         let rightWristAway :=
           (PrimFloat.abs (rightWrist.(x) - rightShoulder.(x)) > 0.05)%js in
         let '(isCarrying, armPosition) :=
           if (leftArmExtended && leftWristAway)
              || (rightArmExtended && rightWristAway)
           then (true, extended) else (isCarrying, armPosition) in
         let '(isLifting, armPosition) :=
           if leftArmExtended && rightArmExtended
              && (leftWristAway || rightWristAway)
           then (true, extended) else (isLifting, armPosition) in
         let '(armPosition, isLifting) :=
           if (leftWrist.(y) < leftShoulder.(y) - 0.1)%js
              || (rightWrist.(y) < rightShoulder.(y) - 0.1)%js
           then (overhead, true) else (armPosition, isLifting) in
         spineDeviation ←
           (if JS.truthy leftHip && JS.truthy rightHip then
              leftHip ← leftHip;
              rightHip ← rightHip;
              let hipCenter_x := ((leftHip.(x) + rightHip.(x)) / 2)%float in
              let shoulderCenter_x :=
                ((leftShoulder.(x) + rightShoulder.(x)) / 2)%float in
              Some (PrimFloat.abs (shoulderCenter_x - hipCenter_x) * 100)%float
            else Some spineDeviation);
         Some (isLifting, isCarrying, armPosition, spineDeviation)
       else Some (isLifting, isCarrying, armPosition, spineDeviation)
     else Some (isLifting, isCarrying, armPosition, spineDeviation));
  Some {| isLifting := isLifting;
          isCarrying := isCarrying;
          armPosition := armPosition;
          spineDeviation := spineDeviation;
          loadDirection := loadDirection |}.

Definition calculateWeightFromPosture (bodyPosture : PostureAnalysis)
    (keypoints : list (option Keypoint)) : option Q :=
  let baseWeight := 0%Q in
  let baseWeight :=
    if bodyPosture.(isLifting)
       && ArmPosition_eqb (bodyPosture.(armPosition)) extended then 10%Q
    else if bodyPosture.(isCarrying)
            && ArmPosition_eqb (bodyPosture.(armPosition)) extended then 7%Q
    else if ArmPosition_eqb (bodyPosture.(armPosition)) overhead then 12%Q
    else baseWeight in
  if (17 <=? length keypoints)%nat && JS.Q_gt baseWeight 0 then
    let leftShoulder := kp keypoints 5 in
    let rightShoulder := kp keypoints 6 in
    let leftElbow := kp keypoints 7 in
    let rightElbow := kp keypoints 8 in
    let leftWrist := kp keypoints 9 in
    let rightWrist := kp keypoints 10 in
    if JS.truthy leftShoulder && JS.truthy rightShoulder
       && JS.truthy leftElbow && JS.truthy rightElbow
       && JS.truthy leftWrist && JS.truthy rightWrist
    then
      leftShoulder ← leftShoulder;
      leftElbow ← leftElbow;
      leftWrist ← leftWrist;
      let leftElbowAngle :=
        calculateElbowAngle leftShoulder leftElbow leftWrist in
      rightShoulder ← rightShoulder;
      rightElbow ← rightElbow;
      rightWrist ← rightWrist;
      let rightElbowAngle :=
        calculateElbowAngle rightShoulder rightElbow rightWrist in
      let asymmetry :=
        PrimFloat.abs (leftElbowAngle - rightElbowAngle)%float in
      let baseWeight :=
        if (asymmetry > 30)%js then (baseWeight + 3)%Q else baseWeight in
      let shoulderCenter_y :=
        ((leftShoulder.(y) + rightShoulder.(y)) / 2)%float in
      let wristCenter_y := ((leftWrist.(y) + rightWrist.(y)) / 2)%float in
      let baseWeight :=
        if (wristCenter_y > shoulderCenter_y + 0.15)%js
        then (baseWeight + 5)%Q else baseWeight in
      Some baseWeight
    else Some baseWeight
  else Some baseWeight.

Definition estimateWeightFromPosture (keypoints : list (option Keypoint))
    : option WeightEstimation :=
  bodyPosture ← analyzePosture keypoints;
  estimatedWeight ← calculateWeightFromPosture bodyPosture keypoints;
  let isHoldingObject := bodyPosture.(isLifting) || bodyPosture.(isCarrying) in
  Some {| estimatedWeight := if isHoldingObject then estimatedWeight else 0%Q;
          confidence := if isHoldingObject then 0.8%Q else 0.1%Q;
          detectedObjects := [];
          bodyPosture := bodyPosture |}.

End Estimator.

(** ** REBA scoring helpers of the weight adjustment *)

(** The tables of this file are constants local to the functions that
    read them; they are given here under their own names.  A lookup
    returns [None] when it finds no table entry. *)
Definition scoreMatrix : list (list Z) :=
  [ [1; 1; 1; 2; 3; 3; 4; 5; 6; 7; 7; 7];
    [1; 2; 2; 3; 4; 4; 5; 6; 6; 7; 7; 8];
    [2; 3; 3; 3; 4; 5; 6; 7; 7; 8; 8; 8];
    [3; 4; 4; 4; 5; 6; 7; 8; 8; 9; 9; 9];
    [4; 4; 4; 5; 6; 7; 8; 8; 9; 9; 9; 9];
    [6; 6; 6; 7; 8; 8; 9; 9; 10; 10; 10; 10];
    [7; 7; 7; 8; 9; 9; 9; 10; 10; 11; 11; 11];
    [8; 8; 8; 9; 10; 10; 10; 10; 10; 11; 11; 11];
    [9; 9; 9; 10; 10; 10; 11; 11; 11; 12; 12; 12];
    [10; 10; 10; 11; 11; 11; 11; 12; 12; 12; 12; 12];
    [11; 11; 11; 11; 12; 12; 12; 12; 12; 12; 12; 12];
    [12; 12; 12; 12; 12; 12; 12; 12; 12; 12; 12; 12] ]%Z.

Definition getRebaFinalScore (scoreA scoreB : Z) : option Z :=
  let aIndex := Z.min (Z.max (scoreA - 1) 0) 11 in
  let bIndex := Z.min (Z.max (scoreB - 1) 0) 11 in
  row ← JS.index scoreMatrix aIndex;
  JS.index row bIndex.

Definition getRebaRiskLevel (score : Z) : string :=
  if (score =? 1)%Z then "Negligible Risk"
  else if (score <=? 3)%Z then "Low Risk"
  else if (score <=? 7)%Z then "Medium Risk"
  else if (score <=? 10)%Z then "High Risk"
  else "Very High Risk".

Definition getRebaActionLevel (score : Z) : string :=
  if (score =? 1)%Z then "None necessary"
  else if (score <=? 3)%Z then "May be necessary"
  else if (score <=? 7)%Z then "Necessary"
  else if (score <=? 10)%Z then "Necessary soon"
  else "Necessary now".

(** ** Weight-adjusted scores

    The base score is an object on the heap, or [null]/[undefined]
    ([None]).  Each adjuster returns the heap after the call and the value
    it returns; the object literal it builds is a newly allocated object.
    The outer [None] is a base reference that is not on the heap, or a
    base whose score property is not a number. *)

Definition calculateWeightAdjustedReba
    (heap : gmap positive (gmap string JS.value))
    (originalReba : option positive)
    (weightEstimation : WeightEstimation) (manualWeight : option Q)
    : option (gmap positive (gmap string JS.value) * option positive) :=
  match originalReba with
  | None => Some (heap, None)
  | Some ref =>
      base ← heap !! ref;
      let effectiveWeight :=
        JS.or_else manualWeight weightEstimation.(estimatedWeight) in
      let weightMultiplier := 1.0%Q in
      let weightMultiplier :=
        if Qle_bool effectiveWeight 5 then 1.0%Q
        else if Qle_bool effectiveWeight 10 then 1.1%Q
        else if Qle_bool effectiveWeight 20 then 1.3%Q
        else if Qle_bool effectiveWeight 40 then 1.5%Q
        else 1.8%Q in
      scoreA ← JS.num_prop base "scoreA";
      scoreB ← JS.num_prop base "scoreB";
      let adjustedScoreA :=
        Z.min 12 (JS.Math_round_Q (scoreA * weightMultiplier)) in
      let adjustedScoreB :=
        Z.min 12 (JS.Math_round_Q (scoreB * weightMultiplier)) in
      tableScore ← getRebaFinalScore adjustedScoreA adjustedScoreB;
      let adjustedFinalScore := Z.min 15 tableScore in
      let result :=
        JS.spread base
          [ ("scoreA", JS.VNum (inject_Z adjustedScoreA));
            ("scoreB", JS.VNum (inject_Z adjustedScoreB));
            ("finalScore", JS.VNum (inject_Z adjustedFinalScore));
            ("riskLevel", JS.VStr (getRebaRiskLevel adjustedFinalScore));
            ("actionLevel", JS.VStr (getRebaActionLevel adjustedFinalScore));
            ("effectiveWeight", JS.VNum effectiveWeight);
            ("weightMultiplier", JS.VNum weightMultiplier);
            ("isWeightAdjusted", JS.VBool true) ] in
      let ref' := fresh (dom heap) in
      Some (<[ref' := result]> heap, Some ref')
  end.

Definition calculateWeightAdjustedRula
    (heap : gmap positive (gmap string JS.value))
    (originalRula : option positive)
    (weightEstimation : WeightEstimation) (manualWeight : option Q)
    : option (gmap positive (gmap string JS.value) * option positive) :=
  match originalRula with
  | None => Some (heap, originalRula)
  | Some ref =>
      base ← heap !! ref;
      let effectiveWeight :=
        JS.or_else
          (Some (JS.or_else manualWeight weightEstimation.(estimatedWeight)))
          0 in
      let weightMultiplier := 1%Q in
      let weightMultiplier :=
        if JS.Q_gt effectiveWeight 23 then 3%Q
        else if JS.Q_gt effectiveWeight 10 then 2%Q
        else if JS.Q_gt effectiveWeight 5 then 1.5%Q
        else weightMultiplier in
      finalScore ← JS.num_prop base "finalScore";
      let adjustedFinalScore :=
        Z.min 7 (JS.Math_ceil_Q (finalScore * weightMultiplier)) in
      let result :=
        JS.spread base
          [ ("finalScore", JS.VNum (inject_Z adjustedFinalScore));
            ("effectiveWeight", JS.VNum effectiveWeight);
            ("weightMultiplier", JS.VNum weightMultiplier);
            ("riskLevel",
             JS.VStr (if (adjustedFinalScore <=? 2)%Z then "Low Risk"
                      else if (adjustedFinalScore <=? 4)%Z then "Medium Risk"
                      else if (adjustedFinalScore <=? 6)%Z then "High Risk"
                      else "Critical Risk")) ] in
      let ref' := fresh (dom heap) in
      Some (<[ref' := result]> heap, Some ref')
  end.

(** ** RULA scoring tables *)

Definition scoreATable : list (list (list Z)) :=
  [ [[1;2;2;2;2;3;3;3]; [2;2;2;2;3;3;3;3]; [2;3;3;3;3;3;4;4]];
    [[2;2;2;2;3;3;3;3]; [2;2;2;2;3;3;3;3]; [3;3;3;3;3;4;4;4]];
    [[2;3;3;3;3;4;4;4]; [3;3;3;3;3;4;4;4]; [3;4;4;4;4;4;5;5]];
    [[3;3;3;4;4;4;5;5]; [3;3;4;4;4;4;5;5]; [4;4;4;4;5;5;5;6]];
    [[4;4;4;4;4;5;5;5]; [4;4;4;4;4;5;5;5]; [4;4;4;5;5;5;6;6]];
    [[6;6;6;6;6;7;7;7]; [6;6;6;6;6;7;7;7]; [6;6;7;7;7;7;7;8]] ]%Z.

Definition getScoreA (upperArm lowerArm wrist : Z) : option Z :=
  let upperArmIdx := Z.max 0 (Z.min 5 (upperArm - 1)) in
  let lowerArmIdx := Z.max 0 (Z.min 2 (lowerArm - 1)) in
  let wristIdx := Z.max 0 (Z.min 7 (wrist - 1)) in
  plane ← JS.index scoreATable upperArmIdx;
  row ← JS.index plane lowerArmIdx;
  JS.index row wristIdx.

Definition scoreBTable : list (list Z) :=
  [ [1;2;3;3;4;5];
    [2;2;3;4;5;5];
    [3;3;3;4;5;6];
    [3;3;4;4;5;6];
    [4;5;5;5;6;7];
    [4;5;5;6;6;7] ]%Z.

Definition getScoreB (neck trunk : Z) : option Z :=
  let neckIdx := Z.max 0 (Z.min 5 (neck - 1)) in
  let trunkIdx := Z.max 0 (Z.min 5 (trunk - 1)) in
  row ← JS.index scoreBTable neckIdx;
  JS.index row trunkIdx.

Definition finalScoreTable : list (list Z) :=
  [ [1;1;1;2;3;3;4];
    [1;2;2;3;3;3;4];
    [2;2;2;3;3;3;4];
    [3;3;3;3;3;4;4];
    [4;4;4;4;4;4;5];
    [4;4;4;4;4;4;5];
    [5;5;5;5;5;5;6];
    [5;5;5;5;5;6;6] ]%Z.

Definition getFinalScore (scoreA scoreB : Z) : option Z :=
  let scoreAIdx := Z.max 0 (Z.min 7 (scoreA - 1)) in
  let scoreBIdx := Z.max 0 (Z.min 6 (scoreB - 1)) in
  row ← JS.index finalScoreTable scoreAIdx;
  JS.index row scoreBIdx.

Definition getRiskLevel (finalScore : Z) : string :=
  if (finalScore <=? 2)%Z then "Acceptable"
  else if (finalScore <=? 4)%Z then "Investigate"
  else if (finalScore <=? 6)%Z then "Investigate Soon"
  else "Investigate Immediately".

Definition getStressLevel (finalScore : Z) : Z := finalScore.

End WeightDetection.

(* ===================================================================== *)
(** * A reference [Math.atan2] and [Math.acos]                            *)
(* ===================================================================== *)

(** The development is parametric in the host's [Math.atan2] and
    [Math.acos].  To run the embedding on concrete poses this module fixes
    one implementation: argument halving followed by the arctangent series.
    It returns the values ECMA-262 prescribes exactly ([acos 1 = +0],
    [NaN] outside [-1, 1] and on [NaN]); no theorem below depends on its
    accuracy elsewhere. *)

Module Libm.

Local Open Scope float_scope.

Definition halve (t : float) : float := t / (1 + PrimFloat.sqrt (1 + t * t)).

Fixpoint series (n : nat) (t2 term : float) (k : float) : float :=
  match n with
  | O => 0
  | S n' => term / k + series n' t2 (- (term * t2)) (k + 2)
  end.

(** arctangent for [|t| <= 1] *)
Definition atan_small (t : float) : float :=
  let u := halve (halve (halve t)) in
  8 * series 12 (u * u) u 1.

Definition atan (t : float) : float :=
  if PrimFloat.is_nan t then t
  else if (PrimFloat.abs t <=? 1) then atan_small t
  else if (0 <? t) then JS.Math_PI / 2 - atan_small (1 / t)
  else - (JS.Math_PI / 2) - atan_small (1 / t).

Definition Math_atan2 (y x : float) : float :=
  if PrimFloat.is_nan x || PrimFloat.is_nan y then PrimFloat.nan
  else if (0 <? x) then atan (y / x)
  else if (x <? 0) then
    if (y <? 0) then atan (y / x) - JS.Math_PI else atan (y / x) + JS.Math_PI
  else if (0 <? y) then JS.Math_PI / 2
  else if (y <? 0) then - (JS.Math_PI / 2)
  else y.

Definition Math_acos (x : float) : float :=
  if (PrimFloat.abs x <=? 1)
  then Math_atan2 (PrimFloat.sqrt ((1 - x) * (1 + x))) x
  else PrimFloat.nan.

End Libm.

(* ===================================================================== *)
(** * Vocabulary of the statements                                        *)
(* ===================================================================== *)

(** A check over the integers [lo, lo + n), decided by computation. *)
Definition all_in_range (lo n : Z) (p : Z -> bool) : bool :=
  forallb p (seqZ lo n).

(** [table[i][j]], [None] outside the table. *)
Definition entry (table : list (list Z)) (i j : Z) : option Z :=
  row ← JS.index table i; JS.index row j.

Definition clamp (lo hi x : Z) : Z := Z.max lo (Z.min hi x).

(** Every entry of [table], which has [rows] rows of [cols] columns,
    satisfies [p]. *)
Definition table_all (table : list (list Z)) (rows cols : Z)
    (p : Z -> bool) : bool :=
  all_in_range 0 rows (fun i =>
    all_in_range 0 cols (fun j =>
      match entry table i j with
      | Some v => p v
      | None => false
      end)).

Definition in_range (lo hi v : Z) : bool := (lo <=? v)%Z && (v <=? hi)%Z.

(** The property [k] of the object an adjuster returned, when it returned
    one. *)
Definition returned_prop
    (res : option (gmap positive (gmap string JS.value) * option positive))
    (k : string) : option JS.value :=
  '(heap, v) ← res; ref ← v; o ← heap !! ref; o !! k.

(** The weight bands of the two adjusters, as the multiplier [m] that goes
    with a weight [w]. *)
Definition reba_band (w m : Q) : Prop :=
  (w <= 5 -> m = 1.0)%Q /\
  (5 < w -> w <= 10 -> m = 1.1)%Q /\
  (10 < w -> w <= 20 -> m = 1.3)%Q /\
  (20 < w -> w <= 40 -> m = 1.5)%Q /\
  (40 < w -> m = 1.8)%Q.

Definition rula_band (w m : Q) : Prop :=
  (23 < w -> m = 3)%Q /\
  (10 < w -> w <= 23 -> m = 2)%Q /\
  (5 < w -> w <= 10 -> m = 1.5)%Q /\
  (w <= 5 -> m = 1)%Q.

(** [n] is [q] rounded to the nearest integer, a tie going up; [n] is the
    least integer not below [q]. *)
Definition rounds_to (q : Q) (n : Z) : Prop :=
  (inject_Z n - (1 # 2) <= q)%Q /\ (q < inject_Z n + (1 # 2))%Q.

Definition ceiling_of (q : Q) (n : Z) : Prop :=
  (inject_Z n - 1 < q)%Q /\ (q <= inject_Z n)%Q.

(** The label the RULA adjuster gives a final score. *)
Definition rula_adjusted_label (finalScore : Z) (label : string) : Prop :=
  ((finalScore <= 2)%Z -> label = "Low Risk") /\
  ((2 < finalScore <= 4)%Z -> label = "Medium Risk") /\
  ((4 < finalScore <= 6)%Z -> label = "High Risk") /\
  ((6 < finalScore)%Z -> label = "Critical Risk").

(** Two score objects of the shape the scorers produce, and a heap that
    holds them: a REBA score at reference 1 and a RULA score at
    reference 2. *)
Definition sample_reba_score : gmap string JS.value :=
  JS.spread ∅
    [ ("neck", JS.VNum 3); ("trunk", JS.VNum 3); ("legs", JS.VNum 2);
      ("upperArm", JS.VNum 3); ("lowerArm", JS.VNum 2); ("wrist", JS.VNum 1);
      ("scoreA", JS.VNum 4); ("scoreB", JS.VNum 3); ("finalScore", JS.VNum 4);
      ("riskLevel", JS.VStr "Medium"); ("actionLevel", JS.VStr "Necessary") ].

Definition sample_rula_score : gmap string JS.value :=
  JS.spread ∅
    [ ("upperArm", JS.VNum 3); ("lowerArm", JS.VNum 2); ("wrist", JS.VNum 2);
      ("neck", JS.VNum 2); ("trunk", JS.VNum 3);
      ("scoreA", JS.VNum 4); ("scoreB", JS.VNum 3); ("finalScore", JS.VNum 3);
      ("riskLevel", JS.VStr "Investigate") ].

Definition sample_heap : gmap positive (gmap string JS.value) :=
  <[2%positive := sample_rula_score]> {[ 1%positive := sample_reba_score ]}.

(** A weight estimate of [w] kilograms. *)
Definition estimate_of (w : Q) : WeightDetection.WeightEstimation :=
  {| WeightDetection.estimatedWeight := w;
     WeightDetection.confidence := 0.8;
     WeightDetection.detectedObjects := [];
     WeightDetection.bodyPosture :=
       {| WeightDetection.isLifting := true;
          WeightDetection.isCarrying := true;
          WeightDetection.armPosition := WeightDetection.extended;
          WeightDetection.spineDeviation := 0%float;
          WeightDetection.loadDirection := WeightDetection.front |} |}.

(** An integer as a binary64 number, and the comparison of the exact
    reading of [Math.round(s * m)] and [Math.ceil(s * m)] with the binary64
    one, for an integer score [s] and a multiplier given as the decimal
    [fst m] and as the float literal [snd m]. *)
Definition float_of_Z (z : Z) : float :=
  SF2Prim (binary_normalize prec emax z 0 false).

Definition round_agrees (s : Z) (m : Q * float) : bool :=
  PrimFloat.eqb (JS.Math_round (float_of_Z s * snd m)%float)
                (float_of_Z (JS.Math_round_Q (inject_Z s * fst m))).

Definition ceil_agrees (s : Z) (m : Q * float) : bool :=
  PrimFloat.eqb (JS.Math_ceil (float_of_Z s * snd m)%float)
                (float_of_Z (JS.Math_ceil_Q (inject_Z s * fst m))).

(** The posture [analyzePosture] starts from. *)
Definition default_posture : WeightDetection.PostureAnalysis :=
  {| WeightDetection.isLifting := false;
     WeightDetection.isCarrying := false;
     WeightDetection.armPosition := WeightDetection.close;
     WeightDetection.spineDeviation := 0%float;
     WeightDetection.loadDirection := WeightDetection.front |}.

(** A pose used to run the embedding: a person standing upright, all
    seventeen keypoints detected. *)
Definition standing_pose : list (option Keypoint) :=
  let K x y s := Some (mkKeypoint x y s) in
  [ K 0.50 0.10 0.9; K 0.52 0.08 0.9; K 0.48 0.08 0.9; K 0.54 0.10 0.9;
    K 0.46 0.10 0.9; K 0.60 0.25 0.9; K 0.40 0.25 0.8; K 0.62 0.40 0.9;
    K 0.38 0.40 0.9; K 0.62 0.55 0.9; K 0.38 0.55 0.9; K 0.57 0.55 0.9;
    K 0.43 0.55 0.9; K 0.57 0.75 0.9; K 0.43 0.75 0.9; K 0.57 0.95 0.9;
    K 0.43 0.95 0.9 ]%float.

(** The multipliers, roundings and labels of the adjusters. *)

(** The multipliers of the two adjusters: each as the decimal of its band
    and as the binary64 literal of the source. *)
Definition reba_multiplier_literals : list (Q * float) :=
  [ (1.0%Q, 1.0%float); (1.1%Q, 1.1%float); (1.3%Q, 1.3%float);
    (1.5%Q, 1.5%float); (1.8%Q, 1.8%float) ].

Definition rula_multiplier_literals : list (Q * float) :=
  [ (1%Q, 1%float); (1.5%Q, 1.5%float); (2%Q, 2%float); (3%Q, 3%float) ].

(** For an integer score [s] and a multiplier [m], the binary64 number
    [Math.round(s * m)], and [Math.ceil(s * m)], is the very integer that
    rounding the exact product gives. *)
Definition round_equal (s : Z) (m : Q * float) : bool :=
  PrimFloat.Leibniz.eqb (JS.Math_round (float_of_Z s * snd m)%float)
                        (float_of_Z (JS.Math_round_Q (inject_Z s * fst m))).

Definition ceil_equal (s : Z) (m : Q * float) : bool :=
  PrimFloat.Leibniz.eqb (JS.Math_ceil (float_of_Z s * snd m)%float)
                        (float_of_Z (JS.Math_ceil_Q (inject_Z s * fst m))).

(** The risk and action level the REBA adjuster gives a final score. *)
Definition reba_adjusted_labels (finalScore : Z) (risk action : string)
    : Prop :=
  (finalScore = 1%Z ->
   risk = "Negligible Risk" /\ action = "None necessary") /\
  (finalScore <> 1%Z -> (finalScore <= 3)%Z ->
   risk = "Low Risk" /\ action = "May be necessary") /\
  ((3 < finalScore <= 7)%Z ->
   risk = "Medium Risk" /\ action = "Necessary") /\
  ((7 < finalScore <= 10)%Z ->
   risk = "High Risk" /\ action = "Necessary soon") /\
  ((10 < finalScore)%Z ->
   risk = "Very High Risk" /\ action = "Necessary now").

(** The cosine [calculateElbowAngle] passes to [Math.acos], the
    [dot / (magA * magB)] of the source: [(v1 . v2) / (|v1| |v2|)] with
    [v1 = elbow - shoulder] and [v2 = wrist - elbow], every operation in
    binary64. *)
Definition segment_cosine (shoulder elbow wrist : Keypoint) : float :=
  let v1_x := (elbow.(x) - shoulder.(x))%float in
  let v1_y := (elbow.(y) - shoulder.(y))%float in
  let v2_x := (wrist.(x) - elbow.(x))%float in
  let v2_y := (wrist.(y) - elbow.(y))%float in
  ((v1_x * v2_x + v1_y * v2_y)
   / (PrimFloat.sqrt (v1_x * v1_x + v1_y * v1_y)
      * PrimFloat.sqrt (v2_x * v2_x + v2_y * v2_y)))%float.





(* ===================================================================== *)
(** * Vocabulary of the further properties                                *)
(* ===================================================================== *)

(** The side [calculateREBA] takes its elbow, wrist, hip and knee from:
    the left one when the left shoulder has the higher confidence. *)
Definition useLeftSide (keypoints : list (option Keypoint)) : bool :=
  (JS.or_zero (score <$> kp keypoints 5)
     > JS.or_zero (score <$> kp keypoints 6))%js.

(** A table never decreases along a row or down a column. *)
Definition table_monotone (table : list (list Z)) (rows cols : Z) : bool :=
  all_in_range 0 rows (fun i => all_in_range 0 rows (fun i' =>
    all_in_range 0 cols (fun j => all_in_range 0 cols (fun j' =>
      implb ((i <=? i')%Z && (j <=? j')%Z)
        match entry table i j, entry table i' j' with
        | Some v, Some v' => (v <=? v')%Z
        | _, _ => false
        end)))).

(** The standing pose with only the landmarks [calculateREBA] reads for
    it: nose, shoulders, hips, and the left elbow, wrist and knee. *)
Definition standing_pose_landmarks : list (option Keypoint) :=
  foldr (fun i pose => <[i := None]> pose) standing_pose
    [1; 2; 3; 4; 8; 10; 14; 15; 16]%nat.

(** The landmarks [calculateREBA] reads from an array of keypoints: nose,
    shoulders and hips, and the elbow, wrist and knee of the side it
    selected. *)
Definition landmarks_read (keypoints : list (option Keypoint)) : list nat :=
  [0; 5; 6; 11; 12]%nat
  ++ (if useLeftSide keypoints then [7; 9; 13] else [8; 10; 14])%nat.

(** The order of the binary64 numbers other than NaN, as a key compared
    lexicographically: the sign class, then the exponent, then the
    mantissa (both negated for a negative number). *)
Definition float_key (f : spec_float) : option (Z * Z * Z) :=
  match f with
  | S754_nan => None
  | S754_zero _ => Some (0, 0, 0)%Z
  | S754_infinity s => Some (if s then (-2) else 2, 0, 0)%Z
  | S754_finite s m e =>
      Some (if s then (-1, - e, Z.neg m) else (1, e, Z.pos m))%Z
  end.

Definition key_lt (k k' : Z * Z * Z) : Prop :=
  (k.1.1 < k'.1.1
   \/ (k.1.1 = k'.1.1
       /\ (k.1.2 < k'.1.2 \/ (k.1.2 = k'.1.2 /\ k.2 < k'.2))))%Z.

(** The standing pose with both wrists raised above the shoulders. *)
Definition overhead_pose : list (option Keypoint) :=
  <[9%nat := Some (mkKeypoint 0.62 0.05 0.9)]>
    (<[10%nat := Some (mkKeypoint 0.38 0.05 0.9)]> standing_pose).

(* ===================================================================== *)
(** * The recommendation engine                                           *)
(* ===================================================================== *)

(** [generateRebaRecommendations], [generatePoseQualityRecommendations]
    and [getPriorityWeight] of the [RecommendationEngine] class.  A REBA
    score is read as the record [calculateREBA] returns; the pose data is
    an object whose [keypoints] may be missing, or [undefined]. *)

Module RecommendationEngine.

Record ErgonomicRecommendation : Type := mkErgonomicRecommendation {
  id : string;
  priority : string;
  category : string;
  title : string;
  description : string;
  action : string;
  bodyPart : list string;
  icon : string;
  duration : option string
}.

Record PoseData : Type := mkPoseData {
  keypoints : option (list (option Keypoint))
}.

Definition generateRebaRecommendations
    (rebaScore : RebaCalculator.REBAScore) (poseData : option PoseData)
    : list ErgonomicRecommendation :=
  let recommendations := [] in
  let recommendations :=
    if (3 <=? RebaCalculator.trunk rebaScore)%Z then
      recommendations ++
      [ {| id := "reba-trunk-high";
           priority :=
             if (4 <=? RebaCalculator.trunk rebaScore)%Z
             then "critical" else "high";
           category := "posture";
           title := "Back and Trunk Position";
           description := "Your back is bent or twisted beyond safe limits";
           action := "Straighten your back and use proper back support. Avoid twisting motions.";
           bodyPart := ["trunk"; "back"];
           icon := "straighten";
           duration := Some "Immediate" |} ]
    else recommendations in
  let recommendations :=
    if (2 <=? RebaCalculator.legs rebaScore)%Z then
      recommendations ++
      [ {| id := "reba-legs-high";
           priority :=
             if (3 <=? RebaCalculator.legs rebaScore)%Z
             then "high" else "medium";
           category := "posture";
           title := "Leg and Foot Position";
           description := "Your leg position indicates potential circulation or support issues";
           action := "Ensure feet are flat on floor or footrest. Take walking breaks regularly.";
           bodyPart := ["legs"; "feet"];
           icon := "directions_walk";
           duration := Some "2-3 minutes" |} ]
    else recommendations in
  let recommendations :=
    if (8 <=? RebaCalculator.finalScore rebaScore)%Z then
      recommendations ++
      [ {| id := "reba-critical-overall";
           priority := "critical";
           category := "breaks";
           title := "High Risk Activity Detected";
           description := "Your current activity poses high ergonomic risk to your entire body";
           action := "Stop current activity immediately and take a proper break.";
           bodyPart := ["full-body"];
           icon := "emergency";
           duration := Some "10-15 minutes" |} ]
    else if (4 <=? RebaCalculator.finalScore rebaScore)%Z then
      recommendations ++
      [ {| id := "reba-medium-overall";
           priority := "medium";
           category := "movement";
           title := "Posture Adjustment Needed";
           description := "Multiple body parts need attention to reduce risk";
           action := "Make gradual adjustments to your posture and take micro-breaks.";
           bodyPart := ["full-body"];
           icon := "self_improvement";
           duration := Some "1-2 minutes" |} ]
    else recommendations in
  recommendations.

(** The callback of the [filter] in [generatePoseQualityRecommendations]:
    [kp && kp.score > 0.3]. *)
Definition isValidKeypoint (kp : option Keypoint) : bool :=
  match kp with
  | Some kp => (kp.(score) > 0.3)%js
  | None => false
  end.

Definition generatePoseQualityRecommendations (poseData : option PoseData)
    : list ErgonomicRecommendation :=
  let recommendations := [] in
  match poseData with
  | None => recommendations
  | Some poseData =>
      match poseData.(keypoints) with
      | None => recommendations
      | Some keypoints =>
          let validKeypoints :=
            length (List.filter isValidKeypoint keypoints) in
          let confidence :=
            (float_of_Z (Z.of_nat validKeypoints) / 17 * 100)%float in
          if (confidence < 70)%js then
            recommendations ++
            [ {| id := "pose-quality-low";
                 priority := "low";
                 category := "environment";
                 title := "Improve Camera Position";
                 description := "Pose detection quality is suboptimal";
                 action := "Ensure good lighting and position yourself fully in the camera frame.";
                 bodyPart := ["environment"];
                 icon := "camera_alt";
                 duration := Some "Immediate" |} ]
          else recommendations
      end
  end.

Definition getPriorityWeight (priority : string) : Z :=
  if String.eqb priority "critical" then 1
  else if String.eqb priority "high" then 2
  else if String.eqb priority "medium" then 3
  else if String.eqb priority "low" then 4
  else 5.

End RecommendationEngine.

(* ===================================================================== *)
(** * Manual weights: the dialog and the recording panel                  *)
(* ===================================================================== *)

(** The handlers of the [ManualWeightInput] dialog on its state, the
    selected object and the weight typed in.  [handleAddWeight] returns
    the weight it passes to [onAddWeight], if it calls it.  The weight is
    a rational: a [NaN] from the input field fails the test
    [customWeight > 0] as a weight of 0 does.  The dialog asks for grams;
    on whole numbers the sum the panel takes of the weights is exact in
    binary64 as it is here. *)

Module ManualWeightInput.

Record ManualWeight : Type := mkManualWeight {
  id : string;
  name : string;
  weight : Q;
  icon : string;
  previewImage : option string
}.

(** The [{id, imageData, name}] of a detected object. *)
Record DetectedObject : Type := mkDetectedObject {
  objectId : string;
  imageData : string;
  objectName : string
}.

Record State : Type := mkState {
  selectedDetectedObject : option DetectedObject;
  customWeight : Q
}.

Definition handleDetectedObjectSelect (detectedObject : DetectedObject)
    (s : State) : State :=
  {| selectedDetectedObject := Some detectedObject; customWeight := 1000 |}.

Definition handleAddWeight (existingWeights : list ManualWeight) (s : State)
    : option ManualWeight * State :=
  match s.(selectedDetectedObject) with
  | Some selected =>
      if JS.Q_gt s.(customWeight) 0 then
        let exists_ :=
          existsb (fun w => String.eqb w.(id) selected.(objectId))
            existingWeights in
        if negb exists_ then
          let newWeight :=
            {| id := selected.(objectId);
               name := selected.(objectName);
               weight := s.(customWeight);
               icon := "📦";
               previewImage := Some selected.(imageData) |} in
          (Some newWeight,
           {| selectedDetectedObject := None; customWeight := 0 |})
        else (None, s)
      else (None, s)
  | None => (None, s)
  end.

End ManualWeightInput.

(** The manual-weight functions of [RebaRecordingPanel].  Of a recording
    frame they read the REBA score, a reference to a score object or
    [null], and the weight estimate. *)

Module RebaRecordingPanel.

Inductive AnalysisMode : Type := normal | estimated | manual.

Record RecordingFrame : Type := mkRecordingFrame {
  rebaScore : option positive;
  weightEstimation : option WeightDetection.WeightEstimation
}.

Definition getTotalManualWeight
    (manualWeights : list ManualWeightInput.ManualWeight) : Q :=
  foldl (fun total weight => (total + ManualWeightInput.weight weight)%Q)
    0%Q manualWeights.

Definition handleAddWeight
    (manualWeights : list ManualWeightInput.ManualWeight)
    (weight : ManualWeightInput.ManualWeight)
    : list ManualWeightInput.ManualWeight :=
  manualWeights ++ [weight].

(** The literal [{ estimatedWeight: totalWeight, confidence: 1.0 }]; the
    adjuster reads its [estimatedWeight] only. *)
Definition manualEstimation (totalWeight : Q)
    : WeightDetection.WeightEstimation :=
  {| WeightDetection.estimatedWeight := totalWeight;
     WeightDetection.confidence := 1.0;
     WeightDetection.detectedObjects := [];
     WeightDetection.bodyPosture := default_posture |}.

Definition getCurrentRebaScore (analysisMode : AnalysisMode)
    (manualWeights : list ManualWeightInput.ManualWeight)
    (heap : gmap positive (gmap string JS.value)) (frame : RecordingFrame)
    : option (gmap positive (gmap string JS.value) * option positive) :=
  match analysisMode, manualWeights, frame.(weightEstimation) with
  | manual, _ :: _, _ =>
      let totalWeight := getTotalManualWeight manualWeights in
      let weightEstimation := manualEstimation totalWeight in
      '(heap', adjusted) ←
        WeightDetection.calculateWeightAdjustedReba heap frame.(rebaScore)
          weightEstimation (Some totalWeight);
      Some (heap',
            match adjusted with
            | Some _ => adjusted
            | None => frame.(rebaScore)
            end)
  | estimated, _, Some weightEstimation =>
      '(heap', adjusted) ←
        WeightDetection.calculateWeightAdjustedReba heap frame.(rebaScore)
          weightEstimation None;
      Some (heap',
            match adjusted with
            | Some _ => adjusted
            | None => frame.(rebaScore)
            end)
  | _, _, _ => Some (heap, frame.(rebaScore))
  end.

End RebaRecordingPanel.

(** What the user does in the dialog, and the effect on the list of
    manual weights of the panel and on the state of the dialog: the panel
    passes its list as [existingWeights] and its [handleAddWeight] as
    [onAddWeight]. *)
Inductive DialogEvent : Type :=
| SelectObject (detectedObject : ManualWeightInput.DetectedObject)
| EnterWeight (value : Q)
| AddWeight
| Cancel.

Definition dialog_step
    (st : list ManualWeightInput.ManualWeight * ManualWeightInput.State)
    (ev : DialogEvent)
    : list ManualWeightInput.ManualWeight * ManualWeightInput.State :=
  let '(manualWeights, s) := st in
  match ev with
  | SelectObject o =>
      (manualWeights, ManualWeightInput.handleDetectedObjectSelect o s)
  | EnterWeight value =>
      (manualWeights,
       {| ManualWeightInput.selectedDetectedObject :=
            ManualWeightInput.selectedDetectedObject s;
          ManualWeightInput.customWeight := value |})
  | AddWeight =>
      match ManualWeightInput.handleAddWeight manualWeights s with
      | (Some weight, s') =>
          (RebaRecordingPanel.handleAddWeight manualWeights weight, s')
      | (None, s') => (manualWeights, s')
      end
  | Cancel =>
      (manualWeights,
       {| ManualWeightInput.selectedDetectedObject := None;
          ManualWeightInput.customWeight := 0 |})
  end.

Definition dialog_run (events : list DialogEvent)
    : list ManualWeightInput.ManualWeight * ManualWeightInput.State :=
  foldl dialog_step
    ([], {| ManualWeightInput.selectedDetectedObject := None;
            ManualWeightInput.customWeight := 0 |})
    events.

(** A detected object as the dialog lists it, and a frame whose REBA
    score is the sample score. *)
Definition sample_object : ManualWeightInput.DetectedObject :=
  {| ManualWeightInput.objectId := "detected_object_0";
     ManualWeightInput.imageData := "data:image/jpeg;base64,";
     ManualWeightInput.objectName := "Object 1" |}.

Definition sample_frame : RebaRecordingPanel.RecordingFrame :=
  {| RebaRecordingPanel.rebaScore := Some 1%positive;
     RebaRecordingPanel.weightEstimation := None |}.

(* ===================================================================== *)
(** * Checks over finite ranges and tables                                *)
(* ===================================================================== *)

Lemma all_in_range_spec lo n p i :
  all_in_range lo n p = true -> (lo <= i < lo + n)%Z -> p i = true.
Proof.
  unfold all_in_range. rewrite forallb_forall. intros H Hi.
  apply H, list_elem_of_In, elem_of_seqZ. lia.
Qed.

Lemma table_all_spec table rows cols p i j :
  table_all table rows cols p = true ->
  (0 <= i < rows)%Z -> (0 <= j < cols)%Z ->
  exists v, entry table i j = Some v /\ p v = true.
Proof.
  intros H Hi Hj. unfold table_all in H.
  apply (all_in_range_spec _ _ _ i) in H; [|lia].
  apply (all_in_range_spec _ _ _ j) in H; [|lia].
  cbv beta in H.
  destruct (entry table i j) as [v|]; [eauto|discriminate].
Qed.

Lemma in_range_spec lo hi v :
  in_range lo hi v = true -> (lo <= v <= hi)%Z.
Proof. unfold in_range. lia. Qed.

Lemma clamp_bounds lo hi x : (lo <= hi)%Z -> (lo <= clamp lo hi x <= hi)%Z.
Proof. unfold clamp. lia. Qed.

(* ===================================================================== *)
(** * The JavaScript idioms on examples                                   *)
(* ===================================================================== *)

Lemma Math_round_examples :
  JS.Math_round 2.5 = 3%float /\
  JS.Math_round (-2.5) = (-2)%float /\
  JS.Math_round 0.49999999999999994 = 0%float /\
  JS.Math_round (-0.3) = (-0)%float /\
  JS.Math_round 150 = 150%float /\
  JS.Math_round PrimFloat.infinity = PrimFloat.infinity /\
  PrimFloat.is_nan (JS.Math_round PrimFloat.nan) = true.
Proof. repeat split; reflexivity. Qed.

Lemma Math_ceil_examples :
  JS.Math_ceil 2.1 = 3%float /\
  JS.Math_ceil (-2.1) = (-2)%float /\
  JS.Math_ceil 4.5 = 5%float /\
  JS.Math_ceil 6 = 6%float /\
  JS.Math_ceil (-0.5) = (-0)%float.
Proof. repeat split; reflexivity. Qed.

Lemma or_zero_examples :
  JS.or_zero None = 0%float /\
  JS.or_zero (Some 0.9%float) = 0.9%float /\
  JS.or_zero (Some PrimFloat.nan) = 0%float /\
  JS.or_zero (Some (-0)%float) = 0%float.
Proof. repeat split; reflexivity. Qed.

(** The reference [Math.acos] on the arguments where ECMA-262 fixes the
    result. *)
Lemma reference_acos_special_values :
  Libm.Math_acos 1 = 0%float /\
  PrimFloat.is_nan (Libm.Math_acos PrimFloat.nan) = true /\
  PrimFloat.is_nan (Libm.Math_acos 1.5) = true /\
  PrimFloat.is_nan (Libm.Math_acos (-1.5)) = true.
Proof. repeat split; reflexivity. Qed.

(* ===================================================================== *)
(** * The REBA calculator: component scores and table lookups             *)
(* ===================================================================== *)

Section RebaFacts.

Import RebaCalculator.
Local Open Scope Z_scope.

Lemma getNeckScore_range a t : 1 <= getNeckScore a t <= 3.
Proof.
  unfold getNeckScore.
  destruct (a >= 0)%js, (a < 20)%js, (a >= 20)%js, (a < 0)%js, t; simpl; lia.
Qed.

Lemma getTrunkScore_range a t : 1 <= getTrunkScore a t <= 5.
Proof.
  unfold getTrunkScore.
  destruct (a >= 0)%js, (a < 5)%js, (a >= 5)%js, (a < 20)%js,
    (a >= 20)%js, (a < 60)%js, (a >= 60)%js, t; simpl; lia.
Qed.

Lemma getLegsScore_range a s : 1 <= getLegsScore a s <= 4.
Proof.
  unfold getLegsScore.
  destruct (a >= 30)%js, (a < 60)%js, (a >= 60)%js, s; simpl; lia.
Qed.

Lemma getUpperArmScore_range a r b s : 1 <= getUpperArmScore a r b s <= 6.
Proof. unfold getUpperArmScore. lia. Qed.

Lemma getLowerArmScore_range a : 1 <= getLowerArmScore a <= 2.
Proof. unfold getLowerArmScore. destruct (_ && _); lia. Qed.

Lemma getWristScore_range a t : 1 <= getWristScore a t <= 3.
Proof.
  unfold getWristScore. destruct (PrimFloat.abs a > 15)%js, t; simpl; lia.
Qed.

(** The legs index of [getScoreA] is [legs - 1] cut off at 3, from
    [legs = 1] on. *)
Lemma legsAdjustedIndex_clamp l :
  1 <= l ->
  (if l =? 1 then 0 else if l =? 2 then 1 else Z.min 3 (l - 1))
  = clamp 0 3 (l - 1).
Proof. intros. unfold clamp. repeat case_match; lia. Qed.

Lemma or_num_nonzero v d : v <> 0 -> JS.or_num (Some v) d = v.
Proof. intros. simpl. destruct (Z.eqb_spec v 0); congruence. Qed.

Lemma getScoreA_entry n t l :
  1 <= l ->
  entry REBA_TABLE_A (clamp 0 4 (n - 1)) (clamp 0 3 (l - 1))
  = Some (getScoreA n t l).
Proof.
  intros Hl. unfold getScoreA. rewrite legsAdjustedIndex_clamp by done.
  fold (clamp 0 4 (n - 1)).
  fold (entry REBA_TABLE_A (clamp 0 4 (n - 1)) (clamp 0 3 (l - 1))).
  destruct (table_all_spec REBA_TABLE_A 5 4 (fun v => negb (v =? 0))
              (clamp 0 4 (n - 1)) (clamp 0 3 (l - 1)) eq_refl)
    as (v & -> & Hv).
  - pose proof (clamp_bounds 0 4 (n - 1)). lia.
  - pose proof (clamp_bounds 0 3 (l - 1)). lia.
  - rewrite or_num_nonzero; [done|]. lia.
Qed.

Lemma getScoreB_entry u l w :
  entry REBA_TABLE_B (clamp 0 5 (u - 1)) (clamp 0 2 (w - 1))
  = Some (getScoreB u l w).
Proof.
  unfold getScoreB.
  fold (clamp 0 5 (u - 1)). fold (clamp 0 2 (w - 1)).
  fold (entry REBA_TABLE_B (clamp 0 5 (u - 1)) (clamp 0 2 (w - 1))).
  destruct (table_all_spec REBA_TABLE_B 6 3 (fun v => negb (v =? 0))
              (clamp 0 5 (u - 1)) (clamp 0 2 (w - 1)) eq_refl)
    as (v & -> & Hv).
  - pose proof (clamp_bounds 0 5 (u - 1)). lia.
  - pose proof (clamp_bounds 0 2 (w - 1)). lia.
  - rewrite or_num_nonzero; [done|]. lia.
Qed.

Lemma getFinalScore_entry a b :
  entry REBA_TABLE_C (clamp 0 11 (a - 1)) (clamp 0 11 (b - 1))
  = Some (getFinalScore a b 0 0).
Proof.
  unfold getFinalScore.
  fold (clamp 0 11 (a - 1)). fold (clamp 0 11 (b - 1)).
  fold (entry REBA_TABLE_C (clamp 0 11 (a - 1)) (clamp 0 11 (b - 1))).
  destruct (table_all_spec REBA_TABLE_C 12 12 (in_range 1 12)
              (clamp 0 11 (a - 1)) (clamp 0 11 (b - 1)) eq_refl)
    as (v & -> & Hv%in_range_spec).
  - pose proof (clamp_bounds 0 11 (a - 1)). lia.
  - pose proof (clamp_bounds 0 11 (b - 1)). lia.
  - rewrite or_num_nonzero by lia. f_equal. lia.
Qed.

Lemma getFinalScore_range a b l c : 1 <= getFinalScore a b l c <= 15.
Proof. unfold getFinalScore. lia. Qed.

End RebaFacts.

(* ===================================================================== *)
(** * The REBA calculator: [calculateREBA]                                *)
(* ===================================================================== *)

Section CalculateRebaFacts.

Import RebaCalculator.
Local Open Scope Z_scope.

Variable Math_atan2 : float -> float -> float.

(** What a returned score is made of: six component scores, each given
    by its scorer at some angle, the two group scores and the final score
    looked up from them, and the constant wrist angle. *)
Lemma calculateREBA_Some keypoints r :
  calculateREBA Math_atan2 keypoints = Some r ->
  (17 <= length keypoints)%nat /\
  (exists neckA trunkA kneeA upperArmA lowerArmA,
      neck r = getNeckScore neckA false /\
      trunk r = getTrunkScore trunkA false /\
      legs r = getLegsScore kneeA true /\
      upperArm r = getUpperArmScore upperArmA false false false /\
      lowerArm r = getLowerArmScore lowerArmA) /\
  wrist r = getWristScore 15 false /\
  scoreA r = getScoreA (neck r) (trunk r) (legs r) /\
  scoreB r = getScoreB (upperArm r) (lowerArm r) (wrist r) /\
  finalScore r = getFinalScore (scoreA r) (scoreB r) 0 0 /\
  riskLevel r = getRiskLevel (finalScore r) /\
  actionLevel r = getActionLevel (finalScore r) /\
  wristAngle r = (JS.Math_round (15 * 10) / 10)%float.
Proof.
  unfold calculateREBA.
  destruct (Nat.ltb_spec (length keypoints) 17) as [|Hlen]; [discriminate|].
  destruct (calculateREBA_try Math_atan2 keypoints) as [s|] eqn:Htry;
    [|discriminate].
  intros [= ->]. split; [lia|].
  unfold calculateREBA_try in Htry.
  destruct (kp keypoints 5) as [ls|]; [|discriminate].
  destruct (kp keypoints 6) as [rs|]; [|discriminate].
  cbn [mbind option_bind] in Htry.
  destruct (kp keypoints 0) as [n|]; [|discriminate].
  destruct (kp keypoints 11) as [lh|]; [|discriminate].
  destruct (kp keypoints 12) as [rh|]; [|discriminate].
  cbn [mbind option_bind] in Htry.
  match type of Htry with
  | (?e ≫= _) = _ => destruct e as [el|]; [|discriminate]
  end.
  cbn [mbind option_bind] in Htry.
  match type of Htry with
  | (?e ≫= _) = _ => destruct e as [sh|]; [|discriminate]
  end.
  cbn [mbind option_bind] in Htry.
  match type of Htry with
  | (?e ≫= _) = _ => destruct e as [wr|]; [|discriminate]
  end.
  cbn [mbind option_bind] in Htry.
  injection Htry as <-. cbn [neck trunk legs upperArm lowerArm wrist scoreA
    scoreB finalScore riskLevel actionLevel wristAngle].
  split; [eauto 10|]. repeat split.
Qed.

(** A pose whose seventeen keypoints are all defined is scored. *)
Lemma calculateREBA_defined keypoints :
  length keypoints = 17%nat -> Forall is_Some keypoints ->
  is_Some (calculateREBA Math_atan2 keypoints).
Proof.
  intros Hlen Hall.
  do 17 (destruct keypoints as [|[?|] keypoints]; [discriminate| |
           exfalso; inversion Hall; subst;
           repeat match goal with
                  | H : Forall _ (_ :: _) |- _ => inversion H; clear H; subst
                  end;
           match goal with H : is_Some None |- _ => destruct H; discriminate end]).
  destruct keypoints; [|discriminate].
  unfold calculateREBA, calculateREBA_try. cbn [length Nat.ltb Nat.leb].
  cbn [kp lookup list_lookup mjoin option_join fmap option_fmap option_map score].
  repeat case_match; cbn [mbind option_bind] in *; eauto; discriminate.
Qed.

End CalculateRebaFacts.

(* ===================================================================== *)
(** * The RULA tables of the weight-detection file                        *)
(* ===================================================================== *)

Section RulaTableFacts.

Import WeightDetection.
Local Open Scope Z_scope.

Lemma rula_getScoreA_range u l w :
  exists v, getScoreA u l w = Some v /\ 1 <= v <= 8.
Proof.
  unfold getScoreA.
  pose proof (clamp_bounds 0 5 (u - 1)) as Hu.
  pose proof (clamp_bounds 0 2 (l - 1)) as Hl.
  pose proof (clamp_bounds 0 7 (w - 1)) as Hw.
  unfold clamp in *.
  pose proof (all_in_range_spec 0 6
    (fun i => all_in_range 0 3 (fun j => all_in_range 0 8 (fun k =>
       match (plane ← JS.index scoreATable i;
              row ← JS.index plane j; JS.index row k) with
       | Some v => in_range 1 8 v
       | None => false
       end))) (Z.max 0 (Z.min 5 (u - 1))) eq_refl ltac:(lia)) as H.
  apply (all_in_range_spec _ _ _ (Z.max 0 (Z.min 2 (l - 1)))) in H; [|lia].
  apply (all_in_range_spec _ _ _ (Z.max 0 (Z.min 7 (w - 1)))) in H; [|lia].
  cbv beta in H.
  destruct (JS.index scoreATable _ ≫= _) as [v|]; [|discriminate].
  apply in_range_spec in H. eauto.
Qed.

Lemma rula_getScoreB_range n t :
  exists v, getScoreB n t = Some v /\ 1 <= v <= 7.
Proof.
  unfold getScoreB.
  destruct (table_all_spec scoreBTable 6 6 (in_range 1 7)
              (clamp 0 5 (n - 1)) (clamp 0 5 (t - 1)) eq_refl)
    as (v & Hv & Hr%in_range_spec).
  - pose proof (clamp_bounds 0 5 (n - 1)). lia.
  - pose proof (clamp_bounds 0 5 (t - 1)). lia.
  - exists v. split; [exact Hv|lia].
Qed.

Lemma rula_getFinalScore_range a b :
  exists v, getFinalScore a b = Some v /\ 1 <= v <= 7.
Proof.
  unfold getFinalScore.
  destruct (table_all_spec finalScoreTable 8 7 (in_range 1 7)
              (clamp 0 7 (a - 1)) (clamp 0 6 (b - 1)) eq_refl)
    as (v & Hv & Hr%in_range_spec).
  - pose proof (clamp_bounds 0 7 (a - 1)). lia.
  - pose proof (clamp_bounds 0 6 (b - 1)). lia.
  - exists v. split; [exact Hv|lia].
Qed.

(** Saturation: a score outside a table's dimension reads the same
    entry as the nearest score inside it. *)
Lemma rula_getScoreA_saturates u l w :
  getScoreA u l w = getScoreA (clamp 1 6 u) (clamp 1 3 l) (clamp 1 8 w).
Proof.
  unfold getScoreA, clamp.
  replace (Z.max 0 (Z.min 5 (Z.max 1 (Z.min 6 u) - 1)))
    with (Z.max 0 (Z.min 5 (u - 1))) by lia.
  replace (Z.max 0 (Z.min 2 (Z.max 1 (Z.min 3 l) - 1)))
    with (Z.max 0 (Z.min 2 (l - 1))) by lia.
  replace (Z.max 0 (Z.min 7 (Z.max 1 (Z.min 8 w) - 1)))
    with (Z.max 0 (Z.min 7 (w - 1))) by lia.
  reflexivity.
Qed.

Lemma rula_getScoreB_saturates n t :
  getScoreB n t = getScoreB (clamp 1 6 n) (clamp 1 6 t).
Proof.
  unfold getScoreB, clamp.
  replace (Z.max 0 (Z.min 5 (Z.max 1 (Z.min 6 n) - 1)))
    with (Z.max 0 (Z.min 5 (n - 1))) by lia.
  replace (Z.max 0 (Z.min 5 (Z.max 1 (Z.min 6 t) - 1)))
    with (Z.max 0 (Z.min 5 (t - 1))) by lia.
  reflexivity.
Qed.

Lemma rula_getFinalScore_saturates a b :
  getFinalScore a b = getFinalScore (clamp 1 8 a) (clamp 1 7 b).
Proof.
  unfold getFinalScore, clamp.
  replace (Z.max 0 (Z.min 7 (Z.max 1 (Z.min 8 a) - 1)))
    with (Z.max 0 (Z.min 7 (a - 1))) by lia.
  replace (Z.max 0 (Z.min 6 (Z.max 1 (Z.min 7 b) - 1)))
    with (Z.max 0 (Z.min 6 (b - 1))) by lia.
  reflexivity.
Qed.

End RulaTableFacts.

(* ===================================================================== *)
(** * Final scores stay in range, tables are read inside their bounds     *)
(* ===================================================================== *)

(** C1.  The RULA final-score lookup returns a value in [1, 7] for all
    group scores, and every score [calculateREBA] returns has its final
    score in [1, 15]; a pose of seventeen defined keypoints is always
    scored, whatever [Math.atan2] yields for its angles.  Every table is
    read at indices cut off to its dimensions: the RULA lookups always find
    an entry and saturate, and the REBA lookups return the entry at the
    clamped indices (the legs index for every legs score from 1 on, and the
    leg scorer never gives less). *)
Theorem final_scores_within_documented_range :
  (forall scoreA scoreB : Z,
      exists v, WeightDetection.getFinalScore scoreA scoreB = Some v
                /\ (1 <= v <= 7)%Z) /\
  (forall Math_atan2 keypoints r,
      RebaCalculator.calculateREBA Math_atan2 keypoints = Some r ->
      (1 <= RebaCalculator.finalScore r <= 15)%Z /\
      (1 <= RebaCalculator.legs r <= 4)%Z) /\
  (forall Math_atan2 keypoints,
      length keypoints = 17%nat -> Forall is_Some keypoints ->
      is_Some (RebaCalculator.calculateREBA Math_atan2 keypoints)) /\
  (forall u l w : Z,
      is_Some (WeightDetection.getScoreA u l w) /\
      WeightDetection.getScoreA u l w
      = WeightDetection.getScoreA (clamp 1 6 u) (clamp 1 3 l) (clamp 1 8 w)) /\
  (forall n t : Z,
      is_Some (WeightDetection.getScoreB n t) /\
      WeightDetection.getScoreB n t
      = WeightDetection.getScoreB (clamp 1 6 n) (clamp 1 6 t)) /\
  (forall a b : Z,
      WeightDetection.getFinalScore a b
      = WeightDetection.getFinalScore (clamp 1 8 a) (clamp 1 7 b)) /\
  (forall n t l : Z,
      (1 <= l)%Z ->
      entry RebaCalculator.REBA_TABLE_A (clamp 0 4 (n - 1)) (clamp 0 3 (l - 1))
      = Some (RebaCalculator.getScoreA n t l)) /\
  (forall u l w : Z,
      entry RebaCalculator.REBA_TABLE_B (clamp 0 5 (u - 1)) (clamp 0 2 (w - 1))
      = Some (RebaCalculator.getScoreB u l w)) /\
  (forall a b : Z,
      entry RebaCalculator.REBA_TABLE_C (clamp 0 11 (a - 1)) (clamp 0 11 (b - 1))
      = Some (RebaCalculator.getFinalScore a b 0 0)).
Proof.
  split; [exact rula_getFinalScore_range|].
  split.
  { intros f kps r H.
    destruct (calculateREBA_Some f kps r H)
      as (_ & (na & ta & ka & ua & la & _ & _ & Hlegs & _) & _ & _ & _ & Hf & _).
    rewrite Hf, Hlegs.
    split; [apply getFinalScore_range|apply getLegsScore_range]. }
  split; [exact calculateREBA_defined|].
  split.
  { intros u l w. split; [|apply rula_getScoreA_saturates].
    destruct (rula_getScoreA_range u l w) as (v & -> & _). eauto. }
  split.
  { intros n t. split; [|apply rula_getScoreB_saturates].
    destruct (rula_getScoreB_range n t) as (v & -> & _). eauto. }
  split; [exact rula_getFinalScore_saturates|].
  split; [exact getScoreA_entry|].
  split; [exact getScoreB_entry|exact getFinalScore_entry].
Qed.

Lemma final_scores_within_documented_range_witness :
  exists r,
    RebaCalculator.calculateREBA Libm.Math_atan2 standing_pose = Some r /\
    (1 <= RebaCalculator.finalScore r <= 15)%Z /\
    (1 <= RebaCalculator.legs r <= 4)%Z.
Proof.
  eexists. split; [reflexivity|].
  apply (proj1 (proj2 final_scores_within_documented_range)
           Libm.Math_atan2 standing_pose).
  reflexivity.
Defined.

(* ===================================================================== *)
(** * Score A ignores the trunk, Score B ignores the lower arm            *)
(* ===================================================================== *)

(** C5.  In the REBA scorer, Score A is the entry of the 5x4 Table A at
    the neck score and an index derived from the legs score, whatever the
    trunk score is; Score B is the entry of the 6x3 Table B at the
    upper-arm and wrist scores, whatever the lower-arm score is. *)
Theorem reba_group_scores_ignore_trunk_and_lower_arm :
  (forall neck trunk1 trunk2 legs : Z,
      RebaCalculator.getScoreA neck trunk1 legs
      = RebaCalculator.getScoreA neck trunk2 legs) /\
  (forall neck trunk legs : Z,
      (1 <= neck <= 5)%Z -> (1 <= legs <= 4)%Z ->
      entry RebaCalculator.REBA_TABLE_A (neck - 1) (legs - 1)
      = Some (RebaCalculator.getScoreA neck trunk legs)) /\
  (forall upperArm lowerArm1 lowerArm2 wrist : Z,
      RebaCalculator.getScoreB upperArm lowerArm1 wrist
      = RebaCalculator.getScoreB upperArm lowerArm2 wrist) /\
  (forall upperArm lowerArm wrist : Z,
      (1 <= upperArm <= 6)%Z -> (1 <= wrist <= 3)%Z ->
      entry RebaCalculator.REBA_TABLE_B (upperArm - 1) (wrist - 1)
      = Some (RebaCalculator.getScoreB upperArm lowerArm wrist)) /\
  (length RebaCalculator.REBA_TABLE_A = 5%nat /\
   Forall (fun row => length row = 4%nat) RebaCalculator.REBA_TABLE_A) /\
  (length RebaCalculator.REBA_TABLE_B = 6%nat /\
   Forall (fun row => length row = 3%nat) RebaCalculator.REBA_TABLE_B).
Proof.
  split; [reflexivity|].
  split.
  { intros n t l Hn Hl. rewrite <- (getScoreA_entry n t l) by lia.
    unfold clamp. f_equal; lia. }
  split; [reflexivity|].
  split.
  { intros u l w Hu Hw. rewrite <- (getScoreB_entry u l w).
    unfold clamp. f_equal; lia. }
  split; (split; [reflexivity|repeat constructor]).
Qed.

Lemma reba_group_scores_ignore_trunk_and_lower_arm_witness :
  (1 <= 2 <= 5)%Z /\ (1 <= 3 <= 4)%Z /\
  entry RebaCalculator.REBA_TABLE_A (2 - 1) (3 - 1)
  = Some (RebaCalculator.getScoreA 2 5 3).
Proof.
  split; [lia|]. split; [lia|].
  apply (proj1 (proj2 reba_group_scores_ignore_trunk_and_lower_arm) 2 5 3)%Z;
    lia.
Defined.

(* ===================================================================== *)
(** * The wrist score of [calculateREBA] is constant                      *)
(* ===================================================================== *)

(** C10.  Every score [calculateREBA] returns has wrist component score 1
    and wrist angle 15: the wrist flexion angle is the constant 15, which
    does not exceed the threshold of [getWristScore], and no twist flag is
    passed. *)
Theorem calculateREBA_wrist_is_constant :
  forall Math_atan2 keypoints r,
    RebaCalculator.calculateREBA Math_atan2 keypoints = Some r ->
    RebaCalculator.wrist r = 1%Z /\ RebaCalculator.wristAngle r = 15%float.
Proof.
  intros f kps r H.
  destruct (calculateREBA_Some f kps r H)
    as (_ & _ & Hw & _ & _ & _ & _ & _ & Ha).
  rewrite Hw, Ha. split; reflexivity.
Qed.

Lemma calculateREBA_wrist_is_constant_witness :
  exists r,
    RebaCalculator.calculateREBA Libm.Math_atan2 standing_pose = Some r /\
    RebaCalculator.wrist r = 1%Z /\ RebaCalculator.wristAngle r = 15%float.
Proof.
  eexists. split; [reflexivity|].
  apply (calculateREBA_wrist_is_constant Libm.Math_atan2 standing_pose).
  reflexivity.
Defined.

(* ===================================================================== *)
(** * The posture-based weight estimate                                   *)
(* ===================================================================== *)

Section EstimatorFacts.

Import WeightDetection.

Variable Math_acos : float -> float.

(** No read of [analyzePosture] is outside its guard. *)
Lemma analyzePosture_total keypoints :
  is_Some (analyzePosture Math_acos keypoints).
Proof.
  unfold analyzePosture.
  destruct (17 <=? length keypoints)%nat; [|eauto].
  destruct (kp keypoints 5), (kp keypoints 6), (kp keypoints 9),
    (kp keypoints 10), (kp keypoints 7), (kp keypoints 8);
    cbn [JS.truthy andb mbind option_bind]; eauto.
  destruct (kp keypoints 11), (kp keypoints 12);
    cbn [JS.truthy andb mbind option_bind];
    repeat match goal with
           | |- context [if ?c then _ else _] => destruct c
           end;
    cbn [mbind option_bind]; eauto.
Qed.

Lemma analyzePosture_short keypoints :
  (length keypoints < 17)%nat ->
  analyzePosture Math_acos keypoints = Some default_posture.
Proof.
  intros Hlen. unfold analyzePosture.
  destruct (Nat.leb_spec 17 (length keypoints)); [lia|reflexivity].
Qed.

(** No read of [calculateWeightFromPosture] is outside its guard. *)
Lemma calculateWeightFromPosture_total bodyPosture keypoints :
  is_Some (calculateWeightFromPosture Math_acos bodyPosture keypoints).
Proof.
  unfold calculateWeightFromPosture.
  destruct (_ && JS.Q_gt _ _); [|eauto].
  destruct (kp keypoints 5), (kp keypoints 6), (kp keypoints 7),
    (kp keypoints 8), (kp keypoints 9), (kp keypoints 10);
    cbn [JS.truthy andb mbind option_bind]; eauto.
Qed.

Lemma estimateWeightFromPosture_Some keypoints :
  exists bodyPosture weight,
    analyzePosture Math_acos keypoints = Some bodyPosture /\
    calculateWeightFromPosture Math_acos bodyPosture keypoints = Some weight /\
    estimateWeightFromPosture Math_acos keypoints
    = Some {| estimatedWeight :=
                if isLifting bodyPosture || isCarrying bodyPosture
                then weight else 0%Q;
              confidence :=
                if isLifting bodyPosture || isCarrying bodyPosture
                then 0.8%Q else 0.1%Q;
              detectedObjects := [];
              bodyPosture := bodyPosture |}.
Proof.
  destruct (analyzePosture_total keypoints) as [p Hp].
  destruct (calculateWeightFromPosture_total p keypoints) as [w Hw].
  exists p, w. unfold estimateWeightFromPosture.
  rewrite Hp. cbn [mbind option_bind]. rewrite Hw. done.
Qed.

End EstimatorFacts.

(** C8.  [estimateWeightFromPosture] returns an estimate for every array
    of keypoints (no read is outside a guard, so nothing is thrown).
    Whenever the posture it analysed has neither [isLifting] nor
    [isCarrying], the estimated weight is 0 and the confidence 0.1; an
    array of fewer than 17 keypoints has the default posture, all flags
    false, and so this estimate. *)
Theorem estimate_is_zero_without_load :
  forall Math_acos keypoints,
    exists r,
      WeightDetection.estimateWeightFromPosture Math_acos keypoints = Some r /\
      WeightDetection.analyzePosture Math_acos keypoints
      = Some (WeightDetection.bodyPosture r) /\
      (WeightDetection.isLifting (WeightDetection.bodyPosture r) = false ->
       WeightDetection.isCarrying (WeightDetection.bodyPosture r) = false ->
       WeightDetection.estimatedWeight r = 0%Q /\
       WeightDetection.confidence r = 0.1%Q) /\
      ((length keypoints < 17)%nat ->
       WeightDetection.bodyPosture r = default_posture /\
       WeightDetection.estimatedWeight r = 0%Q /\
       WeightDetection.confidence r = 0.1%Q).
Proof.
  intros f kps.
  destruct (estimateWeightFromPosture_Some f kps) as (p & w & Hp & Hw & Hr).
  eexists. split; [exact Hr|]. cbn. split; [exact Hp|]. split.
  - intros -> ->. done.
  - intros Hlen. rewrite (analyzePosture_short f kps Hlen) in Hp.
    injection Hp as <-. done.
Qed.

Lemma estimate_is_zero_without_load_witness :
  exists r,
    WeightDetection.estimateWeightFromPosture Libm.Math_acos standing_pose
    = Some r /\
    WeightDetection.isLifting (WeightDetection.bodyPosture r) = false /\
    WeightDetection.isCarrying (WeightDetection.bodyPosture r) = false /\
    WeightDetection.estimatedWeight r = 0%Q /\
    WeightDetection.confidence r = 0.1%Q.
Proof.
  destruct (estimate_is_zero_without_load Libm.Math_acos standing_pose)
    as (r & Hr & _ & H & _).
  exists r. split; [exact Hr|].
  assert (E : Some r
              = WeightDetection.estimateWeightFromPosture Libm.Math_acos
                  standing_pose) by (symmetry; exact Hr).
  vm_compute in E. injection E as ->.
  split; [reflexivity|]. split; [reflexivity|]. apply H; reflexivity.
Defined.

(* ===================================================================== *)
(** * The weight adjusters: what a call computes                          *)
(* ===================================================================== *)

Section AdjusterFacts.

Import WeightDetection.

(** The score matrix of the REBA adjuster is Table C of the calculator. *)
Lemma scoreMatrix_is_table_C : scoreMatrix = RebaCalculator.REBA_TABLE_C.
Proof. reflexivity. Qed.

Lemma getRebaFinalScore_table a b :
  getRebaFinalScore a b = Some (RebaCalculator.getFinalScore a b 0 0).
Proof.
  rewrite <- getFinalScore_entry.
  unfold getRebaFinalScore, entry, clamp. rewrite scoreMatrix_is_table_C.
  replace (Z.min (Z.max (a - 1) 0) 11) with (Z.max 0 (Z.min 11 (a - 1))) by lia.
  replace (Z.min (Z.max (b - 1) 0) 11) with (Z.max 0 (Z.min 11 (b - 1))) by lia.
  reflexivity.
Qed.

(** Case analysis on a comparison of rationals. *)
Lemma Qle_bool_cases (x y : Q) :
  (Qle_bool x y = true /\ (x <= y)%Q) \/ (Qle_bool x y = false /\ (y < x)%Q).
Proof.
  destruct (Qle_bool x y) eqn:E.
  - left. split; [done|]. by apply Qle_bool_iff.
  - right. split; [done|]. apply Qnot_le_lt. intros H%Qle_bool_iff. congruence.
Qed.

Ltac Qcases x y :=
  let E := fresh "E" in
  let H := fresh "H" in
  destruct (Qle_bool_cases x y) as [[E H]|[E H]]; rewrite ?E in *.

(** The multiplier each adjuster picks lies in the band of the weight. *)
Lemma reba_band_code w :
  reba_band w
    (if Qle_bool w 5 then 1.0%Q
     else if Qle_bool w 10 then 1.1%Q
     else if Qle_bool w 20 then 1.3%Q
     else if Qle_bool w 40 then 1.5%Q
     else 1.8%Q).
Proof.
  unfold reba_band.
  Qcases w 5%Q; Qcases w 10%Q; Qcases w 20%Q; Qcases w 40%Q;
    repeat split; intros; try reflexivity; exfalso; Lqa.lra.
Qed.

Lemma rula_band_code w :
  rula_band w
    (if JS.Q_gt w 23 then 3%Q
     else if JS.Q_gt w 10 then 2%Q
     else if JS.Q_gt w 5 then 1.5%Q
     else 1%Q).
Proof.
  unfold rula_band, JS.Q_gt.
  Qcases w 23%Q; Qcases w 10%Q; Qcases w 5%Q; cbn [negb];
    repeat split; intros; try reflexivity; exfalso; Lqa.lra.
Qed.

(** A band fixes the multiplier, and a heavier weight never has a smaller
    one. *)
Lemma reba_band_mono w1 w2 m1 m2 :
  reba_band w1 m1 -> reba_band w2 m2 -> (w1 <= w2)%Q -> (m1 <= m2)%Q.
Proof.
  intros (A1 & A2 & A3 & A4 & A5) (B1 & B2 & B3 & B4 & B5) Hle.
  Qcases w1 5%Q; Qcases w1 10%Q; Qcases w1 20%Q; Qcases w1 40%Q;
  Qcases w2 5%Q; Qcases w2 10%Q; Qcases w2 20%Q; Qcases w2 40%Q;
    try (exfalso; Lqa.lra);
    rewrite ?A1, ?A2, ?A3, ?A4, ?A5, ?B1, ?B2, ?B3, ?B4, ?B5 by assumption;
    done.
Qed.

Lemma rula_band_mono w1 w2 m1 m2 :
  rula_band w1 m1 -> rula_band w2 m2 -> (w1 <= w2)%Q -> (m1 <= m2)%Q.
Proof.
  intros (A1 & A2 & A3 & A4) (B1 & B2 & B3 & B4) Hle.
  Qcases w1 23%Q; Qcases w1 10%Q; Qcases w1 5%Q;
  Qcases w2 23%Q; Qcases w2 10%Q; Qcases w2 5%Q;
    try (exfalso; Lqa.lra);
    rewrite ?A1, ?A2, ?A3, ?A4, ?B1, ?B2, ?B3, ?B4 by assumption;
    done.
Qed.

Lemma reba_band_nonneg w m : reba_band w m -> (0 <= m)%Q.
Proof.
  intros (A1 & A2 & A3 & A4 & A5).
  Qcases w 5%Q; Qcases w 10%Q; Qcases w 20%Q; Qcases w 40%Q;
    try (exfalso; Lqa.lra);
    rewrite ?A1, ?A2, ?A3, ?A4, ?A5 by assumption; done.
Qed.

(** [Math.round] and [Math.ceil] on rationals, as relations. *)
Lemma Math_round_Q_rounds q : rounds_to q (JS.Math_round_Q q).
Proof.
  unfold rounds_to, JS.Math_round_Q.
  pose proof (Qfloor_le (q + (1 # 2))) as H1.
  pose proof (Qlt_floor (q + (1 # 2))) as H2.
  rewrite inject_Z_plus in H2. change (inject_Z 1) with 1%Q in H2.
  split; Lqa.lra.
Qed.

Lemma Math_ceil_Q_ceiling q : ceiling_of q (JS.Math_ceil_Q q).
Proof.
  unfold ceiling_of, JS.Math_ceil_Q.
  pose proof (Qle_ceiling q) as H1.
  pose proof (Qceiling_lt q) as H2.
  unfold Z.sub in H2. rewrite inject_Z_plus, inject_Z_opp in H2.
  change (inject_Z 1) with 1%Q in H2.
  split; Lqa.lra.
Qed.

End AdjusterFacts.

Section AdjusterResults.

Import WeightDetection.

Variable heap : gmap positive (gmap string JS.value).
Variable ref : positive.
Variable base : gmap string JS.value.
Variable weightEstimation : WeightEstimation.
Variable manualWeight : option Q.

Hypothesis base_on_heap : heap !! ref = Some base.

(** The object a call returns is the one it has just allocated. *)
Lemma returned_prop_alloc (o : gmap string JS.value) k :
  returned_prop (Some (<[fresh (dom heap) := o]> heap, Some (fresh (dom heap)))) k
  = o !! k.
Proof.
  unfold returned_prop. cbn [mbind option_bind].
  rewrite lookup_insert_eq. reflexivity.
Qed.

Lemma calculateWeightAdjustedReba_result a b :
  JS.num_prop base "scoreA" = Some a ->
  JS.num_prop base "scoreB" = Some b ->
  exists m,
    reba_band (JS.or_else manualWeight (estimatedWeight weightEstimation)) m /\
    let A := Z.min 12 (JS.Math_round_Q (a * m)) in
    let B := Z.min 12 (JS.Math_round_Q (b * m)) in
    let F := Z.min 15 (RebaCalculator.getFinalScore A B 0 0) in
    calculateWeightAdjustedReba heap (Some ref) weightEstimation manualWeight
    = Some
        (<[fresh (dom heap) :=
             JS.spread base
               [ ("scoreA", JS.VNum (inject_Z A));
                 ("scoreB", JS.VNum (inject_Z B));
                 ("finalScore", JS.VNum (inject_Z F));
                 ("riskLevel", JS.VStr (getRebaRiskLevel F));
                 ("actionLevel", JS.VStr (getRebaActionLevel F));
                 ("effectiveWeight",
                  JS.VNum (JS.or_else manualWeight
                             (estimatedWeight weightEstimation)));
                 ("weightMultiplier", JS.VNum m);
                 ("isWeightAdjusted", JS.VBool true) ]]> heap,
         Some (fresh (dom heap))).
Proof.
  intros Ha Hb. eexists. split; [apply reba_band_code|].
  unfold calculateWeightAdjustedReba.
  rewrite base_on_heap. cbn [mbind option_bind].
  rewrite Ha, Hb. cbn [mbind option_bind].
  rewrite getRebaFinalScore_table. reflexivity.
Qed.

Lemma calculateWeightAdjustedRula_result f :
  JS.num_prop base "finalScore" = Some f ->
  exists m,
    rula_band
      (JS.or_else
         (Some (JS.or_else manualWeight (estimatedWeight weightEstimation))) 0)
      m /\
    let w :=
      JS.or_else
        (Some (JS.or_else manualWeight (estimatedWeight weightEstimation))) 0 in
    let F := Z.min 7 (JS.Math_ceil_Q (f * m)) in
    calculateWeightAdjustedRula heap (Some ref) weightEstimation manualWeight
    = Some
        (<[fresh (dom heap) :=
             JS.spread base
               [ ("finalScore", JS.VNum (inject_Z F));
                 ("effectiveWeight", JS.VNum w);
                 ("weightMultiplier", JS.VNum m);
                 ("riskLevel",
                  JS.VStr (if (F <=? 2)%Z then "Low Risk"
                           else if (F <=? 4)%Z then "Medium Risk"
                           else if (F <=? 6)%Z then "High Risk"
                           else "Critical Risk")) ]]> heap,
         Some (fresh (dom heap))).
Proof.
  intros Hf. eexists. split; [apply rula_band_code|].
  unfold calculateWeightAdjustedRula.
  rewrite base_on_heap. cbn [mbind option_bind].
  rewrite Hf. reflexivity.
Qed.

End AdjusterResults.

(** Reading a property of an object literal [{...base, k1: v1, ...}]. *)
Ltac spread_lookup :=
  rewrite ?returned_prop_alloc;
  cbn [JS.spread foldl fst snd];
  repeat first
    [ rewrite lookup_insert_eq
    | rewrite lookup_insert_ne by (intro; discriminate) ].

(** On integer scores from 0 to 100, which covers every score the tables
    hold, the binary64 product of the source rounds to the same integer
    as the exact product, for each multiplier of either adjuster. *)
Lemma binary64_roundings_check :
  all_in_range 0 101 (fun s =>
    forallb (round_equal s) reba_multiplier_literals
    && forallb (ceil_equal s) rula_multiplier_literals) = true.
Proof. vm_compute. reflexivity. Qed.

Lemma Math_round_binary64 (s : Z) (m : Q) (mf : float) :
  (0 <= s <= 100)%Z -> (m, mf) ∈ reba_multiplier_literals ->
  JS.Math_round (float_of_Z s * mf)
  = float_of_Z (JS.Math_round_Q (inject_Z s * m)).
Proof.
  intros Hs Hm. pose proof binary64_roundings_check as H.
  apply (all_in_range_spec _ _ _ s) in H; [|lia].
  apply andb_prop in H as [H _].
  rewrite forallb_forall in H.
  apply list_elem_of_In, H in Hm.
  by apply FloatAxioms.Leibniz.eqb_spec in Hm.
Qed.

Lemma Math_ceil_binary64 (s : Z) (m : Q) (mf : float) :
  (0 <= s <= 100)%Z -> (m, mf) ∈ rula_multiplier_literals ->
  JS.Math_ceil (float_of_Z s * mf)
  = float_of_Z (JS.Math_ceil_Q (inject_Z s * m)).
Proof.
  intros Hs Hm. pose proof binary64_roundings_check as H.
  apply (all_in_range_spec _ _ _ s) in H; [|lia].
  apply andb_prop in H as [_ H].
  rewrite forallb_forall in H.
  apply list_elem_of_In, H in Hm.
  by apply FloatAxioms.Leibniz.eqb_spec in Hm.
Qed.

(** The multiplier of a band is one of the literals of the source. *)
Lemma reba_band_literal w m :
  reba_band w m -> exists mf : float, (m, mf) ∈ reba_multiplier_literals.
Proof.
  intros (A1 & A2 & A3 & A4 & A5). unfold reba_multiplier_literals.
  destruct (Qle_bool_cases w 5) as [[_ H5]|[_ H5]];
    [rewrite (A1 H5); eexists; apply list_elem_of_here|].
  destruct (Qle_bool_cases w 10) as [[_ H10]|[_ H10]];
    [rewrite (A2 H5 H10); eexists; do 1 apply list_elem_of_further;
     apply list_elem_of_here|].
  destruct (Qle_bool_cases w 20) as [[_ H20]|[_ H20]];
    [rewrite (A3 H10 H20); eexists; do 2 apply list_elem_of_further;
     apply list_elem_of_here|].
  destruct (Qle_bool_cases w 40) as [[_ H40]|[_ H40]];
    [rewrite (A4 H20 H40); eexists; do 3 apply list_elem_of_further;
     apply list_elem_of_here|].
  rewrite (A5 H40). eexists. do 4 apply list_elem_of_further.
  apply list_elem_of_here.
Qed.

Lemma rula_band_literal w m :
  rula_band w m -> exists mf : float, (m, mf) ∈ rula_multiplier_literals.
Proof.
  intros (A1 & A2 & A3 & A4). unfold rula_multiplier_literals.
  destruct (Qle_bool_cases w 5) as [[_ H5]|[_ H5]];
    [rewrite (A4 H5); eexists; apply list_elem_of_here|].
  destruct (Qle_bool_cases w 10) as [[_ H10]|[_ H10]];
    [rewrite (A3 H5 H10); eexists; do 1 apply list_elem_of_further;
     apply list_elem_of_here|].
  destruct (Qle_bool_cases w 23) as [[_ H23]|[_ H23]];
    [rewrite (A2 H10 H23); eexists; do 2 apply list_elem_of_further;
     apply list_elem_of_here|].
  rewrite (A1 H23). eexists. do 3 apply list_elem_of_further.
  apply list_elem_of_here.
Qed.

(** The two label functions of the REBA adjuster, by breakpoint. *)
Lemma reba_labels_code (F : Z) :
  reba_adjusted_labels F (WeightDetection.getRebaRiskLevel F)
    (WeightDetection.getRebaActionLevel F).
Proof.
  unfold reba_adjusted_labels, WeightDetection.getRebaRiskLevel,
    WeightDetection.getRebaActionLevel.
  destruct (Z.eqb_spec F 1), (Z.leb_spec F 3), (Z.leb_spec F 7),
    (Z.leb_spec F 10);
    repeat split; intros; try reflexivity; lia.
Qed.

(* ===================================================================== *)
(** * The weight-adjusted REBA score                                      *)
(* ===================================================================== *)

(** C2.  [calculateWeightAdjustedReba] picks the multiplier of the band of
    the effective weight (1.0 up to 5, 1.1 up to 10, 1.3 up to 20, 1.5 up to
    40, 1.8 above).  For a base whose scoreA and scoreB are integers from 0
    to 100, the adjusted scoreA and scoreB are the base ones times the
    multiplier, rounded to the nearest integer, which is the integer
    [Math.round] returns on the binary64 product, and cut off at 12; the
    final score is the Table C entry at the adjusted scores, cut off at 15;
    risk and action level are those of that final score: Negligible Risk
    and None necessary at 1, Low Risk and May be necessary up to 3, Medium
    Risk and Necessary up to 7, High Risk and Necessary soon up to 10,
    Very High Risk and Necessary now above.  With a manual weight of 25 on
    scoreA = 4 and scoreB = 3 the multiplier is 1.5, the adjusted scores
    are 6 and 5, and the final score is Table C at [5][4]. *)
Theorem reba_adjustment_rescales_and_looks_up_table_C :
  (forall heap ref base weightEstimation manualWeight (sA sB : Z),
      heap !! ref = Some base ->
      JS.num_prop base "scoreA" = Some (inject_Z sA) ->
      JS.num_prop base "scoreB" = Some (inject_Z sB) ->
      (0 <= sA <= 100)%Z ->
      (0 <= sB <= 100)%Z ->
      exists m mf rA rB T risk action,
        let res :=
          WeightDetection.calculateWeightAdjustedReba heap (Some ref)
            weightEstimation manualWeight in
        let A := Z.min 12 rA in
        let B := Z.min 12 rB in
        let F := Z.min 15 T in
        reba_band
          (JS.or_else manualWeight
             (WeightDetection.estimatedWeight weightEstimation)) m /\
        (m, mf) ∈ reba_multiplier_literals /\
        rounds_to (inject_Z sA * m) rA /\
        rounds_to (inject_Z sB * m) rB /\
        JS.Math_round (float_of_Z sA * mf) = float_of_Z rA /\
        JS.Math_round (float_of_Z sB * mf) = float_of_Z rB /\
        entry RebaCalculator.REBA_TABLE_C
          (clamp 0 11 (A - 1)) (clamp 0 11 (B - 1)) = Some T /\
        reba_adjusted_labels F risk action /\
        returned_prop res "weightMultiplier" = Some (JS.VNum m) /\
        returned_prop res "scoreA" = Some (JS.VNum (inject_Z A)) /\
        returned_prop res "scoreB" = Some (JS.VNum (inject_Z B)) /\
        returned_prop res "finalScore" = Some (JS.VNum (inject_Z F)) /\
        returned_prop res "riskLevel" = Some (JS.VStr risk) /\
        returned_prop res "actionLevel" = Some (JS.VStr action)) /\
  (forall heap ref base weightEstimation,
      heap !! ref = Some base ->
      JS.num_prop base "scoreA" = Some 4%Q ->
      JS.num_prop base "scoreB" = Some 3%Q ->
      let res :=
        WeightDetection.calculateWeightAdjustedReba heap (Some ref)
          weightEstimation (Some 25%Q) in
      returned_prop res "effectiveWeight" = Some (JS.VNum 25) /\
      returned_prop res "weightMultiplier" = Some (JS.VNum 1.5) /\
      returned_prop res "scoreA" = Some (JS.VNum 6) /\
      returned_prop res "scoreB" = Some (JS.VNum 5) /\
      JS.Math_round (4 * 1.5) = 6%float /\
      JS.Math_round (3 * 1.5) = 5%float /\
      exists T,
        entry RebaCalculator.REBA_TABLE_C 5 4 = Some T /\
        returned_prop res "finalScore" = Some (JS.VNum (inject_Z T))).
Proof.
  split.
  - intros heap ref base we manual sA sB Hbase Ha Hb HsA HsB.
    destruct (calculateWeightAdjustedReba_result heap ref base we manual
                Hbase _ _ Ha Hb) as (m & Hband & Hres).
    destruct (reba_band_literal _ _ Hband) as (mf & Hmf).
    exists m, mf, (JS.Math_round_Q (inject_Z sA * m)),
      (JS.Math_round_Q (inject_Z sB * m)).
    do 3 eexists. cbv zeta in *. rewrite Hres.
    split; [exact Hband|].
    split; [exact Hmf|].
    split; [apply Math_round_Q_rounds|].
    split; [apply Math_round_Q_rounds|].
    split; [by apply Math_round_binary64|].
    split; [by apply Math_round_binary64|].
    split; [apply getFinalScore_entry|].
    split; [apply reba_labels_code|].
    repeat split; spread_lookup; reflexivity.
  - intros heap ref base we Hbase Ha Hb.
    destruct (calculateWeightAdjustedReba_result heap ref base we (Some 25%Q)
                Hbase _ _ Ha Hb) as (m & Hband & Hres).
    assert (m = 1.5%Q) as ->.
    { change (JS.or_else (Some 25%Q) _) with 25%Q in Hband.
      destruct Hband as (_ & _ & _ & H4 & _). apply H4; Lqa.lra. }
    cbv zeta in *. rewrite Hres.
    repeat split; try (spread_lookup; reflexivity).
    eexists. split; [reflexivity|]. spread_lookup. reflexivity.
Qed.

Lemma reba_adjustment_rescales_and_looks_up_table_C_witness :
  sample_heap !! 1%positive = Some sample_reba_score /\
  JS.num_prop sample_reba_score "scoreA" = Some 4%Q /\
  JS.num_prop sample_reba_score "scoreB" = Some 3%Q /\
  let res :=
    WeightDetection.calculateWeightAdjustedReba sample_heap (Some 1%positive)
      (estimate_of 0) (Some 25%Q) in
  returned_prop res "effectiveWeight" = Some (JS.VNum 25) /\
  returned_prop res "weightMultiplier" = Some (JS.VNum 1.5) /\
  returned_prop res "scoreA" = Some (JS.VNum 6) /\
  returned_prop res "scoreB" = Some (JS.VNum 5) /\
  JS.Math_round (4 * 1.5) = 6%float /\
  JS.Math_round (3 * 1.5) = 5%float /\
  exists T,
    entry RebaCalculator.REBA_TABLE_C 5 4 = Some T /\
    returned_prop res "finalScore" = Some (JS.VNum (inject_Z T)).
Proof.
  split; [reflexivity|]. split; [reflexivity|]. split; [reflexivity|].
  apply (proj2 reba_adjustment_rescales_and_looks_up_table_C
           sample_heap 1%positive sample_reba_score (estimate_of 0));
    reflexivity.
Defined.

(* ===================================================================== *)
(** * The weight-adjusted RULA score                                      *)
(* ===================================================================== *)

(** C3, as the code has it.  [calculateWeightAdjustedRula] picks
    multiplier 3 above 23, 2 above 10, 1.5 above 5 and 1 otherwise; for a
    base whose final score is an integer from 0 to 100, the adjusted final
    score is the base one times the multiplier, rounded up, which is the
    integer [Math.ceil] returns on the binary64 product, and cut off at 7;
    the adjusted risk level is derived from it at the breakpoints 2, 4 and
    6, with the labels Low Risk, Medium Risk, High Risk and Critical
    Risk. *)
Theorem rula_adjustment_scales_final_score :
  forall heap ref base weightEstimation manualWeight (s : Z),
    heap !! ref = Some base ->
    JS.num_prop base "finalScore" = Some (inject_Z s) ->
    (0 <= s <= 100)%Z ->
    exists w m mf c label,
      let res :=
        WeightDetection.calculateWeightAdjustedRula heap (Some ref)
          weightEstimation manualWeight in
      let F := Z.min 7 c in
      returned_prop res "effectiveWeight" = Some (JS.VNum w) /\
      rula_band w m /\
      (m, mf) ∈ rula_multiplier_literals /\
      ceiling_of (inject_Z s * m) c /\
      JS.Math_ceil (float_of_Z s * mf) = float_of_Z c /\
      rula_adjusted_label F label /\
      returned_prop res "weightMultiplier" = Some (JS.VNum m) /\
      returned_prop res "finalScore" = Some (JS.VNum (inject_Z F)) /\
      returned_prop res "riskLevel" = Some (JS.VStr label).
Proof.
  intros heap ref base we manual s Hbase Hf Hs.
  destruct (calculateWeightAdjustedRula_result heap ref base we manual
              Hbase _ Hf) as (m & Hband & Hres).
  destruct (rula_band_literal _ _ Hband) as (mf & Hmf).
  cbv zeta in *. eexists. exists m, mf, (JS.Math_ceil_Q (inject_Z s * m)).
  eexists. rewrite Hres.
  split; [spread_lookup; reflexivity|].
  split; [exact Hband|].
  split; [exact Hmf|].
  split; [apply Math_ceil_Q_ceiling|].
  split; [by apply Math_ceil_binary64|].
  split; [|repeat split; spread_lookup; reflexivity].
  unfold rula_adjusted_label.
  repeat split; intros; repeat case_match; try reflexivity; lia.
Qed.

Lemma rula_adjustment_scales_final_score_witness :
  sample_heap !! 2%positive = Some sample_rula_score /\
  JS.num_prop sample_rula_score "finalScore" = Some 3%Q /\
  exists w m mf c label,
    let res :=
      WeightDetection.calculateWeightAdjustedRula sample_heap (Some 2%positive)
        (estimate_of 0) (Some 6%Q) in
    let F := Z.min 7 c in
    returned_prop res "effectiveWeight" = Some (JS.VNum w) /\
    rula_band w m /\
    (m, mf) ∈ rula_multiplier_literals /\
    ceiling_of (3 * m) c /\
    JS.Math_ceil (3 * mf) = float_of_Z c /\
    rula_adjusted_label F label /\
    returned_prop res "weightMultiplier" = Some (JS.VNum m) /\
    returned_prop res "finalScore" = Some (JS.VNum (inject_Z F)) /\
    returned_prop res "riskLevel" = Some (JS.VStr label).
Proof.
  split; [reflexivity|]. split; [reflexivity|].
  apply (rula_adjustment_scales_final_score sample_heap 2%positive
           sample_rula_score (estimate_of 0) (Some 6%Q) 3%Z);
    [reflexivity|reflexivity|lia].
Defined.

(** C3 as stated fails on the labels: with no load the sample RULA score
    keeps its final score 3, for which the RULA breakpoints of
    [getRiskLevel] say Investigate, and the adjuster says Medium Risk. *)
Lemma rula_adjustment_label_is_not_the_RULA_label :
  let res :=
    WeightDetection.calculateWeightAdjustedRula sample_heap (Some 2%positive)
      (estimate_of 0) None in
  returned_prop res "finalScore" = Some (JS.VNum 3) /\
  returned_prop res "riskLevel" = Some (JS.VStr "Medium Risk") /\
  WeightDetection.getRiskLevel 3 = "Investigate" /\
  returned_prop res "riskLevel"
  <> Some (JS.VStr (WeightDetection.getRiskLevel 3)).
Proof.
  cbv zeta. split; [reflexivity|]. split; [reflexivity|].
  split; [reflexivity|]. discriminate.
Qed.

(* ===================================================================== *)
(** * The effective weight                                                *)
(* ===================================================================== *)

Lemma or_else_override (w d : Q) : ~ (w == 0)%Q -> JS.or_else (Some w) d = w.
Proof.
  intros Hw. unfold JS.or_else.
  destruct (Qeq_bool w 0) eqn:E; [|reflexivity].
  apply Qeq_bool_iff in E. contradiction.
Qed.

Lemma or_else_zero (w d : Q) : (w == 0)%Q -> JS.or_else (Some w) d = d.
Proof.
  intros Hw. unfold JS.or_else. apply Qeq_bool_iff in Hw. by rewrite Hw.
Qed.

(** C4, as the code has it.  For both adjusters a manual weight that is
    supplied and is not 0 is the effective weight.  When none is supplied,
    or the one supplied is 0, the effective weight is the estimated weight
    (for RULA with 0 in its place when that is 0 too).  The multiplier is
    the one of the band of the effective weight. *)
Theorem effective_weight_is_nonzero_override_or_estimate :
  forall heap ref base weightEstimation manualWeight a b f,
    heap !! ref = Some base ->
    JS.num_prop base "scoreA" = Some a ->
    JS.num_prop base "scoreB" = Some b ->
    JS.num_prop base "finalScore" = Some f ->
    let estimated := WeightDetection.estimatedWeight weightEstimation in
    let reba :=
      WeightDetection.calculateWeightAdjustedReba heap (Some ref)
        weightEstimation manualWeight in
    let rula :=
      WeightDetection.calculateWeightAdjustedRula heap (Some ref)
        weightEstimation manualWeight in
    exists wReba wRula mReba mRula,
      returned_prop reba "effectiveWeight" = Some (JS.VNum wReba) /\
      returned_prop rula "effectiveWeight" = Some (JS.VNum wRula) /\
      returned_prop reba "weightMultiplier" = Some (JS.VNum mReba) /\
      returned_prop rula "weightMultiplier" = Some (JS.VNum mRula) /\
      reba_band wReba mReba /\
      rula_band wRula mRula /\
      (forall w, manualWeight = Some w -> ~ (w == 0)%Q ->
                 wReba = w /\ wRula = w) /\
      ((manualWeight = None \/
        exists w, manualWeight = Some w /\ (w == 0)%Q) ->
       wReba = estimated /\
       (~ (estimated == 0)%Q -> wRula = estimated) /\
       ((estimated == 0)%Q -> wRula = 0%Q)).
Proof.
  intros heap ref base we manual a b f Hbase Ha Hb Hf.
  destruct (calculateWeightAdjustedReba_result heap ref base we manual
              Hbase a b Ha Hb) as (m1 & Hband1 & Hres1).
  destruct (calculateWeightAdjustedRula_result heap ref base we manual
              Hbase f Hf) as (m2 & Hband2 & Hres2).
  cbv zeta in *. do 2 eexists. exists m1, m2.
  rewrite Hres1, Hres2.
  split; [spread_lookup; reflexivity|].
  split; [spread_lookup; reflexivity|].
  split; [spread_lookup; reflexivity|].
  split; [spread_lookup; reflexivity|].
  split; [exact Hband1|]. split; [exact Hband2|]. split.
  - intros w -> Hw. rewrite !or_else_override by done. done.
  - intros Hnone.
    assert (JS.or_else manual (WeightDetection.estimatedWeight we)
            = WeightDetection.estimatedWeight we) as ->.
    { destruct Hnone as [->|(w & -> & Hw)]; [done|by apply or_else_zero]. }
    split; [done|]. split; intros He.
    + by apply or_else_override.
    + by apply or_else_zero.
Qed.

Lemma effective_weight_is_nonzero_override_or_estimate_witness :
  sample_heap !! 1%positive = Some sample_reba_score /\
  exists wReba wRula mReba mRula,
    let reba :=
      WeightDetection.calculateWeightAdjustedReba sample_heap (Some 1%positive)
        (estimate_of 12) (Some 25%Q) in
    let rula :=
      WeightDetection.calculateWeightAdjustedRula sample_heap (Some 1%positive)
        (estimate_of 12) (Some 25%Q) in
    returned_prop reba "effectiveWeight" = Some (JS.VNum wReba) /\
    returned_prop rula "effectiveWeight" = Some (JS.VNum wRula) /\
    returned_prop reba "weightMultiplier" = Some (JS.VNum mReba) /\
    returned_prop rula "weightMultiplier" = Some (JS.VNum mRula) /\
    reba_band wReba mReba /\
    rula_band wRula mRula /\
    (forall w, Some 25%Q = Some w -> ~ (w == 0)%Q -> wReba = w /\ wRula = w) /\
    ((Some 25%Q = None \/ exists w, Some 25%Q = Some w /\ (w == 0)%Q) ->
     wReba = 12%Q /\
     (~ (12 == 0)%Q -> wRula = 12%Q) /\
     ((12 == 0)%Q -> wRula = 0%Q)).
Proof.
  split; [reflexivity|].
  apply (effective_weight_is_nonzero_override_or_estimate sample_heap
           1%positive sample_reba_score (estimate_of 12) (Some 25%Q) 4 3 4);
    reflexivity.
Defined.

(** C4 as stated fails at the override 0: with an estimate of 12 kg and a
    manual weight of 0, both adjusters use 12 as the effective weight and
    pick its multiplier, not the multiplier of 0. *)
Lemma zero_override_is_not_the_effective_weight :
  let reba :=
    WeightDetection.calculateWeightAdjustedReba sample_heap (Some 1%positive)
      (estimate_of 12) (Some 0%Q) in
  let rula :=
    WeightDetection.calculateWeightAdjustedRula sample_heap (Some 2%positive)
      (estimate_of 12) (Some 0%Q) in
  returned_prop reba "effectiveWeight" = Some (JS.VNum 12) /\
  returned_prop reba "weightMultiplier" = Some (JS.VNum 1.3) /\
  returned_prop rula "effectiveWeight" = Some (JS.VNum 12) /\
  returned_prop rula "weightMultiplier" = Some (JS.VNum 2) /\
  returned_prop reba "effectiveWeight" <> Some (JS.VNum 0) /\
  returned_prop rula "effectiveWeight" <> Some (JS.VNum 0).
Proof.
  cbv zeta. repeat split; try reflexivity; discriminate.
Qed.

(** The adjusters are embedded over exact rationals.  On integer scores
    up to 100, which covers every score the tables hold, rounding the
    binary64 product gives the same integer as rounding the exact one, for
    each multiplier of either adjuster. *)
Lemma exact_products_round_as_binary64 :
  all_in_range 0 101 (fun s =>
    forallb (round_agrees s)
      [ (1.0%Q, 1.0%float); (1.1%Q, 1.1%float); (1.3%Q, 1.3%float);
        (1.5%Q, 1.5%float); (1.8%Q, 1.8%float) ]
    && forallb (ceil_agrees s)
         [ (1%Q, 1%float); (1.5%Q, 1.5%float); (2%Q, 2%float);
           (3%Q, 3%float) ]) = true.
Proof. vm_compute. reflexivity. Qed.

(* ===================================================================== *)
(** * Monotonicity of the weight adjustment                               *)
(* ===================================================================== *)

(** Table C never decreases along a row or down a column. *)
Lemma table_C_monotone_check :
  all_in_range 0 12 (fun i => all_in_range 0 12 (fun i' =>
    all_in_range 0 12 (fun j => all_in_range 0 12 (fun j' =>
      implb ((i <=? i')%Z && (j <=? j')%Z)
        match entry RebaCalculator.REBA_TABLE_C i j,
              entry RebaCalculator.REBA_TABLE_C i' j' with
        | Some v, Some v' => (v <=? v')%Z
        | _, _ => false
        end)))) = true.
Proof. vm_compute. reflexivity. Qed.

Lemma getFinalScore_monotone (A A' B B' : Z) :
  (A <= A')%Z -> (B <= B')%Z ->
  (RebaCalculator.getFinalScore A B 0 0
   <= RebaCalculator.getFinalScore A' B' 0 0)%Z.
Proof.
  intros HA HB.
  pose proof (getFinalScore_entry A B) as E.
  pose proof (getFinalScore_entry A' B') as E'.
  pose proof (clamp_bounds 0 11 (A - 1) ltac:(lia)).
  pose proof (clamp_bounds 0 11 (A' - 1) ltac:(lia)).
  pose proof (clamp_bounds 0 11 (B - 1) ltac:(lia)).
  pose proof (clamp_bounds 0 11 (B' - 1) ltac:(lia)).
  pose proof table_C_monotone_check as Hc.
  apply (all_in_range_spec _ _ _ (clamp 0 11 (A - 1))) in Hc; [|lia].
  apply (all_in_range_spec _ _ _ (clamp 0 11 (A' - 1))) in Hc; [|lia].
  apply (all_in_range_spec _ _ _ (clamp 0 11 (B - 1))) in Hc; [|lia].
  apply (all_in_range_spec _ _ _ (clamp 0 11 (B' - 1))) in Hc; [|lia].
  cbv beta in Hc. rewrite E, E' in Hc.
  assert (clamp 0 11 (A - 1) <= clamp 0 11 (A' - 1))%Z by (unfold clamp; lia).
  assert (clamp 0 11 (B - 1) <= clamp 0 11 (B' - 1))%Z by (unfold clamp; lia).
  destruct (Z.leb_spec (clamp 0 11 (A - 1)) (clamp 0 11 (A' - 1))); [|lia].
  destruct (Z.leb_spec (clamp 0 11 (B - 1)) (clamp 0 11 (B' - 1))); [|lia].
  cbn [andb implb] in Hc. lia.
Qed.

Lemma Math_round_Q_monotone (x y : Q) :
  (x <= y)%Q -> (JS.Math_round_Q x <= JS.Math_round_Q y)%Z.
Proof.
  intros H. unfold JS.Math_round_Q. apply Qfloor_resp_le. Lqa.lra.
Qed.

Lemma Math_ceil_Q_monotone (x y : Q) :
  (x <= y)%Q -> (JS.Math_ceil_Q x <= JS.Math_ceil_Q y)%Z.
Proof. apply Qceiling_resp_le. Qed.

Lemma Qmult_monotone_r (s m1 m2 : Q) :
  (0 <= s)%Q -> (m1 <= m2)%Q -> (s * m1 <= s * m2)%Q.
Proof.
  intros Hs Hm. rewrite !(Qmult_comm s). by apply Qmult_le_compat_r.
Qed.

(** C7.  For a fixed base score (its scores not negative), a call of
    [calculateWeightAdjustedRula] with the larger effective weight never
    returns the smaller final score, and the same holds for
    [calculateWeightAdjustedReba]; in particular across the band
    boundaries at 5, 10 and 23 kg, and at 5, 10, 20 and 40 kg. *)
Theorem weight_adjustment_is_monotone :
  (forall heap ref base est1 manual1 est2 manual2 f w1 w2,
      heap !! ref = Some base ->
      JS.num_prop base "finalScore" = Some f ->
      (0 <= f)%Q ->
      let res1 :=
        WeightDetection.calculateWeightAdjustedRula heap (Some ref)
          est1 manual1 in
      let res2 :=
        WeightDetection.calculateWeightAdjustedRula heap (Some ref)
          est2 manual2 in
      returned_prop res1 "effectiveWeight" = Some (JS.VNum w1) ->
      returned_prop res2 "effectiveWeight" = Some (JS.VNum w2) ->
      (w1 <= w2)%Q ->
      exists F1 F2,
        returned_prop res1 "finalScore" = Some (JS.VNum (inject_Z F1)) /\
        returned_prop res2 "finalScore" = Some (JS.VNum (inject_Z F2)) /\
        (F1 <= F2)%Z) /\
  (forall heap ref base est1 manual1 est2 manual2 a b w1 w2,
      heap !! ref = Some base ->
      JS.num_prop base "scoreA" = Some a ->
      JS.num_prop base "scoreB" = Some b ->
      (0 <= a)%Q -> (0 <= b)%Q ->
      let res1 :=
        WeightDetection.calculateWeightAdjustedReba heap (Some ref)
          est1 manual1 in
      let res2 :=
        WeightDetection.calculateWeightAdjustedReba heap (Some ref)
          est2 manual2 in
      returned_prop res1 "effectiveWeight" = Some (JS.VNum w1) ->
      returned_prop res2 "effectiveWeight" = Some (JS.VNum w2) ->
      (w1 <= w2)%Q ->
      exists F1 F2,
        returned_prop res1 "finalScore" = Some (JS.VNum (inject_Z F1)) /\
        returned_prop res2 "finalScore" = Some (JS.VNum (inject_Z F2)) /\
        (F1 <= F2)%Z).
Proof.
  split.
  - intros heap ref base est1 manual1 est2 manual2 f w1 w2 Hbase Hf Hf0.
    destruct (calculateWeightAdjustedRula_result heap ref base est1 manual1
                Hbase f Hf) as (m1 & Hband1 & Hres1).
    destruct (calculateWeightAdjustedRula_result heap ref base est2 manual2
                Hbase f Hf) as (m2 & Hband2 & Hres2).
    cbv zeta in *. rewrite Hres1, Hres2.
    intros Hw1 Hw2 Hle.
    revert Hw1 Hw2. spread_lookup. intros [= <-] [= <-].
    do 2 eexists. split; [reflexivity|]. split; [reflexivity|].
    apply Z.min_le_compat_l, Math_ceil_Q_monotone, Qmult_monotone_r; [done|].
    eapply rula_band_mono; eauto.
  - intros heap ref base est1 manual1 est2 manual2 a b w1 w2 Hbase Ha Hb
      Ha0 Hb0.
    destruct (calculateWeightAdjustedReba_result heap ref base est1 manual1
                Hbase a b Ha Hb) as (m1 & Hband1 & Hres1).
    destruct (calculateWeightAdjustedReba_result heap ref base est2 manual2
                Hbase a b Ha Hb) as (m2 & Hband2 & Hres2).
    cbv zeta in *. rewrite Hres1, Hres2.
    intros Hw1 Hw2 Hle.
    revert Hw1 Hw2. spread_lookup. intros [= <-] [= <-].
    assert (m1 <= m2)%Q by (eapply reba_band_mono; eauto).
    do 2 eexists. split; [reflexivity|]. split; [reflexivity|].
    apply Z.min_le_compat_l, getFinalScore_monotone;
      apply Z.min_le_compat_l, Math_round_Q_monotone, Qmult_monotone_r; done.
Qed.

Lemma weight_adjustment_is_monotone_witness :
  sample_heap !! 2%positive = Some sample_rula_score /\
  JS.num_prop sample_rula_score "finalScore" = Some 3%Q /\
  (0 <= 3)%Q /\ (4 <= 12)%Q /\
  let res1 :=
    WeightDetection.calculateWeightAdjustedRula sample_heap (Some 2%positive)
      (estimate_of 0) (Some 4%Q) in
  let res2 :=
    WeightDetection.calculateWeightAdjustedRula sample_heap (Some 2%positive)
      (estimate_of 0) (Some 12%Q) in
  exists F1 F2,
    returned_prop res1 "finalScore" = Some (JS.VNum (inject_Z F1)) /\
    returned_prop res2 "finalScore" = Some (JS.VNum (inject_Z F2)) /\
    (F1 <= F2)%Z.
Proof.
  split; [reflexivity|]. split; [reflexivity|].
  split; [discriminate|]. split; [discriminate|].
  apply (proj1 weight_adjustment_is_monotone sample_heap 2%positive
           sample_rula_score (estimate_of 0) (Some 4%Q) (estimate_of 0)
           (Some 12%Q) 3%Q 4%Q 12%Q); try reflexivity; discriminate.
Defined.

(* ===================================================================== *)
(** * The adjusters and the heap                                          *)
(* ===================================================================== *)

Lemma fresh_not_on_heap (heap : gmap positive (gmap string JS.value)) :
  heap !! fresh (dom heap) = None.
Proof. apply not_elem_of_dom, is_fresh. Qed.

(** A call leaves every object of the heap as it was, the base score
    included, and returns a reference to an object that was not there. *)
Lemma adjusters_do_not_mutate heap ref weightEstimation manualWeight heap' v :
  WeightDetection.calculateWeightAdjustedReba heap (Some ref)
    weightEstimation manualWeight = Some (heap', v)
  \/ WeightDetection.calculateWeightAdjustedRula heap (Some ref)
       weightEstimation manualWeight = Some (heap', v) ->
  (forall l o, heap !! l = Some o -> heap' !! l = Some o) /\
  exists ref', v = Some ref' /\ heap !! ref' = None /\ is_Some (heap' !! ref').
Proof.
  unfold WeightDetection.calculateWeightAdjustedReba,
    WeightDetection.calculateWeightAdjustedRula.
  intros [H|H];
    destruct (heap !! ref) as [base|]; try discriminate;
    cbn [mbind option_bind] in H;
    repeat match type of H with
           | (?e ≫= _) = _ =>
               destruct e; [|discriminate]; cbn [mbind option_bind] in H
           end;
    injection H as <- <-;
    (split;
     [ intros l o Hl; rewrite lookup_insert_ne; [done|];
       intros <-; rewrite fresh_not_on_heap in Hl; discriminate
     | eexists; split; [reflexivity|]; split; [apply fresh_not_on_heap|];
       rewrite lookup_insert_eq; eauto ]).
Qed.

(** The returned object has the properties of the base that the object
    literal does not list, unchanged. *)
Lemma reba_adjuster_spreads_base heap ref base weightEstimation manualWeight
    k heap' ref' result :
  heap !! ref = Some base ->
  WeightDetection.calculateWeightAdjustedReba heap (Some ref)
    weightEstimation manualWeight = Some (heap', Some ref') ->
  heap' !! ref' = Some result ->
  k ∉ ["scoreA"; "scoreB"; "finalScore"; "riskLevel"; "actionLevel";
       "effectiveWeight"; "weightMultiplier"; "isWeightAdjusted"] ->
  result !! k = base !! k.
Proof.
  intros Hbase H Hres Hk.
  unfold WeightDetection.calculateWeightAdjustedReba in H.
  rewrite Hbase in H. cbn [mbind option_bind] in H.
  repeat match type of H with
         | (?e ≫= _) = _ =>
             destruct e; [|discriminate]; cbn [mbind option_bind] in H
         end.
  injection H as <- <-. rewrite lookup_insert_eq in Hres.
  injection Hres as <-. cbn [JS.spread foldl fst snd].
  rewrite !lookup_insert_ne; [done|..]; intros <-; apply Hk;
    repeat constructor.
Qed.

Lemma rula_adjuster_spreads_base heap ref base weightEstimation manualWeight
    k heap' ref' result :
  heap !! ref = Some base ->
  WeightDetection.calculateWeightAdjustedRula heap (Some ref)
    weightEstimation manualWeight = Some (heap', Some ref') ->
  heap' !! ref' = Some result ->
  k ∉ ["finalScore"; "effectiveWeight"; "weightMultiplier"; "riskLevel"] ->
  result !! k = base !! k.
Proof.
  intros Hbase H Hres Hk.
  unfold WeightDetection.calculateWeightAdjustedRula in H.
  rewrite Hbase in H. cbn [mbind option_bind] in H.
  repeat match type of H with
         | (?e ≫= _) = _ =>
             destruct e; [|discriminate]; cbn [mbind option_bind] in H
         end.
  injection H as <- <-. rewrite lookup_insert_eq in Hres.
  injection Hres as <-. cbn [JS.spread foldl fst snd].
  rewrite !lookup_insert_ne; [done|..]; intros <-; apply Hk;
    repeat constructor.
Qed.

(** C9, on the sample heap with an estimate of 12 kg.  Both adjusters leave
    the base score as it was and return a new object that has the
    properties of the base, [effectiveWeight] and [weightMultiplier].  The
    REBA adjuster sets [isWeightAdjusted] to [true]; the object the RULA
    adjuster returns has no [isWeightAdjusted] property. *)
Theorem rula_adjuster_returns_no_isWeightAdjusted :
  let reba :=
    WeightDetection.calculateWeightAdjustedReba sample_heap (Some 1%positive)
      (estimate_of 12) None in
  let rula :=
    WeightDetection.calculateWeightAdjustedRula sample_heap (Some 2%positive)
      (estimate_of 12) None in
  (exists heap' ref',
      reba = Some (heap', Some ref') /\
      heap' !! 1%positive = Some sample_reba_score /\
      sample_heap !! ref' = None /\
      dom sample_reba_score ⊆ dom (default ∅ (heap' !! ref'))) /\
  (exists heap' ref',
      rula = Some (heap', Some ref') /\
      heap' !! 2%positive = Some sample_rula_score /\
      sample_heap !! ref' = None /\
      dom sample_rula_score ⊆ dom (default ∅ (heap' !! ref'))) /\
  returned_prop reba "effectiveWeight" = Some (JS.VNum 12) /\
  returned_prop reba "weightMultiplier" = Some (JS.VNum 1.3) /\
  returned_prop reba "isWeightAdjusted" = Some (JS.VBool true) /\
  returned_prop rula "effectiveWeight" = Some (JS.VNum 12) /\
  returned_prop rula "weightMultiplier" = Some (JS.VNum 2) /\
  returned_prop rula "isWeightAdjusted" = None.
Proof.
  cbv zeta. split; [|split].
  - do 2 eexists. split; [reflexivity|]. split; [reflexivity|].
    split; [reflexivity|].
    apply (bool_decide_unpack _). vm_compute. exact I.
  - do 2 eexists. split; [reflexivity|]. split; [reflexivity|].
    split; [reflexivity|].
    apply (bool_decide_unpack _). vm_compute. exact I.
  - repeat split; reflexivity.
Qed.

(* ===================================================================== *)
(** * The elbow angle                                                     *)
(* ===================================================================== *)


(** Arithmetic on a zero or a [NaN]: the difference of a number and
    itself is one, products, sums and square roots of such numbers are,
    and the quotient of two of them is [NaN]. *)
Section ZeroOrNaN.







End ZeroOrNaN.




Lemma degenerate_arm_angle_binary64 (Math_acos : float -> float) :
  Math_acos PrimFloat.nan = PrimFloat.nan ->
  WeightDetection.calculateElbowAngle Math_acos
    (mkKeypoint 0.5 0.25 1) (mkKeypoint 0.5 0.25 1) (mkKeypoint 0.75 1 1)
  = 90%float.
Proof.
  intros H. unfold WeightDetection.calculateElbowAngle. cbn [x y].
  change (Math_acos _) with (Math_acos PrimFloat.nan). rewrite H. reflexivity.
Qed.




(** The helper is the guarded arccosine of [segment_cosine]. *)
Lemma calculateElbowAngle_guarded (Math_acos : float -> float)
    (shoulder elbow wrist : Keypoint) :
  WeightDetection.calculateElbowAngle Math_acos shoulder elbow wrist
  = (if PrimFloat.is_nan
          (Math_acos (segment_cosine shoulder elbow wrist)
           * (180 / JS.Math_PI))%float
     then 90%float
     else (Math_acos (segment_cosine shoulder elbow wrist)
           * (180 / JS.Math_PI))%float).
Proof. reflexivity. Qed.

Lemma calculateElbowAngle_nan_cosine (Math_acos : float -> float)
    (shoulder elbow wrist : Keypoint) :
  Math_acos (segment_cosine shoulder elbow wrist) = PrimFloat.nan ->
  WeightDetection.calculateElbowAngle Math_acos shoulder elbow wrist
  = 90%float.
Proof.
  intros H. rewrite calculateElbowAngle_guarded, H. reflexivity.
Qed.






(* ===================================================================== *)
(** * When [calculateREBA] returns no score, and what it reads            *)
(* ===================================================================== *)

(** X1.  [calculateREBA] returns [null] exactly when the array has fewer than
    17 entries or one of the landmarks it reads is [undefined]: the nose,
    a shoulder, a hip, or the elbow or wrist of the side it selected.  A
    missing knee, and every keypoint of the other arm, is tolerated. *)
Theorem calculateREBA_null_iff :
  forall Math_atan2 keypoints,
    RebaCalculator.calculateREBA Math_atan2 keypoints = None <->
    (length keypoints < 17)%nat \/
    kp keypoints 0 = None \/
    kp keypoints 5 = None \/ kp keypoints 6 = None \/
    kp keypoints 11 = None \/ kp keypoints 12 = None \/
    kp keypoints (if useLeftSide keypoints then 7 else 8)%nat = None \/
    kp keypoints (if useLeftSide keypoints then 9 else 10)%nat = None.
Proof.
  intros f kps. unfold RebaCalculator.calculateREBA.
  destruct (Nat.ltb_spec (length kps) 17) as [Hlen|Hlen]; [tauto|].
  unfold RebaCalculator.calculateREBA_try, useLeftSide.
  destruct (kp kps 5) as [ls|]; [|cbn; tauto].
  destruct (kp kps 6) as [rs|]; [|cbn; tauto].
  cbn [mbind option_bind].
  destruct (kp kps 0) as [n|]; [|cbn; tauto].
  destruct (kp kps 11) as [lh|]; [|cbn; tauto].
  destruct (kp kps 12) as [rh|]; [|cbn; tauto].
  cbn [mbind option_bind].
  destruct (_ > _)%js;
    [ destruct (kp kps 7) as [e|]; [|cbn; tauto];
      destruct (kp kps 9) as [w|]; [|cbn; tauto]
    | destruct (kp kps 8) as [e|]; [|cbn; tauto];
      destruct (kp kps 10) as [w|]; [|cbn; tauto] ];
    cbn [mbind option_bind];
    (split; [discriminate|]);
    intros [?|[?|[?|[?|[?|[?|[?|?]]]]]]]; (lia || discriminate).
Qed.

(** X2.  [calculateREBA] depends on the landmarks it reads only: two arrays of
    at least 17 keypoints that agree on the nose, the shoulders, the hips
    and the elbow, wrist and knee of the selected side get the same
    result, whatever the face, the ankles and the other arm and knee
    are. *)
Theorem calculateREBA_reads_selected_landmarks :
  forall Math_atan2 keypoints keypoints',
    (17 <= length keypoints)%nat ->
    (17 <= length keypoints')%nat ->
    Forall (fun i => kp keypoints' i = kp keypoints i)
      (landmarks_read keypoints) ->
    RebaCalculator.calculateREBA Math_atan2 keypoints'
    = RebaCalculator.calculateREBA Math_atan2 keypoints.
Proof.
  intros f kps kps' Hlen Hlen' Hread.
  unfold landmarks_read in Hread. apply Forall_app in Hread as [Hcore Hside].
  repeat match type of Hcore with
         | Forall _ (_ :: _) => apply Forall_cons in Hcore as [? Hcore]
         end.
  unfold RebaCalculator.calculateREBA.
  destruct (Nat.ltb_spec (length kps) 17); [lia|].
  destruct (Nat.ltb_spec (length kps') 17); [lia|].
  cut (RebaCalculator.calculateREBA_try f kps'
       = RebaCalculator.calculateREBA_try f kps); [intros ->; reflexivity|].
  unfold RebaCalculator.calculateREBA_try. cbv zeta.
  repeat match goal with
         | E : kp kps' _ = _ |- _ => rewrite !E; clear E
         end.
  unfold useLeftSide in Hside.
  destruct (_ > _)%js;
    repeat match type of Hside with
           | Forall _ (_ :: _) => apply Forall_cons in Hside as [? Hside]
           end;
    repeat match goal with
           | E : kp kps' _ = _ |- _ => rewrite !E; clear E
           end;
    reflexivity.
Qed.

Lemma calculateREBA_reads_selected_landmarks_witness :
  RebaCalculator.calculateREBA Libm.Math_atan2 standing_pose_landmarks
  = RebaCalculator.calculateREBA Libm.Math_atan2 standing_pose.
Proof.
  apply calculateREBA_reads_selected_landmarks.
  - vm_compute. lia.
  - vm_compute. lia.
  - vm_compute. repeat constructor.
Defined.

(* ===================================================================== *)
(** * The scores [calculateREBA] can return                               *)
(* ===================================================================== *)

Section UnflaggedScorers.

Import RebaCalculator.
Local Open Scope Z_scope.

Lemma getNeckScore_unflagged a :
  getNeckScore a false = 1 \/ getNeckScore a false = 2.
Proof.
  unfold getNeckScore.
  destruct (a >= 0)%js, (a < 20)%js, (a >= 20)%js, (a < 0)%js; simpl; lia.
Qed.

Lemma getTrunkScore_unflagged a : 1 <= getTrunkScore a false <= 4.
Proof.
  unfold getTrunkScore.
  destruct (a >= 0)%js, (a < 5)%js, (a >= 5)%js, (a < 20)%js,
    (a >= 20)%js, (a < 60)%js, (a >= 60)%js; simpl; lia.
Qed.

Lemma getLegsScore_supported a :
  getLegsScore a true = 1 \/ getLegsScore a true = 2.
Proof.
  unfold getLegsScore.
  destruct (a >= 30)%js, (a < 60)%js, (a >= 60)%js; simpl; lia.
Qed.

Lemma getLegsScore_at_most_3 a s : 1 <= getLegsScore a s <= 3.
Proof.
  unfold getLegsScore.
  destruct (a >= 30)%js, (a < 60)%js, (a >= 60)%js, s; simpl; lia.
Qed.

Lemma getUpperArmScore_unflagged a :
  1 <= getUpperArmScore a false false false <= 4.
Proof.
  unfold getUpperArmScore.
  destruct (a >= 20)%js, (a < 45)%js, (a >= 45)%js, (a < 90)%js,
    (a >= 90)%js, (a < -20)%js; simpl; lia.
Qed.

End UnflaggedScorers.

(** X3.  [calculateREBA] passes no adjustment flag, no load and no activity,
    and takes the wrist angle as 15 degrees.  So whatever the pose, the
    neck and legs scores are 1 or 2, trunk and upper arm are at most 4,
    Score A is at most 3 and Score B at most 4, and the final score is 1,
    2 or 3: the risk level it reports is "Negligible" or "Low", never
    "Medium", "High" or "Very High". *)
Theorem calculateREBA_never_above_low :
  forall Math_atan2 keypoints r,
    RebaCalculator.calculateREBA Math_atan2 keypoints = Some r ->
    (1 <= RebaCalculator.neck r <= 2)%Z /\
    (1 <= RebaCalculator.trunk r <= 4)%Z /\
    (1 <= RebaCalculator.legs r <= 2)%Z /\
    (1 <= RebaCalculator.upperArm r <= 4)%Z /\
    (1 <= RebaCalculator.scoreA r <= 3)%Z /\
    (1 <= RebaCalculator.scoreB r <= 4)%Z /\
    (1 <= RebaCalculator.finalScore r <= 3)%Z /\
    (RebaCalculator.riskLevel r = "Negligible"
     \/ RebaCalculator.riskLevel r = "Low") /\
    (RebaCalculator.actionLevel r = "None necessary"
     \/ RebaCalculator.actionLevel r = "May be necessary").
Proof.
  intros f kps r H.
  apply calculateREBA_Some in H
    as (_ & (na & ta & ka & ua & wa & Hn & Ht & Hl & Hu & Hla)
          & Hw & HA & HB & HF & HR & HAct & _).
  rewrite HR, HAct, HF, HA, HB, Hw.
  pose proof (getNeckScore_unflagged na) as Nn.
  pose proof (getTrunkScore_unflagged ta) as Nt.
  pose proof (getLegsScore_supported ka) as Nl.
  pose proof (getUpperArmScore_unflagged ua) as Nu.
  rewrite <- Hn in Nn. rewrite <- Ht in Nt. rewrite <- Hl in Nl.
  rewrite <- Hu in Nu.
  clear Hn Ht Hl Hu Hla HA HB HF HR HAct Hw.
  generalize dependent (RebaCalculator.lowerArm r).
  generalize dependent (RebaCalculator.trunk r).
  generalize dependent (RebaCalculator.upperArm r).
  generalize dependent (RebaCalculator.legs r).
  generalize dependent (RebaCalculator.neck r).
  intros n [-> | ->] l [-> | ->] u Hu t Ht la;
    assert (u = 1 \/ u = 2 \/ u = 3 \/ u = 4)%Z
      as [-> | [-> | [-> | ->]]] by lia;
    repeat split; try lia; vm_compute; try discriminate; auto.
Qed.

Lemma calculateREBA_never_above_low_witness :
  exists r,
    RebaCalculator.calculateREBA Libm.Math_atan2 standing_pose = Some r /\
    (1 <= RebaCalculator.finalScore r <= 3)%Z /\
    (RebaCalculator.riskLevel r = "Negligible"
     \/ RebaCalculator.riskLevel r = "Low").
Proof.
  eexists. split; [reflexivity|].
  pose proof (calculateREBA_never_above_low Libm.Math_atan2 standing_pose _
                eq_refl) as H.
  exact (conj (proj1 (proj2 (proj2 (proj2 (proj2 (proj2 (proj2 H)))))))
              (proj1 (proj2 (proj2 (proj2 (proj2 (proj2 (proj2 (proj2 H))))))))).
Defined.

(* ===================================================================== *)
(** * The REBA tables from the component scores to the final score        *)
(* ===================================================================== *)

Section RebaPipelineFacts.

Import RebaCalculator.
Local Open Scope Z_scope.

Lemma table_monotone_spec table rows cols i i' j j' :
  table_monotone table rows cols = true ->
  0 <= i <= i' -> i' < rows -> 0 <= j <= j' -> j' < cols ->
  exists v v',
    entry table i j = Some v /\ entry table i' j' = Some v' /\ v <= v'.
Proof.
  intros H Hi Hi' Hj Hj'. unfold table_monotone in H.
  apply (all_in_range_spec _ _ _ i) in H; [|lia].
  apply (all_in_range_spec _ _ _ i') in H; [|lia].
  apply (all_in_range_spec _ _ _ j) in H; [|lia].
  apply (all_in_range_spec _ _ _ j') in H; [|lia].
  cbv beta in H.
  destruct (Z.leb_spec i i'); [|lia].
  destruct (Z.leb_spec j j'); [|lia].
  cbn [andb implb] in H.
  destruct (entry table i j) as [v|]; [|discriminate].
  destruct (entry table i' j') as [v'|]; [|discriminate].
  exists v, v'. repeat split. lia.
Qed.

(** Below [legs = 1] the lookup of [getScoreA] finds no entry and the
    [|| 1] fallback gives 1. *)
Lemma getScoreA_fallback n t l : l < 1 -> getScoreA n t l = 1.
Proof.
  intros Hl. unfold getScoreA.
  destruct (Z.eqb_spec l 1); [lia|]. destruct (Z.eqb_spec l 2); [lia|].
  destruct (JS.index REBA_TABLE_A _) as [row|]; [|reflexivity].
  cbn [mbind option_bind]. unfold JS.index at 1.
  destruct (Z.ltb_spec (Z.min 3 (l - 1)) 0); [reflexivity|lia].
Qed.

Lemma getScoreA_range n t l : 1 <= getScoreA n t l <= 8.
Proof.
  destruct (Z_lt_le_dec l 1) as [Hl|Hl].
  - rewrite getScoreA_fallback by done. lia.
  - pose proof (getScoreA_entry n t l ltac:(lia)) as E.
    destruct (table_all_spec REBA_TABLE_A 5 4 (in_range 1 8)
                (clamp 0 4 (n - 1)) (clamp 0 3 (l - 1)) eq_refl)
      as (v & Hv & Hr%in_range_spec);
      [pose proof (clamp_bounds 0 4 (n - 1)); lia
      |pose proof (clamp_bounds 0 3 (l - 1)); lia|].
    congruence.
Qed.

Lemma getScoreB_range u l w : 1 <= getScoreB u l w <= 9.
Proof.
  pose proof (getScoreB_entry u l w) as E.
  destruct (table_all_spec REBA_TABLE_B 6 3 (in_range 1 9)
              (clamp 0 5 (u - 1)) (clamp 0 2 (w - 1)) eq_refl)
    as (v & Hv & Hr%in_range_spec);
    [pose proof (clamp_bounds 0 5 (u - 1)); lia
    |pose proof (clamp_bounds 0 2 (w - 1)); lia|].
  congruence.
Qed.

Lemma getScoreA_monotone n n' t t' l l' :
  n <= n' -> l <= l' -> getScoreA n t l <= getScoreA n' t' l'.
Proof.
  intros Hn Hl. destruct (Z_lt_le_dec l 1) as [Hl1|Hl1].
  - rewrite (getScoreA_fallback n t l) by done.
    pose proof (getScoreA_range n' t' l'). lia.
  - pose proof (getScoreA_entry n t l ltac:(lia)) as E.
    pose proof (getScoreA_entry n' t' l' ltac:(lia)) as E'.
    destruct (table_monotone_spec REBA_TABLE_A 5 4
                (clamp 0 4 (n - 1)) (clamp 0 4 (n' - 1))
                (clamp 0 3 (l - 1)) (clamp 0 3 (l' - 1)) eq_refl)
      as (v & v' & Hv & Hv' & Hle); try (unfold clamp; lia).
    congruence.
Qed.

Lemma getScoreB_monotone u u' l l' w w' :
  u <= u' -> w <= w' -> getScoreB u l w <= getScoreB u' l' w'.
Proof.
  intros Hu Hw.
  pose proof (getScoreB_entry u l w) as E.
  pose proof (getScoreB_entry u' l' w') as E'.
  destruct (table_monotone_spec REBA_TABLE_B 6 3
              (clamp 0 5 (u - 1)) (clamp 0 5 (u' - 1))
              (clamp 0 2 (w - 1)) (clamp 0 2 (w' - 1)) eq_refl)
    as (v & v' & Hv & Hv' & Hle); try (unfold clamp; lia).
  congruence.
Qed.

(** The load/coupling and activity adjustments are added to the Table C
    entry and the sum is cut to 1..15. *)
Lemma getFinalScore_adjusted a b loadCoupling activity :
  getFinalScore a b loadCoupling activity
  = clamp 1 15 (getFinalScore a b 0 0 + (loadCoupling + activity)).
Proof.
  pose proof (getFinalScore_entry a b) as E.
  destruct (table_all_spec REBA_TABLE_C 12 12 (in_range 1 12)
              (clamp 0 11 (a - 1)) (clamp 0 11 (b - 1)) eq_refl)
    as (v & Hv & Hr%in_range_spec);
    [pose proof (clamp_bounds 0 11 (a - 1)); lia
    |pose proof (clamp_bounds 0 11 (b - 1)); lia|].
  assert (getFinalScore a b 0 0 = v) as -> by congruence.
  unfold getFinalScore, clamp.
  fold (clamp 0 11 (a - 1)). fold (clamp 0 11 (b - 1)).
  fold (entry REBA_TABLE_C (clamp 0 11 (a - 1)) (clamp 0 11 (b - 1))).
  rewrite Hv, or_num_nonzero by lia. reflexivity.
Qed.

End RebaPipelineFacts.

(** X4.  From the component scores to the final score the REBA lookups are
    monotone: raising the neck, legs, upper arm or wrist score, or the
    total of the load/coupling and activity adjustments, never lowers
    the final score, whatever the trunk and lower arm scores are (the
    lookups do not read them).  This holds for scores outside the tables
    too, the [|| 1] fallback of [getScoreA] below [legs = 1] included. *)
Theorem reba_final_score_is_monotone :
  forall neck neck' trunk trunk' legs legs'
         upperArm upperArm' lowerArm lowerArm' wrist wrist'
         loadCoupling loadCoupling' activity activity',
    (neck <= neck')%Z -> (legs <= legs')%Z ->
    (upperArm <= upperArm')%Z -> (wrist <= wrist')%Z ->
    (loadCoupling + activity <= loadCoupling' + activity')%Z ->
    (RebaCalculator.getFinalScore
       (RebaCalculator.getScoreA neck trunk legs)
       (RebaCalculator.getScoreB upperArm lowerArm wrist)
       loadCoupling activity
     <= RebaCalculator.getFinalScore
          (RebaCalculator.getScoreA neck' trunk' legs')
          (RebaCalculator.getScoreB upperArm' lowerArm' wrist')
          loadCoupling' activity')%Z.
Proof.
  intros n n' t t' l l' u u' la la' w w' lc lc' act act' Hn Hl Hu Hw Hadj.
  rewrite (getFinalScore_adjusted _ _ lc act),
    (getFinalScore_adjusted _ _ lc' act').
  pose proof (getFinalScore_monotone
                (RebaCalculator.getScoreA n t l)
                (RebaCalculator.getScoreA n' t' l')
                (RebaCalculator.getScoreB u la w)
                (RebaCalculator.getScoreB u' la' w')
                (getScoreA_monotone n n' t t' l l' Hn Hl)
                (getScoreB_monotone u u' la la' w w' Hu Hw)).
  unfold clamp. lia.
Qed.

Lemma reba_final_score_is_monotone_witness :
  (RebaCalculator.getFinalScore
     (RebaCalculator.getScoreA 2 5 0) (RebaCalculator.getScoreB 3 1 1) 0 1
   <= RebaCalculator.getFinalScore
        (RebaCalculator.getScoreA 3 1 2) (RebaCalculator.getScoreB 5 2 2)
        2 0)%Z.
Proof.
  apply reba_final_score_is_monotone; lia.
Defined.

(** X5.  Whatever the six angles and the seven adjustment flags are, the legs
    score is at most 3 (the cap at 4 is never reached), Score A is at
    most 5 and Score B at most 9, and without load/coupling and activity
    adjustments the final score is at most 9: the risk level is never
    "Very High". *)
Theorem reba_scorers_never_reach_very_high :
  forall neckAngle trunkAngle kneeAngle upperArmAngle lowerArmAngle
         wristAngle isNeckTwisted isTrunkTwisted isSupported
         isShoulderRaised isArmAbducted isArmSupported isWristTwisted,
    let legs := RebaCalculator.getLegsScore kneeAngle isSupported in
    let scoreA :=
      RebaCalculator.getScoreA
        (RebaCalculator.getNeckScore neckAngle isNeckTwisted)
        (RebaCalculator.getTrunkScore trunkAngle isTrunkTwisted) legs in
    let scoreB :=
      RebaCalculator.getScoreB
        (RebaCalculator.getUpperArmScore upperArmAngle isShoulderRaised
           isArmAbducted isArmSupported)
        (RebaCalculator.getLowerArmScore lowerArmAngle)
        (RebaCalculator.getWristScore wristAngle isWristTwisted) in
    let finalScore := RebaCalculator.getFinalScore scoreA scoreB 0 0 in
    (1 <= legs <= 3)%Z /\ (1 <= scoreA <= 5)%Z /\ (1 <= scoreB <= 9)%Z /\
    (1 <= finalScore <= 9)%Z /\
    RebaCalculator.getRiskLevel finalScore <> "Very High".
Proof.
  intros na ta ka ua la wa f1 f2 f3 f4 f5 f6 f7.
  pose proof (getNeckScore_range na f1) as Hn.
  pose proof (getLegsScore_at_most_3 ka f3) as Hl.
  pose proof (getScoreB_range
                (RebaCalculator.getUpperArmScore ua f4 f5 f6)
                (RebaCalculator.getLowerArmScore la)
                (RebaCalculator.getWristScore wa f7)) as HB.
  cbv zeta.
  generalize dependent (RebaCalculator.getScoreB
                (RebaCalculator.getUpperArmScore ua f4 f5 f6)
                (RebaCalculator.getLowerArmScore la)
                (RebaCalculator.getWristScore wa f7)).
  generalize (RebaCalculator.getTrunkScore ta f2).
  generalize dependent (RebaCalculator.getLegsScore ka f3).
  generalize dependent (RebaCalculator.getNeckScore na f1).
  intros n Hn l Hl t b Hb.
  assert (n = 1 \/ n = 2 \/ n = 3)%Z as [-> | [-> | ->]] by lia;
    assert (l = 1 \/ l = 2 \/ l = 3)%Z as [-> | [-> | ->]] by lia;
    assert (b = 1 \/ b = 2 \/ b = 3 \/ b = 4 \/ b = 5 \/ b = 6 \/ b = 7
            \/ b = 8 \/ b = 9)%Z
      as [-> | [-> | [-> | [-> | [-> | [-> | [-> | [-> | ->]]]]]]]] by lia;
    repeat split; try lia; vm_compute; discriminate.
Qed.

(* ===================================================================== *)
(** * The order of binary64 angles and the component scorers              *)
(* ===================================================================== *)

Lemma SFcompare_key x y :
  SFcompare x y =
  match float_key x, float_key y with
  | Some k, Some k' =>
      Some (if decide (key_lt k k') then Lt
            else if decide (key_lt k' k) then Gt else Eq)
  | _, _ => None
  end.
Proof.
  destruct x as [sx|sx| |sx mx ex], y as [sy|sy| |sy my ey];
    try reflexivity;
    try (destruct sx; reflexivity);
    try (destruct sy; reflexivity);
    try (destruct sx, sy; reflexivity).
  unfold SFcompare, float_key, key_lt.
  destruct sx, sy; cbn [fst snd];
    try (destruct (decide _) as [|N]; [reflexivity|exfalso; apply N; lia]);
    try (destruct (decide _) as [|N]; [exfalso; lia|];
         destruct (decide _) as [|N']; [reflexivity|exfalso; apply N'; lia]).
  - change (Pos.compare_cont Eq mx my) with (mx ?= my)%positive.
    destruct (Z.compare_spec ex ey), (Pos.compare_spec mx my);
      cbn [CompOpp]; repeat destruct (decide _); try reflexivity; lia.
  - change (Pos.compare_cont Eq mx my) with (mx ?= my)%positive.
    destruct (Z.compare_spec ex ey), (Pos.compare_spec mx my);
      repeat destruct (decide _); try reflexivity; lia.
Qed.

Lemma ltb_key a b k k' :
  float_key (Prim2SF a) = Some k -> float_key (Prim2SF b) = Some k' ->
  if (a < b)%js then key_lt k k' else ~ key_lt k k'.
Proof.
  intros K K'. rewrite FloatAxioms.ltb_spec. unfold SFltb.
  rewrite SFcompare_key, K, K'.
  repeat destruct (decide _); try done; unfold key_lt in *; lia.
Qed.

Lemma leb_key a b k k' :
  float_key (Prim2SF a) = Some k -> float_key (Prim2SF b) = Some k' ->
  if (a <= b)%js then ~ key_lt k' k else key_lt k' k.
Proof.
  intros K K'. rewrite FloatAxioms.leb_spec. unfold SFleb.
  rewrite SFcompare_key, K, K'.
  repeat destruct (decide _); try done; unfold key_lt in *; lia.
Qed.

(** A comparison that holds compares two numbers. *)
Lemma leb_numbers a b :
  (a <= b)%js = true ->
  exists k k', float_key (Prim2SF a) = Some k
               /\ float_key (Prim2SF b) = Some k'.
Proof.
  rewrite FloatAxioms.leb_spec. unfold SFleb. rewrite SFcompare_key.
  destruct (float_key (Prim2SF a)) as [k|]; [|discriminate].
  destruct (float_key (Prim2SF b)) as [k'|]; [|discriminate].
  eauto.
Qed.

Lemma is_nan_nan a : PrimFloat.is_nan a = true -> a = nan.
Proof.
  unfold PrimFloat.is_nan. rewrite FloatAxioms.eqb_spec. intros H.
  apply FloatAxioms.Prim2SF_inj. destruct (Prim2SF a) as [s|s| |s m e] eqn:E;
    try (destruct s; discriminate); try reflexivity; try discriminate.
  exfalso. cbn in H. destruct s; rewrite Z.compare_refl in H;
    change (Pos.compare_cont Eq m m) with (m ?= m)%positive in H;
    rewrite Pos.compare_refl in H; discriminate.
Qed.

Lemma leb_trans a b c :
  (a <= b)%js = true -> (b <= c)%js = true -> (a <= c)%js = true.
Proof.
  intros Hab Hbc.
  destruct (leb_numbers a b Hab) as (ka & kb & Ka & Kb).
  destruct (leb_numbers b c Hbc) as (kb' & kc & Kb' & Kc).
  assert (kb' = kb) as -> by congruence.
  pose proof (leb_key a b _ _ Ka Kb) as H1. rewrite Hab in H1.
  pose proof (leb_key b c _ _ Kb Kc) as H2. rewrite Hbc in H2.
  pose proof (leb_key a c _ _ Ka Kc) as H3.
  destruct (a <= c)%js; [reflexivity|].
  unfold key_lt in *. lia.
Qed.

(** Between numbers [a < c] is the negation of [a >= c]. *)
Lemma ltb_negb_leb a c :
  (a <= a)%js = true -> (c <= c)%js = true ->
  (a < c)%js = negb (a >= c)%js.
Proof.
  intros Ha Hc.
  destruct (leb_numbers a a Ha) as (ka & _ & Ka & _).
  destruct (leb_numbers c c Hc) as (kc & _ & Kc & _).
  pose proof (ltb_key a c _ _ Ka Kc) as H1.
  pose proof (leb_key c a _ _ Kc Ka) as H2.
  destruct (a < c)%js, (a >= c)%js; try reflexivity; tauto.
Qed.

Lemma leb_number_l a b : (a <= b)%js = true -> (a <= a)%js = true.
Proof.
  intros Hab. destruct (leb_numbers a b Hab) as (ka & _ & Ka & _).
  pose proof (leb_key a a _ _ Ka Ka) as H.
  destruct (a <= a)%js; [reflexivity|]. unfold key_lt in H. lia.
Qed.

Lemma leb_number_r a b : (a <= b)%js = true -> (b <= b)%js = true.
Proof.
  intros Hab. destruct (leb_numbers a b Hab) as (_ & kb & _ & Kb).
  pose proof (leb_key b b _ _ Kb Kb) as H.
  destruct (b <= b)%js; [reflexivity|]. unfold key_lt in H. lia.
Qed.

(** A threshold that the smaller angle reaches, the larger reaches too;
    an angle that reaches the larger threshold reaches the smaller. *)
Lemma threshold_mono c a b :
  (a <= b)%js = true -> (Z.b2z (a >= c)%js <= Z.b2z (b >= c)%js)%Z.
Proof.
  intros Hab. destruct (a >= c)%js eqn:Hca; [|destruct (b >= c)%js; simpl; lia].
  rewrite (leb_trans c a b Hca Hab). reflexivity.
Qed.

Lemma threshold_anti c c' a :
  (c <= c')%js = true -> (Z.b2z (a >= c')%js <= Z.b2z (a >= c)%js)%Z.
Proof.
  intros Hcc. destruct (a >= c')%js eqn:Hca; [|destruct (a >= c)%js; simpl; lia].
  rewrite (leb_trans c c' a Hcc Hca). reflexivity.
Qed.

Section ScorerOrderFacts.

Import RebaCalculator.
Local Open Scope Z_scope.

Variables a b : float.
Hypothesis a_le_b : (a <= b)%js = true.

Ltac numbers_only :=
  rewrite ?(ltb_negb_leb a), ?(ltb_negb_leb b)
    by first [ exact (leb_number_l a b a_le_b)
             | exact (leb_number_r a b a_le_b)
             | reflexivity ].

Ltac thresholds cs :=
  lazymatch cs with
  | ?c :: ?cs' =>
      pose proof (threshold_mono c a b a_le_b);
      lazymatch cs' with
      | ?c' :: _ =>
          pose proof (threshold_anti c c' a eq_refl);
          pose proof (threshold_anti c c' b eq_refl)
      | _ => idtac
      end;
      thresholds cs'
  | _ => idtac
  end.

Ltac by_cases :=
  repeat match goal with
         | |- context [PrimFloat.leb ?c ?v] =>
             destruct (PrimFloat.leb c v); cbn [Z.b2z] in *; try lia
         end;
  cbn [andb negb]; lia.

Lemma getTrunkScore_monotone t : getTrunkScore a t <= getTrunkScore b t.
Proof.
  unfold getTrunkScore. numbers_only.
  thresholds [0; 5; 20; 60]%float.
  destruct t; by_cases.
Qed.

Lemma getLegsScore_monotone s : getLegsScore a s <= getLegsScore b s.
Proof.
  unfold getLegsScore. numbers_only.
  thresholds [30; 60]%float.
  destruct s; by_cases.
Qed.

Lemma getNeckScore_monotone t :
  (0 <= a)%js = true -> getNeckScore a t <= getNeckScore b t.
Proof.
  intros Ha. pose proof (leb_trans 0 a b Ha a_le_b) as Hb.
  unfold getNeckScore. numbers_only. rewrite Ha, Hb.
  thresholds [20]%float.
  destruct t; by_cases.
Qed.

Lemma getUpperArmScore_monotone r d s :
  (0 <= a)%js = true ->
  getUpperArmScore a r d s <= getUpperArmScore b r d s.
Proof.
  intros Ha. pose proof (leb_trans 0 a b Ha a_le_b) as Hb.
  unfold getUpperArmScore. numbers_only.
  rewrite (leb_trans (-20) 0 a eq_refl Ha), (leb_trans (-20) 0 b eq_refl Hb).
  thresholds [20; 45; 90]%float.
  destruct r, d, s; by_cases.
Qed.

End ScorerOrderFacts.

(** X6.  On binary64 angles the trunk and legs scorers are monotone: of two
    angles the larger never gets the lower score.  The neck and upper arm
    scorers are monotone from 0 degrees on (the angles [calculateREBA]
    passes are absolute values); below 0 they are not, as the extension
    adjustments score a small negative angle higher than 0. *)
Theorem reba_scorers_are_monotone :
  forall a b : float,
    (a <= b)%js = true ->
    (forall t, RebaCalculator.getTrunkScore a t
               <= RebaCalculator.getTrunkScore b t)%Z /\
    (forall s, RebaCalculator.getLegsScore a s
               <= RebaCalculator.getLegsScore b s)%Z /\
    ((0 <= a)%js = true ->
     (forall t, RebaCalculator.getNeckScore a t
                <= RebaCalculator.getNeckScore b t)%Z /\
     (forall r d s, RebaCalculator.getUpperArmScore a r d s
                    <= RebaCalculator.getUpperArmScore b r d s)%Z) /\
    (RebaCalculator.getNeckScore 0 false
     < RebaCalculator.getNeckScore (-1) false)%Z /\
    (RebaCalculator.getUpperArmScore 0 false false false
     < RebaCalculator.getUpperArmScore (-21) false false false)%Z.
Proof.
  intros a b Hab. repeat split.
  - intros t. by apply getTrunkScore_monotone.
  - intros s. by apply getLegsScore_monotone.
  - intros t. by apply getNeckScore_monotone.
  - intros r d s. by apply getUpperArmScore_monotone.
Qed.

Lemma reba_scorers_are_monotone_witness :
  (RebaCalculator.getTrunkScore 19.5 false
   <= RebaCalculator.getTrunkScore 20 false)%Z /\
  (RebaCalculator.getUpperArmScore 44 true false false
   <= RebaCalculator.getUpperArmScore 91 true false false)%Z.
Proof.
  pose proof (reba_scorers_are_monotone 19.5 20 eq_refl) as H1.
  pose proof (reba_scorers_are_monotone 44 91 eq_refl) as H2.
  exact (conj (proj1 H1 false)
              (proj2 (proj1 (proj2 (proj2 H2)) eq_refl) true false false)).
Defined.

(** X7.  A NaN angle takes none of the branches of a scorer: neck, trunk,
    legs, upper arm and wrist score it as they score 0 degrees, the best
    posture, whatever the flags; the lower arm scorer gives it 2, the
    score of an angle outside 60..100 degrees. *)
Theorem reba_scorers_at_NaN :
  forall a : float,
    PrimFloat.is_nan a = true ->
    (forall t, RebaCalculator.getNeckScore a t
               = RebaCalculator.getNeckScore 0 t) /\
    (forall t, RebaCalculator.getTrunkScore a t
               = RebaCalculator.getTrunkScore 0 t) /\
    (forall s, RebaCalculator.getLegsScore a s
               = RebaCalculator.getLegsScore 0 s) /\
    (forall r d s, RebaCalculator.getUpperArmScore a r d s
                   = RebaCalculator.getUpperArmScore 0 r d s) /\
    (forall t, RebaCalculator.getWristScore a t
               = RebaCalculator.getWristScore 0 t) /\
    RebaCalculator.getLowerArmScore a = 2%Z.
Proof.
  intros a ->%is_nan_nan. repeat split.
Qed.

Lemma reba_scorers_at_NaN_witness :
  RebaCalculator.getTrunkScore (0 / 0) true = 2%Z
  /\ RebaCalculator.getLowerArmScore (0 / 0) = 2%Z.
Proof.
  pose proof (reba_scorers_at_NaN (0 / 0) eq_refl) as H.
  exact (conj (proj1 (proj2 H) true)
              (proj2 (proj2 (proj2 (proj2 (proj2 H)))))).
Defined.

(* ===================================================================== *)
(** * The posture analysis and the weight estimate                        *)
(* ===================================================================== *)

Section PostureFacts.

Import WeightDetection.

Variable Math_acos : float -> float.

(** The flags and the arm position [analyzePosture] can return
    together. *)
Lemma analyzePosture_cases keypoints p :
  analyzePosture Math_acos keypoints = Some p ->
  loadDirection p = front /\
  ((isLifting p, isCarrying p, armPosition p) = (false, false, close)
   \/ (isLifting p, isCarrying p, armPosition p) = (false, true, extended)
   \/ (isLifting p, isCarrying p, armPosition p) = (true, true, extended)
   \/ (isLifting p, isCarrying p, armPosition p) = (true, false, overhead)
   \/ (isLifting p, isCarrying p, armPosition p) = (true, true, overhead)).
Proof.
  unfold analyzePosture.
  destruct (17 <=? length keypoints)%nat;
    [|cbn [mbind option_bind]; intros [= <-]; cbn; auto].
  destruct (kp keypoints 5) as [ls|], (kp keypoints 6) as [rs|],
    (kp keypoints 9) as [lw|], (kp keypoints 10) as [rw|],
    (kp keypoints 7) as [le|], (kp keypoints 8) as [re|];
    cbn [JS.truthy andb mbind option_bind];
    try (intros [= <-]; cbn; auto).
  destruct (kp keypoints 11), (kp keypoints 12);
    cbn [JS.truthy andb mbind option_bind];
    repeat match goal with
           | |- context [PrimFloat.ltb ?u ?v] => destruct (PrimFloat.ltb u v)
           end;
    cbn [andb orb mbind option_bind];
    intros [= <-]; cbn; auto 10.
Qed.

(** What [calculateWeightFromPosture] returns: the base weight of the
    posture, to which 3, 5 or both may have been added when the base is
    not 0. *)
Lemma calculateWeightFromPosture_cases p keypoints w :
  calculateWeightFromPosture Math_acos p keypoints = Some w ->
  let base :=
    if isLifting p && ArmPosition_eqb (armPosition p) extended then 10%Q
    else if isCarrying p && ArmPosition_eqb (armPosition p) extended then 7%Q
    else if ArmPosition_eqb (armPosition p) overhead then 12%Q
    else 0%Q in
  w = base \/
  (base <> 0%Q /\
   (w = (base + 3)%Q \/ w = (base + 5)%Q \/ w = (base + 3 + 5)%Q)).
Proof.
  unfold calculateWeightFromPosture. cbv zeta.
  destruct (isLifting p), (isCarrying p), (armPosition p);
    cbn [andb ArmPosition_eqb];
    destruct (17 <=? length keypoints)%nat; cbn [andb JS.Q_gt Qle_bool];
    try solve [intros [= <-]; auto 10];
    change (JS.Q_gt _ 0) with true; cbv iota;
    destruct (kp keypoints 5), (kp keypoints 6), (kp keypoints 7),
      (kp keypoints 8), (kp keypoints 9), (kp keypoints 10);
    cbn [JS.truthy andb mbind option_bind];
    try solve [intros [= <-]; auto 10];
    repeat match goal with
           | |- context [if ?c then _ else _] => destruct c
           end;
    intros [= <-]; auto 10.
Qed.

End PostureFacts.

(** X8.  The flags and the arm position [analyzePosture] returns are tied
    together: the arm position is 'close' exactly when neither
    [isLifting] nor [isCarrying] is set, 'extended' comes with
    [isCarrying], 'overhead' comes with [isLifting], and the load
    direction is always 'front'. *)
Theorem analyzePosture_flags_follow_arm_position :
  forall Math_acos keypoints p,
    WeightDetection.analyzePosture Math_acos keypoints = Some p ->
    (WeightDetection.armPosition p = WeightDetection.close <->
     WeightDetection.isLifting p = false
     /\ WeightDetection.isCarrying p = false) /\
    (WeightDetection.armPosition p = WeightDetection.extended ->
     WeightDetection.isCarrying p = true) /\
    (WeightDetection.armPosition p = WeightDetection.overhead ->
     WeightDetection.isLifting p = true) /\
    WeightDetection.loadDirection p = WeightDetection.front.
Proof.
  intros f kps p H.
  destruct (analyzePosture_cases f kps p H)
    as (Hdir & [E|[E|[E|[E|E]]]]);
    injection E as -> -> ->; repeat split; try done; intros []; done.
Qed.

Lemma analyzePosture_flags_follow_arm_position_witness :
  exists p,
    WeightDetection.analyzePosture Libm.Math_acos overhead_pose = Some p /\
    WeightDetection.armPosition p = WeightDetection.overhead /\
    WeightDetection.isLifting p = true.
Proof.
  eexists. split; [reflexivity|].
  pose proof (analyzePosture_flags_follow_arm_position
                Libm.Math_acos overhead_pose _ eq_refl) as H.
  exact (conj eq_refl (proj1 (proj2 (proj2 H)) eq_refl)).
Defined.

(** X9.  [estimateWeightFromPosture] returns either no load (weight 0 with
    confidence 0.1, neither flag set) or a load of 7 to 20 kg with
    confidence 0.8: at least 10 kg when [isLifting] is set and at least
    12 kg when the arm position is 'overhead'.  It lists no detected
    object. *)
Theorem estimateWeightFromPosture_range :
  forall Math_acos keypoints,
    exists e,
      WeightDetection.estimateWeightFromPosture Math_acos keypoints = Some e /\
      WeightDetection.detectedObjects e = [] /\
      let p := WeightDetection.bodyPosture e in
      let w := WeightDetection.estimatedWeight e in
      (WeightDetection.isLifting p = false
       /\ WeightDetection.isCarrying p = false
       /\ w = 0%Q /\ WeightDetection.confidence e = 0.1%Q)
      \/ (WeightDetection.isLifting p || WeightDetection.isCarrying p = true
          /\ WeightDetection.confidence e = 0.8%Q
          /\ (7 <= w)%Q /\ (w <= 20)%Q
          /\ (WeightDetection.isLifting p = true -> (10 <= w)%Q)
          /\ (WeightDetection.armPosition p = WeightDetection.overhead ->
              (12 <= w)%Q)).
Proof.
  intros f kps.
  destruct (estimateWeightFromPosture_Some f kps) as (p & w & Hp & Hw & ->).
  eexists. split; [reflexivity|]. split; [reflexivity|].
  cbn [WeightDetection.bodyPosture WeightDetection.estimatedWeight
       WeightDetection.confidence].
  apply calculateWeightFromPosture_cases in Hw. cbv zeta in Hw.
  destruct (analyzePosture_cases f kps p Hp)
    as (_ & [E|[E|[E|[E|E]]]]);
    injection E as El Ec Ea; rewrite El, Ec, Ea in *;
    cbn [orb andb WeightDetection.ArmPosition_eqb] in *;
    [left; done|right..];
    destruct Hw as [->|[_ [->|[->| ->]]]];
    repeat split; try done.
Qed.

(* ===================================================================== *)
(** * The weight adjusters on the scores they are given                   *)
(* ===================================================================== *)

Ltac Qle_cases x y :=
  let E := fresh "E" in
  let H := fresh "H" in
  destruct (Qle_bool_cases x y) as [[E H]|[E H]]; rewrite ?E in *.

Section BandFacts.

Lemma reba_band_range w m : reba_band w m -> (1 <= m)%Q /\ (m <= 1.8)%Q.
Proof.
  intros (A1 & A2 & A3 & A4 & A5).
  Qle_cases w 5%Q; Qle_cases w 10%Q; Qle_cases w 20%Q; Qle_cases w 40%Q;
    try (exfalso; Lqa.lra);
    rewrite ?A1, ?A2, ?A3, ?A4, ?A5 by assumption; done.
Qed.

Lemma rula_band_range w m : rula_band w m -> (1 <= m)%Q /\ (m <= 3)%Q.
Proof.
  intros (A1 & A2 & A3 & A4).
  Qle_cases w 23%Q; Qle_cases w 10%Q; Qle_cases w 5%Q;
    try (exfalso; Lqa.lra);
    rewrite ?A1, ?A2, ?A3, ?A4 by assumption; done.
Qed.

Lemma reba_band_up_to_20 w m :
  reba_band w m -> (w <= 20)%Q -> m = 1.0%Q \/ m = 1.1%Q \/ m = 1.3%Q.
Proof.
  intros (A1 & A2 & A3 & _ & _) Hw.
  Qle_cases w 5%Q; Qle_cases w 10%Q; try (exfalso; Lqa.lra);
    rewrite ?A1, ?A2, ?A3 by assumption; auto.
Qed.

Lemma rula_band_up_to_20 w m :
  rula_band w m -> (w <= 20)%Q -> m = 1%Q \/ m = 1.5%Q \/ m = 2%Q.
Proof.
  intros (_ & A2 & A3 & A4) Hw.
  Qle_cases w 5%Q; Qle_cases w 10%Q; try (exfalso; Lqa.lra);
    rewrite ?A2, ?A3, ?A4 by (assumption || Lqa.lra); auto.
Qed.

Lemma reba_band_light w m : reba_band w m -> (w <= 5)%Q -> m = 1.0%Q.
Proof. intros (A1 & _) Hw. auto. Qed.

Lemma rula_band_light w m : rula_band w m -> (w <= 5)%Q -> m = 1%Q.
Proof. intros (_ & _ & _ & A4) Hw. auto. Qed.

(** The effective weight of the RULA adjuster is that of the REBA
    adjuster; its extra [|| 0] only replaces a zero by 0. *)
Lemma rula_effective_weight w :
  (JS.or_else (Some w) 0 == w)%Q.
Proof.
  unfold JS.or_else. destruct (Qeq_bool w 0) eqn:E; [|reflexivity].
  apply Qeq_bool_iff in E. by rewrite E.
Qed.

Lemma Math_round_Q_integer (z : Z) (q : Q) :
  (q == inject_Z z)%Q -> JS.Math_round_Q q = z.
Proof.
  intros E. unfold JS.Math_round_Q.
  rewrite (Qfloor_comp _ (inject_Z z + (1 # 2))) by (by rewrite E).
  unfold Qfloor, inject_Z, Qplus. cbn [Qnum Qden].
  change (Z.pos (1 * 2)) with 2%Z.
  Z.to_euclidean_division_equations. lia.
Qed.

Lemma Math_ceil_Q_integer (z : Z) (q : Q) :
  (q == inject_Z z)%Q -> JS.Math_ceil_Q q = z.
Proof.
  intros E. unfold JS.Math_ceil_Q.
  rewrite (Qceiling_comp _ (inject_Z z)) by done.
  apply Qceiling_Z.
Qed.

(** Table C has its entries in 1..12, so cutting one at 15 changes
    nothing. *)
Lemma getFinalScore_table_range a b :
  (1 <= RebaCalculator.getFinalScore a b 0 0 <= 12)%Z.
Proof.
  pose proof (getFinalScore_entry a b) as E.
  destruct (table_all_spec RebaCalculator.REBA_TABLE_C 12 12 (in_range 1 12)
              (clamp 0 11 (a - 1)) (clamp 0 11 (b - 1)) eq_refl)
    as (v & Hv & Hr%in_range_spec);
    [pose proof (clamp_bounds 0 11 (a - 1)); lia
    |pose proof (clamp_bounds 0 11 (b - 1)); lia|].
  assert (RebaCalculator.getFinalScore a b 0 0 = v) as -> by congruence.
  lia.
Qed.

Lemma getFinalScore_saturates a b :
  RebaCalculator.getFinalScore (Z.min 12 a) (Z.min 12 b) 0 0
  = RebaCalculator.getFinalScore a b 0 0.
Proof.
  pose proof (getFinalScore_entry a b) as E.
  pose proof (getFinalScore_entry (Z.min 12 a) (Z.min 12 b)) as E'.
  replace (clamp 0 11 (Z.min 12 a - 1)) with (clamp 0 11 (a - 1)) in E'
    by (unfold clamp; lia).
  replace (clamp 0 11 (Z.min 12 b - 1)) with (clamp 0 11 (b - 1)) in E'
    by (unfold clamp; lia).
  congruence.
Qed.

(** From 1 on, the labels of the weight adjustment are those of the
    calculator, " Risk" appended to the risk level. *)
Lemma reba_labels_from_1 s :
  (1 <= s)%Z ->
  WeightDetection.getRebaRiskLevel s
  = String.append (RebaCalculator.getRiskLevel s) " Risk"
  /\ WeightDetection.getRebaActionLevel s = RebaCalculator.getActionLevel s.
Proof.
  intros Hs.
  unfold WeightDetection.getRebaRiskLevel, RebaCalculator.getRiskLevel,
    WeightDetection.getRebaActionLevel, RebaCalculator.getActionLevel.
  destruct (Z.eqb_spec s 1); [done|].
  destruct (Z.leb_spec s 3), (Z.leb_spec 2 s); try lia;
    destruct (Z.leb_spec s 7), (Z.leb_spec 4 s); try lia;
    destruct (Z.leb_spec s 10), (Z.leb_spec 8 s); try lia; done.
Qed.

End BandFacts.

(** X10.  From a score of 1 on, the risk and action labels of the weight
    adjustment are the labels of the REBA calculator, with " Risk"
    appended to the risk level.  Below 1 the two disagree: the adjustment
    says "Low Risk" and "May be necessary" where the calculator says
    "Very High" and "Necessary now". *)
Theorem reba_labels_agree_with_the_calculator :
  forall s : Z,
    ((1 <= s)%Z ->
     WeightDetection.getRebaRiskLevel s
     = String.append (RebaCalculator.getRiskLevel s) " Risk"
     /\ WeightDetection.getRebaActionLevel s
        = RebaCalculator.getActionLevel s) /\
    ((s < 1)%Z ->
     WeightDetection.getRebaRiskLevel s = "Low Risk"
     /\ RebaCalculator.getRiskLevel s = "Very High"
     /\ WeightDetection.getRebaActionLevel s = "May be necessary"
     /\ RebaCalculator.getActionLevel s = "Necessary now").
Proof.
  intros s. split; [apply reba_labels_from_1|].
  intros Hs.
  unfold WeightDetection.getRebaRiskLevel, RebaCalculator.getRiskLevel,
    WeightDetection.getRebaActionLevel, RebaCalculator.getActionLevel.
  destruct (Z.eqb_spec s 1); [lia|].
  destruct (Z.leb_spec s 3), (Z.leb_spec 2 s); try lia.
  destruct (Z.leb_spec 4 s), (Z.leb_spec 8 s); try lia. done.
Qed.

Lemma reba_labels_agree_with_the_calculator_witness :
  WeightDetection.getRebaRiskLevel 9
  = String.append (RebaCalculator.getRiskLevel 9) " Risk"
  /\ WeightDetection.getRebaActionLevel 9 = RebaCalculator.getActionLevel 9.
Proof.
  apply (proj1 (reba_labels_agree_with_the_calculator 9)). lia.
Defined.

(** X11.  The score [calculateWeightAdjustedReba] returns is one the
    calculator could have produced: the adjusted Score A and Score B are
    at most 12, the final score is the calculator's [getFinalScore] of
    them with no load and no activity, it lies in 1..12 (so the cut at 15
    never applies), and the risk and action labels are the calculator's
    for that score, the risk level with " Risk" appended.  The object is
    marked [isWeightAdjusted]. *)
Theorem reba_adjusted_score_is_a_calculator_score :
  forall heap ref base weightEstimation manualWeight a b,
    heap !! ref = Some base ->
    JS.num_prop base "scoreA" = Some a ->
    JS.num_prop base "scoreB" = Some b ->
    exists A B F,
      let res :=
        WeightDetection.calculateWeightAdjustedReba heap (Some ref)
          weightEstimation manualWeight in
      returned_prop res "scoreA" = Some (JS.VNum (inject_Z A)) /\
      returned_prop res "scoreB" = Some (JS.VNum (inject_Z B)) /\
      returned_prop res "finalScore" = Some (JS.VNum (inject_Z F)) /\
      (A <= 12)%Z /\ (B <= 12)%Z /\
      F = RebaCalculator.getFinalScore A B 0 0 /\
      (1 <= F <= 12)%Z /\
      returned_prop res "riskLevel"
      = Some (JS.VStr (String.append (RebaCalculator.getRiskLevel F) " Risk"))
      /\ returned_prop res "actionLevel"
         = Some (JS.VStr (RebaCalculator.getActionLevel F))
      /\ returned_prop res "isWeightAdjusted" = Some (JS.VBool true).
Proof.
  intros heap ref base we manual a b Hbase Ha Hb.
  destruct (calculateWeightAdjustedReba_result heap ref base we manual
              Hbase a b Ha Hb) as (m & _ & Hres).
  cbv zeta in *. rewrite Hres. clear Hres.
  set (A := Z.min 12 (JS.Math_round_Q (a * m))).
  set (B := Z.min 12 (JS.Math_round_Q (b * m))).
  pose proof (getFinalScore_table_range A B) as HF.
  rewrite (Z.min_r 15 _) by lia.
  destruct (reba_labels_from_1 (RebaCalculator.getFinalScore A B 0 0))
    as [-> ->]; [lia|].
  exists A, B, (RebaCalculator.getFinalScore A B 0 0).
  repeat split; try (spread_lookup; reflexivity); lia.
Qed.

Lemma reba_adjusted_score_is_a_calculator_score_witness :
  exists A B F,
    let res :=
      WeightDetection.calculateWeightAdjustedReba sample_heap
        (Some 1%positive) (estimate_of 50) None in
    returned_prop res "scoreA" = Some (JS.VNum (inject_Z A)) /\
    returned_prop res "scoreB" = Some (JS.VNum (inject_Z B)) /\
    returned_prop res "finalScore" = Some (JS.VNum (inject_Z F)) /\
    (A <= 12)%Z /\ (B <= 12)%Z /\
    F = RebaCalculator.getFinalScore A B 0 0 /\
    (1 <= F <= 12)%Z /\
    returned_prop res "riskLevel"
    = Some (JS.VStr (String.append (RebaCalculator.getRiskLevel F) " Risk"))
    /\ returned_prop res "actionLevel"
       = Some (JS.VStr (RebaCalculator.getActionLevel F))
    /\ returned_prop res "isWeightAdjusted" = Some (JS.VBool true).
Proof.
  apply (reba_adjusted_score_is_a_calculator_score sample_heap 1%positive
           sample_reba_score (estimate_of 50) None 4%Q 3%Q);
    reflexivity.
Defined.

Lemma estimated_weight_at_most_20 Math_acos keypoints :
  exists e,
    WeightDetection.estimateWeightFromPosture Math_acos keypoints = Some e /\
    (WeightDetection.estimatedWeight e <= 20)%Q.
Proof.
  destruct (estimateWeightFromPosture_Some Math_acos keypoints)
    as (p & w & Hp & Hw & ->).
  eexists. split; [reflexivity|]. cbn [WeightDetection.estimatedWeight].
  apply calculateWeightFromPosture_cases in Hw. cbv zeta in Hw.
  destruct (analyzePosture_cases Math_acos keypoints p Hp)
    as (_ & [E|[E|[E|[E|E]]]]);
    injection E as El Ec Ea; rewrite El, Ec, Ea in *;
    cbn [orb andb WeightDetection.ArmPosition_eqb] in *;
    [done|..];
    destruct Hw as [->|[_ [->|[->| ->]]]]; done.
Qed.

(** X12.  With no manual weight the adjusters work on the weight
    [estimateWeightFromPosture] infers, which never exceeds 20 kg: the
    REBA multiplier is then 1.0, 1.1 or 1.3 and the RULA multiplier 1,
    1.5 or 2.  The bands above (1.5 and 1.8 for REBA, 3 for RULA) are
    reached with a manual weight only. *)
Theorem estimated_weight_never_selects_the_heavy_bands :
  forall Math_acos keypoints heap ref base a b f,
    heap !! ref = Some base ->
    JS.num_prop base "scoreA" = Some a ->
    JS.num_prop base "scoreB" = Some b ->
    JS.num_prop base "finalScore" = Some f ->
    exists e,
      WeightDetection.estimateWeightFromPosture Math_acos keypoints = Some e /\
      (exists m,
          returned_prop
            (WeightDetection.calculateWeightAdjustedReba heap (Some ref) e None)
            "weightMultiplier" = Some (JS.VNum m) /\
          (m = 1.0%Q \/ m = 1.1%Q \/ m = 1.3%Q)) /\
      (exists m,
          returned_prop
            (WeightDetection.calculateWeightAdjustedRula heap (Some ref) e None)
            "weightMultiplier" = Some (JS.VNum m) /\
          (m = 1%Q \/ m = 1.5%Q \/ m = 2%Q)).
Proof.
  intros acos kps heap ref base a b f Hbase Ha Hb Hf.
  destruct (estimated_weight_at_most_20 acos kps) as (e & He & Hw).
  exists e. split; [exact He|]. split.
  - destruct (calculateWeightAdjustedReba_result heap ref base e None
                Hbase a b Ha Hb) as (m & Hband & Hres).
    cbv zeta in Hres. rewrite Hres. exists m.
    split; [spread_lookup; reflexivity|].
    apply (reba_band_up_to_20 _ _ Hband). exact Hw.
  - destruct (calculateWeightAdjustedRula_result heap ref base e None
                Hbase f Hf) as (m & Hband & Hres).
    cbv zeta in Hres. rewrite Hres. exists m.
    split; [spread_lookup; reflexivity|].
    apply (rula_band_up_to_20 _ _ Hband).
    rewrite rula_effective_weight. exact Hw.
Qed.

Lemma estimated_weight_never_selects_the_heavy_bands_witness :
  exists e,
    WeightDetection.estimateWeightFromPosture Libm.Math_acos overhead_pose
    = Some e /\
    (exists m,
        returned_prop
          (WeightDetection.calculateWeightAdjustedReba sample_heap
             (Some 1%positive) e None)
          "weightMultiplier" = Some (JS.VNum m) /\
        (m = 1.0%Q \/ m = 1.1%Q \/ m = 1.3%Q)) /\
    (exists m,
        returned_prop
          (WeightDetection.calculateWeightAdjustedRula sample_heap
             (Some 1%positive) e None)
          "weightMultiplier" = Some (JS.VNum m) /\
        (m = 1%Q \/ m = 1.5%Q \/ m = 2%Q)).
Proof.
  apply (estimated_weight_never_selects_the_heavy_bands Libm.Math_acos
           overhead_pose sample_heap 1%positive sample_reba_score
           4%Q 3%Q 4%Q);
    reflexivity.
Defined.

(** X13.  An effective weight of at most 5 kg leaves the scores as they
    are: for integer group scores of at most 12 the REBA adjuster returns
    the same Score A and Score B and the calculator's final score for
    them, and for an integer final score of at most 7 the RULA adjuster
    returns the same final score. *)
Theorem light_load_leaves_the_scores_unchanged :
  (forall heap ref base weightEstimation manualWeight a b,
      heap !! ref = Some base ->
      JS.num_prop base "scoreA" = Some (inject_Z a) ->
      JS.num_prop base "scoreB" = Some (inject_Z b) ->
      (a <= 12)%Z -> (b <= 12)%Z ->
      (JS.or_else manualWeight
         (WeightDetection.estimatedWeight weightEstimation) <= 5)%Q ->
      let res :=
        WeightDetection.calculateWeightAdjustedReba heap (Some ref)
          weightEstimation manualWeight in
      returned_prop res "scoreA" = Some (JS.VNum (inject_Z a)) /\
      returned_prop res "scoreB" = Some (JS.VNum (inject_Z b)) /\
      returned_prop res "finalScore"
      = Some (JS.VNum (inject_Z (RebaCalculator.getFinalScore a b 0 0)))) /\
  (forall heap ref base weightEstimation manualWeight f,
      heap !! ref = Some base ->
      JS.num_prop base "finalScore" = Some (inject_Z f) ->
      (f <= 7)%Z ->
      (JS.or_else manualWeight
         (WeightDetection.estimatedWeight weightEstimation) <= 5)%Q ->
      returned_prop
        (WeightDetection.calculateWeightAdjustedRula heap (Some ref)
           weightEstimation manualWeight)
        "finalScore" = Some (JS.VNum (inject_Z f))).
Proof.
  split.
  - intros heap ref base we manual a b Hbase Ha Hb Ha12 Hb12 Hw.
    destruct (calculateWeightAdjustedReba_result heap ref base we manual
                Hbase _ _ Ha Hb) as (m & Hband & Hres).
    rewrite (reba_band_light _ _ Hband Hw) in Hres.
    cbv zeta in *. rewrite Hres. clear Hres.
    rewrite !(Math_round_Q_integer a), !(Math_round_Q_integer b)
      by (unfold Qeq, Qmult, inject_Z; cbn [Qnum Qden]; lia).
    rewrite (Z.min_r 12 a), (Z.min_r 12 b) by lia.
    pose proof (getFinalScore_table_range a b).
    rewrite (Z.min_r 15 _) by lia.
    repeat split; spread_lookup; reflexivity.
  - intros heap ref base we manual f Hbase Hf Hf7 Hw.
    destruct (calculateWeightAdjustedRula_result heap ref base we manual
                Hbase _ Hf) as (m & Hband & Hres).
    rewrite (rula_band_light _ _ Hband) in Hres
      by (by rewrite rula_effective_weight).
    cbv zeta in *. rewrite Hres. clear Hres.
    rewrite (Math_ceil_Q_integer f)
      by (unfold Qeq, Qmult, inject_Z; cbn [Qnum Qden]; lia).
    rewrite (Z.min_r 7 f) by lia.
    spread_lookup. reflexivity.
Qed.

Lemma light_load_leaves_the_scores_unchanged_witness :
  returned_prop
    (WeightDetection.calculateWeightAdjustedRula sample_heap (Some 2%positive)
       (estimate_of 12) (Some 5%Q))
    "finalScore" = Some (JS.VNum (inject_Z 3)).
Proof.
  apply (proj2 light_load_leaves_the_scores_unchanged sample_heap 2%positive
           sample_rula_score (estimate_of 12) (Some 5%Q) 3%Z);
    try reflexivity; discriminate.
Defined.

(** X14.  A weight adjustment never lowers a score that lies within its
    range.  The RULA adjuster returns a final score of at most 7 that is
    not below a base final score between 0 and 7.  For integer group
    scores that are not negative, the REBA adjuster returns group scores
    not below the base ones cut at 12, and a final score not below the
    one the calculator gives the base group scores. *)
Theorem weight_adjustment_never_lowers_a_score :
  (forall heap ref base weightEstimation manualWeight f,
      heap !! ref = Some base ->
      JS.num_prop base "finalScore" = Some f ->
      (0 <= f)%Q -> (f <= 7)%Q ->
      exists F,
        returned_prop
          (WeightDetection.calculateWeightAdjustedRula heap (Some ref)
             weightEstimation manualWeight)
          "finalScore" = Some (JS.VNum (inject_Z F)) /\
        (f <= inject_Z F)%Q /\ (F <= 7)%Z) /\
  (forall heap ref base weightEstimation manualWeight a b,
      heap !! ref = Some base ->
      JS.num_prop base "scoreA" = Some (inject_Z a) ->
      JS.num_prop base "scoreB" = Some (inject_Z b) ->
      (0 <= a)%Z -> (0 <= b)%Z ->
      exists A B F,
        let res :=
          WeightDetection.calculateWeightAdjustedReba heap (Some ref)
            weightEstimation manualWeight in
        returned_prop res "scoreA" = Some (JS.VNum (inject_Z A)) /\
        returned_prop res "scoreB" = Some (JS.VNum (inject_Z B)) /\
        returned_prop res "finalScore" = Some (JS.VNum (inject_Z F)) /\
        (Z.min 12 a <= A)%Z /\ (Z.min 12 b <= B)%Z /\
        (RebaCalculator.getFinalScore a b 0 0 <= F)%Z).
Proof.
  split.
  - intros heap ref base we manual f Hbase Hf Hf0 Hf7.
    destruct (calculateWeightAdjustedRula_result heap ref base we manual
                Hbase f Hf) as (m & Hband%rula_band_range & Hres).
    cbv zeta in *. rewrite Hres. clear Hres.
    eexists. split; [spread_lookup; reflexivity|].
    split; [|lia].
    assert (f <= f * m)%Q as Hfm by (destruct Hband; Lqa.nra).
    pose proof (Qle_ceiling (f * m)) as Hc.
    apply Z.min_case.
    + exact Hf7.
    + fold (JS.Math_ceil_Q (f * m)) in Hc. Lqa.lra.
  - intros heap ref base we manual a b Hbase Ha Hb Ha0 Hb0.
    destruct (calculateWeightAdjustedReba_result heap ref base we manual
                Hbase _ _ Ha Hb) as (m & Hband%reba_band_range & Hres).
    cbv zeta in *. rewrite Hres. clear Hres.
    assert (forall z, (0 <= z)%Z ->
              (z <= JS.Math_round_Q (inject_Z z * m))%Z) as Hround.
    { intros z Hz.
      rewrite <- (Math_round_Q_integer z (inject_Z z)) at 1 by reflexivity.
      apply Math_round_Q_monotone.
      assert (0 <= inject_Z z)%Q
        by (unfold Qle, inject_Z; cbn [Qnum Qden]; lia).
      destruct Hband. Lqa.nra. }
    pose proof (Hround a Ha0). pose proof (Hround b Hb0).
    pose proof (getFinalScore_table_range
                  (Z.min 12 (JS.Math_round_Q (inject_Z a * m)))
                  (Z.min 12 (JS.Math_round_Q (inject_Z b * m)))).
    do 3 eexists.
    split; [spread_lookup; reflexivity|].
    split; [spread_lookup; reflexivity|].
    split; [spread_lookup; reflexivity|].
    split; [lia|]. split; [lia|].
    rewrite (Z.min_r 15 _) by lia.
    rewrite <- (getFinalScore_saturates a b).
    apply getFinalScore_monotone; lia.
Qed.

Lemma weight_adjustment_never_lowers_a_score_witness :
  exists F,
    returned_prop
      (WeightDetection.calculateWeightAdjustedRula sample_heap
         (Some 2%positive) (estimate_of 30) None)
      "finalScore" = Some (JS.VNum (inject_Z F)) /\
    (3 <= inject_Z F)%Q /\ (F <= 7)%Z.
Proof.
  apply (proj1 weight_adjustment_never_lowers_a_score sample_heap 2%positive
           sample_rula_score (estimate_of 30) None 3%Q);
    try reflexivity; discriminate.
Defined.

(** X15.  Neither adjuster writes to the heap it is given: every object,
    the base score included, is as it was after the call, and the value
    returned is a reference that was not allocated before.  The object
    behind it has every property of the base that the object literal of
    the adjuster does not list, unchanged. *)
Theorem adjusters_allocate_and_keep_the_base :
  (forall heap ref base weightEstimation manualWeight heap' v,
      heap !! ref = Some base ->
      WeightDetection.calculateWeightAdjustedReba heap (Some ref)
        weightEstimation manualWeight = Some (heap', v) ->
      (forall l o, heap !! l = Some o -> heap' !! l = Some o) /\
      exists ref' result,
        v = Some ref' /\ heap !! ref' = None /\
        heap' !! ref' = Some result /\
        forall k,
          k ∉ ["scoreA"; "scoreB"; "finalScore"; "riskLevel"; "actionLevel";
               "effectiveWeight"; "weightMultiplier"; "isWeightAdjusted"] ->
          result !! k = base !! k) /\
  (forall heap ref base weightEstimation manualWeight heap' v,
      heap !! ref = Some base ->
      WeightDetection.calculateWeightAdjustedRula heap (Some ref)
        weightEstimation manualWeight = Some (heap', v) ->
      (forall l o, heap !! l = Some o -> heap' !! l = Some o) /\
      exists ref' result,
        v = Some ref' /\ heap !! ref' = None /\
        heap' !! ref' = Some result /\
        forall k,
          k ∉ ["finalScore"; "effectiveWeight"; "weightMultiplier";
               "riskLevel"] ->
          result !! k = base !! k).
Proof.
  split; intros heap ref base we manual heap' v Hbase H.
  - destruct (adjusters_do_not_mutate heap ref we manual heap' v (or_introl H))
      as (Hkeep & ref' & -> & Hnew & [result Hres]).
    split; [exact Hkeep|]. exists ref', result.
    repeat split; try done. intros k Hk.
    by eapply reba_adjuster_spreads_base.
  - destruct (adjusters_do_not_mutate heap ref we manual heap' v (or_intror H))
      as (Hkeep & ref' & -> & Hnew & [result Hres]).
    split; [exact Hkeep|]. exists ref', result.
    repeat split; try done. intros k Hk.
    by eapply rula_adjuster_spreads_base.
Qed.

Lemma adjusters_allocate_and_keep_the_base_witness :
  exists heap' v,
    WeightDetection.calculateWeightAdjustedRula sample_heap (Some 2%positive)
      (estimate_of 12) None = Some (heap', v) /\
    (forall l o, sample_heap !! l = Some o -> heap' !! l = Some o) /\
    exists ref' result,
      v = Some ref' /\ sample_heap !! ref' = None /\
      heap' !! ref' = Some result /\
      forall k,
        k ∉ ["finalScore"; "effectiveWeight"; "weightMultiplier";
             "riskLevel"] ->
        result !! k = sample_rula_score !! k.
Proof.
  eexists _, _. split; [reflexivity|].
  apply (proj2 adjusters_allocate_and_keep_the_base sample_heap 2%positive
           sample_rula_score (estimate_of 12) None);
    reflexivity.
Defined.

(* ===================================================================== *)
(** * The RULA tables of the weight detection                             *)
(* ===================================================================== *)

Section RulaLookupFacts.

Import WeightDetection.
Local Open Scope Z_scope.

Lemma rula_scoreA_monotone_check :
  all_in_range 1 6 (fun u => all_in_range 1 6 (fun u' =>
    all_in_range 1 3 (fun l => all_in_range 1 3 (fun l' =>
      all_in_range 1 8 (fun w => all_in_range 1 8 (fun w' =>
        implb ((u <=? u') && (l <=? l') && (w <=? w'))
          match getScoreA u l w, getScoreA u' l' w' with
          | Some v, Some v' => v <=? v'
          | _, _ => false
          end)))))) = true.
Proof. vm_compute. reflexivity. Qed.

Lemma rula_getScoreA_monotone u u' l l' w w' :
  u <= u' -> l <= l' -> w <= w' ->
  exists v v',
    getScoreA u l w = Some v /\ getScoreA u' l' w' = Some v' /\ v <= v'.
Proof.
  intros Hu Hl Hw.
  rewrite (rula_getScoreA_saturates u), (rula_getScoreA_saturates u').
  pose proof rula_scoreA_monotone_check as H.
  apply (all_in_range_spec _ _ _ (clamp 1 6 u)) in H; [|unfold clamp; lia].
  apply (all_in_range_spec _ _ _ (clamp 1 6 u')) in H; [|unfold clamp; lia].
  apply (all_in_range_spec _ _ _ (clamp 1 3 l)) in H; [|unfold clamp; lia].
  apply (all_in_range_spec _ _ _ (clamp 1 3 l')) in H; [|unfold clamp; lia].
  apply (all_in_range_spec _ _ _ (clamp 1 8 w)) in H; [|unfold clamp; lia].
  apply (all_in_range_spec _ _ _ (clamp 1 8 w')) in H; [|unfold clamp; lia].
  cbv beta in H.
  destruct (Z.leb_spec (clamp 1 6 u) (clamp 1 6 u')); [|unfold clamp in *; lia].
  destruct (Z.leb_spec (clamp 1 3 l) (clamp 1 3 l')); [|unfold clamp in *; lia].
  destruct (Z.leb_spec (clamp 1 8 w) (clamp 1 8 w')); [|unfold clamp in *; lia].
  cbn [andb implb] in H.
  destruct (getScoreA (clamp 1 6 u) _ _) as [v|]; [|discriminate].
  destruct (getScoreA (clamp 1 6 u') _ _) as [v'|]; [|discriminate].
  exists v, v'. repeat split. lia.
Qed.

Lemma rula_getScoreB_monotone n n' t t' :
  n <= n' -> t <= t' ->
  exists v v',
    getScoreB n t = Some v /\ getScoreB n' t' = Some v' /\ v <= v'.
Proof.
  intros Hn Ht. unfold getScoreB.
  apply (table_monotone_spec scoreBTable 6 6); [reflexivity|lia..].
Qed.

Lemma rula_getFinalScore_monotone a a' b b' :
  a <= a' -> b <= b' ->
  exists v v',
    getFinalScore a b = Some v /\ getFinalScore a' b' = Some v' /\ v <= v'.
Proof.
  intros Ha Hb. unfold getFinalScore.
  apply (table_monotone_spec finalScoreTable 8 7); [reflexivity|lia..].
Qed.

Lemma rula_getFinalScore_at_most_6 a b :
  exists v, getFinalScore a b = Some v /\ 1 <= v <= 6.
Proof.
  unfold getFinalScore.
  destruct (table_all_spec finalScoreTable 8 7 (in_range 1 6)
              (clamp 0 7 (a - 1)) (clamp 0 6 (b - 1)) eq_refl)
    as (v & Hv & Hr%in_range_spec).
  - pose proof (clamp_bounds 0 7 (a - 1)). lia.
  - pose proof (clamp_bounds 0 6 (b - 1)). lia.
  - exists v. split; [exact Hv|lia].
Qed.

End RulaLookupFacts.

(** X16.  The RULA lookups are monotone: raising the upper arm, lower arm,
    wrist, neck or trunk score never lowers Score A, Score B or the final
    score looked up from them, for scores outside the tables too (the
    indices are clamped). *)
Theorem rula_lookups_are_monotone :
  forall upperArm upperArm' lowerArm lowerArm' wrist wrist'
         neck neck' trunk trunk',
    (upperArm <= upperArm')%Z -> (lowerArm <= lowerArm')%Z ->
    (wrist <= wrist')%Z -> (neck <= neck')%Z -> (trunk <= trunk')%Z ->
    exists A A' B B' F F',
      WeightDetection.getScoreA upperArm lowerArm wrist = Some A /\
      WeightDetection.getScoreA upperArm' lowerArm' wrist' = Some A' /\
      WeightDetection.getScoreB neck trunk = Some B /\
      WeightDetection.getScoreB neck' trunk' = Some B' /\
      WeightDetection.getFinalScore A B = Some F /\
      WeightDetection.getFinalScore A' B' = Some F' /\
      (A <= A')%Z /\ (B <= B')%Z /\ (F <= F')%Z.
Proof.
  intros u u' l l' w w' n n' t t' Hu Hl Hw Hn Ht.
  destruct (rula_getScoreA_monotone u u' l l' w w' Hu Hl Hw)
    as (A & A' & HA & HA' & HAle).
  destruct (rula_getScoreB_monotone n n' t t' Hn Ht)
    as (B & B' & HB & HB' & HBle).
  destruct (rula_getFinalScore_monotone A A' B B' HAle HBle)
    as (F & F' & HF & HF' & HFle).
  exists A, A', B, B', F, F'. repeat split; assumption.
Qed.

Lemma rula_lookups_are_monotone_witness :
  exists A A' B B' F F',
    WeightDetection.getScoreA 2 1 9 = Some A /\
    WeightDetection.getScoreA 4 3 9 = Some A' /\
    WeightDetection.getScoreB 0 3 = Some B /\
    WeightDetection.getScoreB 5 3 = Some B' /\
    WeightDetection.getFinalScore A B = Some F /\
    WeightDetection.getFinalScore A' B' = Some F' /\
    (A <= A')%Z /\ (B <= B')%Z /\ (F <= F')%Z.
Proof.
  apply rula_lookups_are_monotone; lia.
Defined.

(** X17.  The RULA final-score table holds no entry above 6: whatever the
    two group scores are, [getFinalScore] returns a score in 1..6, its
    risk level is "Acceptable", "Investigate" or "Investigate Soon",
    never "Investigate Immediately", and its stress level is the score
    itself.  A final score of 7 comes from the weight adjustment only. *)
Theorem rula_table_score_is_at_most_6 :
  forall scoreA scoreB,
    exists F,
      WeightDetection.getFinalScore scoreA scoreB = Some F /\
      (1 <= F <= 6)%Z /\
      WeightDetection.getStressLevel F = F /\
      (WeightDetection.getRiskLevel F = "Acceptable"
       \/ WeightDetection.getRiskLevel F = "Investigate"
       \/ WeightDetection.getRiskLevel F = "Investigate Soon").
Proof.
  intros a b.
  destruct (rula_getFinalScore_at_most_6 a b) as (F & HF & Hr).
  exists F. repeat split; try done; try lia.
  unfold WeightDetection.getRiskLevel.
  destruct (Z.leb_spec F 2); [auto|].
  destruct (Z.leb_spec F 4); [auto|].
  destruct (Z.leb_spec F 6); [auto|lia].
Qed.

(* ===================================================================== *)
(** * The elbow angle when rounding moves the cosine                      *)
(* ===================================================================== *)

(** [a < b] excludes [b <= a]. *)
Lemma ltb_not_leb a b : (a < b)%js = true -> (b <= a)%js = false.
Proof.
  rewrite FloatAxioms.ltb_spec, FloatAxioms.leb_spec.
  unfold SFltb, SFleb. rewrite !SFcompare_key.
  destruct (float_key (Prim2SF a)) as [ka|], (float_key (Prim2SF b)) as [kb|];
    try done.
  repeat destruct (decide _); try done. unfold key_lt in *. lia.
Qed.

(** The reference [Math.acos] is [NaN] outside [-1, 1]. *)
Lemma reference_acos_outside_domain c :
  (1 < PrimFloat.abs c)%js = true -> Libm.Math_acos c = PrimFloat.nan.
Proof.
  intros H. unfold Libm.Math_acos.
  change (PrimFloat.abs c <=? 1)%float with (PrimFloat.abs c <= 1)%js.
  rewrite (ltb_not_leb _ _ H). reflexivity.
Qed.

(** X18.  The guard also catches a cosine that rounding has pushed
    outside [-1, 1], where [Math.acos] is [NaN]: the helper then returns
    90 whatever the shape of the arm.  It does so for the straight arm
    (0,0), (2,3), (4,6), whose cosine is computed as
    1.0000000000000002. *)
Theorem elbow_angle_is_90_when_the_cosine_leaves_the_domain :
  forall (Math_acos : float -> float) shoulder elbow wrist,
    (forall c, (1 < PrimFloat.abs c)%js = true ->
               Math_acos c = PrimFloat.nan) ->
    (1 < PrimFloat.abs (segment_cosine shoulder elbow wrist))%js = true ->
    WeightDetection.calculateElbowAngle Math_acos shoulder elbow wrist
    = 90%float.
Proof.
  intros acos s e w Hacos Hc.
  apply calculateElbowAngle_nan_cosine, Hacos, Hc.
Qed.

Lemma elbow_angle_is_90_when_the_cosine_leaves_the_domain_witness :
  segment_cosine (mkKeypoint 0 0 1) (mkKeypoint 2 3 1) (mkKeypoint 4 6 1)
  = 1.0000000000000002%float
  /\ WeightDetection.calculateElbowAngle Libm.Math_acos
       (mkKeypoint 0 0 1) (mkKeypoint 2 3 1) (mkKeypoint 4 6 1) = 90%float.
Proof.
  split; [reflexivity|].
  apply (elbow_angle_is_90_when_the_cosine_leaves_the_domain Libm.Math_acos).
  - exact reference_acos_outside_domain.
  - reflexivity.
Defined.

(* ===================================================================== *)
(** * The recommendations for a REBA score                                *)
(* ===================================================================== *)

(** X20.  For a score [calculateREBA] returned, [generateRebaRecommendations]
    gives posture recommendations only: at most the trunk one and the
    legs one, the latter with priority 'medium'.  The two overall
    recommendations, 'reba-critical-overall' and 'reba-medium-overall',
    need a final score of at least 4, which [calculateREBA] never
    returns. *)
Theorem calculateREBA_gets_posture_recommendations_only :
  forall Math_atan2 keypoints r poseData,
    RebaCalculator.calculateREBA Math_atan2 keypoints = Some r ->
    let recommendations :=
      RecommendationEngine.generateRebaRecommendations r poseData in
    (length recommendations <= 2)%nat /\
    Forall (fun rec =>
              RecommendationEngine.category rec = "posture" /\
              (RecommendationEngine.id rec = "reba-trunk-high"
               \/ (RecommendationEngine.id rec = "reba-legs-high"
                   /\ RecommendationEngine.priority rec = "medium")))
      recommendations.
Proof.
  intros f kps r pd H.
  apply calculateREBA_Some in H
    as (_ & (na & ta & ka & ua & wa & Hn & Ht & Hl & Hu & Hla)
          & Hw & HA & HB & HF & _).
  pose proof (getNeckScore_unflagged na) as Nn. rewrite <- Hn in Nn.
  pose proof (getLegsScore_supported ka) as Nl. rewrite <- Hl in Nl.
  pose proof (getUpperArmScore_unflagged ua) as Nu. rewrite <- Hu in Nu.
  assert (RebaCalculator.finalScore r <= 3)%Z as Hfinal.
  { rewrite HF, HA, HB, Hw. clear HF HA HB Hw Hn Ht Hl Hu Hla.
    generalize dependent (RebaCalculator.lowerArm r).
    generalize dependent (RebaCalculator.trunk r).
    generalize dependent (RebaCalculator.upperArm r).
    generalize dependent (RebaCalculator.legs r).
    generalize dependent (RebaCalculator.neck r).
    intros n [-> | ->] l [-> | ->] u Hu t la;
      assert (u = 1 \/ u = 2 \/ u = 3 \/ u = 4)%Z
        as [-> | [-> | [-> | ->]]] by lia;
      vm_compute; discriminate. }
  unfold RecommendationEngine.generateRebaRecommendations. cbv zeta.
  destruct (Z.leb_spec 8 (RebaCalculator.finalScore r)); [lia|].
  destruct (Z.leb_spec 4 (RebaCalculator.finalScore r)); [lia|].
  destruct (Z.leb_spec 3 (RebaCalculator.legs r)); [lia|].
  destruct (Z.leb_spec 3 (RebaCalculator.trunk r)),
    (Z.leb_spec 2 (RebaCalculator.legs r));
    cbn [app length]; (split; [lia|]);
    repeat (apply Forall_cons; split; [cbn; auto|]);
    apply Forall_nil_2.
Qed.

Lemma calculateREBA_gets_posture_recommendations_only_witness :
  exists r,
    RebaCalculator.calculateREBA Libm.Math_atan2 standing_pose = Some r /\
    let recommendations :=
      RecommendationEngine.generateRebaRecommendations r None in
    (length recommendations <= 2)%nat /\
    Forall (fun rec =>
              RecommendationEngine.category rec = "posture" /\
              (RecommendationEngine.id rec = "reba-trunk-high"
               \/ (RecommendationEngine.id rec = "reba-legs-high"
                   /\ RecommendationEngine.priority rec = "medium")))
      recommendations.
Proof.
  eexists. split; [reflexivity|].
  apply (calculateREBA_gets_posture_recommendations_only
           Libm.Math_atan2 standing_pose _ None).
  reflexivity.
Defined.

(** X21.  Whatever the score is, [generateRebaRecommendations] returns at
    most three recommendations with pairwise different ids; each has a
    priority [getPriorityWeight] knows, from 'critical' (1) to 'medium'
    (3), never 'low'; and one of them is 'critical' exactly when the trunk
    score is at least 4 or the final score at least 8. *)
Theorem generateRebaRecommendations_shape :
  forall rebaScore poseData,
    let recommendations :=
      RecommendationEngine.generateRebaRecommendations rebaScore poseData in
    (length recommendations <= 3)%nat /\
    NoDup (map RecommendationEngine.id recommendations) /\
    Forall (fun rec =>
              (1 <= RecommendationEngine.getPriorityWeight
                      (RecommendationEngine.priority rec) <= 3)%Z)
      recommendations /\
    (Exists (fun rec => RecommendationEngine.priority rec = "critical")
       recommendations
     <-> (4 <= RebaCalculator.trunk rebaScore)%Z
         \/ (8 <= RebaCalculator.finalScore rebaScore)%Z).
Proof.
  intros r pd. unfold RecommendationEngine.generateRebaRecommendations.
  cbv zeta.
  repeat match goal with
         | |- context [RecommendationEngine.mkErgonomicRecommendation
                         _ _ _ ?t ?d ?a _ _ _] =>
             tryif is_var t then fail
             else (generalize t, d, a; intros ? ? ?)
         end.
  destruct (Z.leb_spec 3 (RebaCalculator.trunk r)),
    (Z.leb_spec 4 (RebaCalculator.trunk r)),
    (Z.leb_spec 2 (RebaCalculator.legs r)),
    (Z.leb_spec 3 (RebaCalculator.legs r)),
    (Z.leb_spec 8 (RebaCalculator.finalScore r)),
    (Z.leb_spec 4 (RebaCalculator.finalScore r));
    try lia; cbn [app length map];
    (split; [lia|]);
    (split; [apply (bool_decide_unpack _); vm_compute; exact I|]);
    (split; [repeat constructor; vm_compute; discriminate|]);
    (split;
     [ intros Hex;
       repeat (apply Exists_cons in Hex as [Hex|Hex];
               [cbn in Hex; try discriminate; lia|]);
       try (apply Exists_nil in Hex; contradiction); lia
     | intros Hor;
       first [ apply Exists_cons_hd; reflexivity
             | apply Exists_cons_tl, Exists_cons_hd; reflexivity
             | apply Exists_cons_tl, Exists_cons_tl, Exists_cons_hd;
               reflexivity
             | exfalso; lia ] ]).
Qed.

(** X22.  For the seventeen keypoints of a pose (or fewer),
    [generatePoseQualityRecommendations] asks for a better camera
    position exactly when fewer than 12 keypoints have a confidence above
    0.3: the test [confidence < 70] on [valid / 17 * 100], computed in
    binary64, changes between 11 and 12 valid keypoints. *)
Theorem pose_quality_is_low_below_12_valid_keypoints :
  forall keypoints : list (option Keypoint),
    (length keypoints <= 17)%nat ->
    let valid :=
      length (List.filter RecommendationEngine.isValidKeypoint keypoints) in
    let recommendations :=
      RecommendationEngine.generatePoseQualityRecommendations
        (Some {| RecommendationEngine.keypoints := Some keypoints |}) in
    ((valid < 12)%nat ->
     map RecommendationEngine.id recommendations = ["pose-quality-low"]) /\
    ((12 <= valid)%nat -> recommendations = []).
Proof.
  intros kps Hlen valid recs.
  assert (valid <= 17)%nat as Hvalid.
  { unfold valid. pose proof (List.filter_length_le
                                RecommendationEngine.isValidKeypoint kps).
    lia. }
  unfold recs, RecommendationEngine.generatePoseQualityRecommendations.
  cbn [RecommendationEngine.keypoints]. fold valid. clearbody valid.
  clear recs Hlen.
  do 18 (destruct valid as [|valid];
         [split; intros; first [lia | reflexivity]|]).
  lia.
Qed.

Lemma pose_quality_is_low_below_12_valid_keypoints_witness :
  map RecommendationEngine.id
    (RecommendationEngine.generatePoseQualityRecommendations
       (Some {| RecommendationEngine.keypoints :=
                  Some standing_pose_landmarks |}))
  = ["pose-quality-low"].
Proof.
  apply (pose_quality_is_low_below_12_valid_keypoints
           standing_pose_landmarks).
  - vm_compute. lia.
  - vm_compute. lia.
Defined.

(* ===================================================================== *)
(** * Manual weights                                                      *)
(* ===================================================================== *)

Section ManualWeightFacts.

Import ManualWeightInput.

Lemma existsb_id_false (manualWeights : list ManualWeight) (i : string) :
  existsb (fun w => String.eqb (id w) i) manualWeights = false ->
  i ∉ map id manualWeights.
Proof.
  induction manualWeights as [|w ws IH]; cbn [existsb map].
  - intros _. apply not_elem_of_nil.
  - intros [Hw Hws]%orb_false_elim. apply not_elem_of_cons. split.
    + intros ->. rewrite String.eqb_refl in Hw. discriminate.
    + by apply IH.
Qed.

Lemma handleAddWeight_adds existingWeights s w s' :
  handleAddWeight existingWeights s = (Some w, s') ->
  (id w ∉ map id existingWeights) /\ (0 < weight w)%Q.
Proof.
  unfold handleAddWeight.
  destruct (selectedDetectedObject s) as [sel|]; [|discriminate].
  unfold JS.Q_gt.
  destruct (Qle_bool_cases (customWeight s) 0) as [[-> _]|[-> Hpos]];
    [discriminate|]. cbn [negb].
  destruct (existsb _ existingWeights) eqn:Hex; [discriminate|].
  cbn [negb]. intros [= <- _]. cbn [id weight].
  split; [by apply existsb_id_false|exact Hpos].
Qed.

Lemma dialog_step_keeps manualWeights s ev :
  NoDup (map id manualWeights) ->
  Forall (fun w => (0 < weight w)%Q) manualWeights ->
  NoDup (map id (dialog_step (manualWeights, s) ev).1)
  /\ Forall (fun w => (0 < weight w)%Q) (dialog_step (manualWeights, s) ev).1.
Proof.
  intros Hids Hpos. destruct ev; cbn [dialog_step fst]; try done.
  destruct (handleAddWeight manualWeights s) as [[w|] s'] eqn:Hadd;
    cbn [fst]; [|done].
  apply handleAddWeight_adds in Hadd as [Hnew Hw].
  unfold RebaRecordingPanel.handleAddWeight. split.
  - rewrite map_app. apply NoDup_app. split; [exact Hids|]. split.
    + intros i Hi Hin. apply list_elem_of_singleton in Hin as ->.
      contradiction.
    + apply NoDup_singleton.
  - apply Forall_app. split; [exact Hpos|]. by apply Forall_singleton.
Qed.

Lemma dialog_steps_keep events st :
  NoDup (map id st.1) ->
  Forall (fun w => (0 < weight w)%Q) st.1 ->
  NoDup (map id (foldl dialog_step st events).1)
  /\ Forall (fun w => (0 < weight w)%Q) (foldl dialog_step st events).1.
Proof.
  revert st. induction events as [|ev events IH]; intros [ws s] Hids Hpos;
    [done|].
  cbn [foldl]. destruct (dialog_step_keeps ws s ev Hids Hpos) as [H1 H2].
  apply IH; assumption.
Qed.

Lemma getTotalManualWeight_from (total : Q) (manualWeights : list ManualWeight) :
  Forall (fun w => (0 < weight w)%Q) manualWeights ->
  (total <= foldl (fun total w => total + weight w) total manualWeights)%Q
  /\ (manualWeights <> [] ->
      (total < foldl (fun total w => total + weight w) total manualWeights)%Q).
Proof.
  intros H. revert total.
  induction H as [|w ws Hw Hws IH]; intros total; cbn [foldl].
  - split; [Lqa.lra|done].
  - destruct (IH (total + weight w)%Q) as [IH1 _].
    split; [|intros _]; Lqa.lra.
Qed.

End ManualWeightFacts.

(** X23.  Whatever the user does in the weight dialog (select an object,
    type a weight, add it, cancel), the manual weights of the panel keep
    pairwise different ids and weights above 0, so their total is above 0
    as soon as there is one. *)
Theorem dialog_keeps_manual_weights_distinct_and_positive :
  forall events : list DialogEvent,
    let manualWeights := (dialog_run events).1 in
    NoDup (map ManualWeightInput.id manualWeights) /\
    Forall (fun w => (0 < ManualWeightInput.weight w)%Q) manualWeights /\
    (manualWeights <> [] ->
     (0 < RebaRecordingPanel.getTotalManualWeight manualWeights)%Q).
Proof.
  intros events manualWeights.
  destruct (dialog_steps_keep events
              ([], {| ManualWeightInput.selectedDetectedObject := None;
                      ManualWeightInput.customWeight := 0 |}))
    as [Hids Hpos]; [constructor..|].
  fold (dialog_run events) in Hids, Hpos. fold manualWeights in Hids, Hpos.
  split; [exact Hids|]. split; [exact Hpos|].
  apply (getTotalManualWeight_from 0 manualWeights Hpos).
Qed.

Lemma dialog_keeps_manual_weights_distinct_and_positive_witness :
  let manualWeights :=
    (dialog_run [SelectObject sample_object; EnterWeight 750; AddWeight;
                 SelectObject sample_object; AddWeight]).1 in
  map ManualWeightInput.weight manualWeights = [750%Q] /\
  (0 < RebaRecordingPanel.getTotalManualWeight manualWeights)%Q.
Proof.
  cbv zeta. split; [reflexivity|].
  apply (dialog_keeps_manual_weights_distinct_and_positive
           [SelectObject sample_object; EnterWeight 750; AddWeight;
            SelectObject sample_object; AddWeight]).
  discriminate.
Defined.

(** X24.  In manual mode, with at least one manual weight, the panel shows
    a weight-adjusted score whose effective weight is the total of the
    manual weights, passed on as it is.  The dialog records weights in
    grams (1000 when an object is selected), the adjuster reads
    kilograms: a total above 40, so any object added at the default,
    gets the multiplier 1.8.  Stated for weights that are whole numbers
    with a total of at most 2^53, where the binary64 sum of the source is
    exact. *)
Theorem manual_mode_passes_the_total_on_as_kilograms :
  forall manualWeights heap frame ref base a b,
    manualWeights <> [] ->
    Forall (fun w => exists g : Z,
                ManualWeightInput.weight w = inject_Z g /\ (0 <= g)%Z)
      manualWeights ->
    (RebaRecordingPanel.getTotalManualWeight manualWeights
     <= 9007199254740992)%Q ->
    RebaRecordingPanel.rebaScore frame = Some ref ->
    heap !! ref = Some base ->
    JS.num_prop base "scoreA" = Some a ->
    JS.num_prop base "scoreB" = Some b ->
    let res :=
      RebaRecordingPanel.getCurrentRebaScore RebaRecordingPanel.manual
        manualWeights heap frame in
    let total := RebaRecordingPanel.getTotalManualWeight manualWeights in
    returned_prop res "effectiveWeight" = Some (JS.VNum total) /\
    returned_prop res "isWeightAdjusted" = Some (JS.VBool true) /\
    ((40 < total)%Q ->
     returned_prop res "weightMultiplier" = Some (JS.VNum 1.8)).
Proof.
  intros ws heap frame ref base a b Hws _ _ Hframe Hbase Ha Hb. cbv zeta.
  unfold RebaRecordingPanel.getCurrentRebaScore.
  destruct ws as [|w ws]; [done|]. cbv beta iota zeta.
  set (total := RebaRecordingPanel.getTotalManualWeight (w :: ws)).
  rewrite Hframe.
  destruct (calculateWeightAdjustedReba_result heap ref base
              (RebaRecordingPanel.manualEstimation total) (Some total)
              Hbase a b Ha Hb) as (m & Hband & Hres).
  cbv zeta in Hres. rewrite Hres. cbn [mbind option_bind].
  assert (JS.or_else (Some total)
            (WeightDetection.estimatedWeight
               (RebaRecordingPanel.manualEstimation total)) = total) as Heff.
  { unfold JS.or_else, RebaRecordingPanel.manualEstimation.
    cbn [WeightDetection.estimatedWeight].
    destruct (Qeq_bool total 0); reflexivity. }
  rewrite Heff in *.
  split; [spread_lookup; reflexivity|].
  split; [spread_lookup; reflexivity|].
  intros Htotal. destruct Hband as (_ & _ & _ & _ & H5).
  rewrite (H5 Htotal). spread_lookup. reflexivity.
Qed.

Lemma manual_mode_passes_the_total_on_as_kilograms_witness :
  let manualWeights := (dialog_run [SelectObject sample_object; AddWeight]).1 in
  let res :=
    RebaRecordingPanel.getCurrentRebaScore RebaRecordingPanel.manual
      manualWeights sample_heap sample_frame in
  map ManualWeightInput.weight manualWeights = [1000%Q] /\
  returned_prop res "effectiveWeight" = Some (JS.VNum 1000) /\
  returned_prop res "weightMultiplier" = Some (JS.VNum 1.8).
Proof.
  cbv zeta. split; [reflexivity|].
  destruct (manual_mode_passes_the_total_on_as_kilograms
              (dialog_run [SelectObject sample_object; AddWeight]).1
              sample_heap sample_frame 1%positive sample_reba_score 4%Q 3%Q)
    as (Heff & _ & Hmul); try reflexivity.
  - discriminate.
  - apply Forall_cons. split; [|constructor].
    exists 1000%Z. split; [reflexivity|lia].
  - vm_compute. discriminate.
  - split; [exact Heff|]. apply Hmul. reflexivity.
Defined.
